(** * Delos Python SDK: a shallow embedding and its verified properties

    The SDK wraps six remote services behind typed clients.  This file
    embeds the parts of the SDK that carry behaviour of their own: the
    derived properties of the domain models ([delos/models]), the enum
    mappers and the [get]-style lookups of the service clients
    ([delos/services]), the connection handling of [BaseClient], and the
    aggregate operations of the [DelosClient] facade ([delos/client.py]).

    Python values are modelled as follows: [int] as [Z], [str] as
    [string], [dict] as a [gmap] (or an association list where iteration
    order matters), [X | None] as [option X], enums as inductive types,
    [float] as IEEE binary64 ([spec_float] at precision 53), and a call
    that may raise as a value of [result]. *)

From Stdlib Require Import ZArith List Bool Ascii String Lia DecimalString.
From Stdlib Require Import Floats.SpecFloat.
From stdpp Require Import base decidable countable gmap strings list fin_maps.

Local Open Scope Z_scope.

(** ** Python-level conventions *)

Module Py.

(** The status codes of a failed remote call. *)
Inductive StatusCode :=
| NOT_FOUND
| INVALID_ARGUMENT
| PERMISSION_DENIED
| UNAUTHENTICATED
| FAILED_PRECONDITION
| INTERNAL
| UNAVAILABLE
| DEADLINE_EXCEEDED.

(** Exception classes that the embedded code raises, catches or lets
    through.  All of them derive from Python's [Exception]; the classes
    that derive from [BaseException] alone ([KeyboardInterrupt],
    [SystemExit]) are raised by the interpreter, not by the code embedded
    here, and are left out. *)
Inductive exn :=
| ImportError (msg : string)
| AttributeError (msg : string)
| ValueError (msg : string)
| OverflowError (msg : string)
| ZeroDivisionError (msg : string)
| FutureTimeoutError
| RpcError (code : StatusCode)
| RuntimeError (msg : string).

(** The outcome of a call: a returned value or a raised exception. *)
Inductive result (A : Type) :=
| Return (a : A)
| Raise (e : exn).
Arguments Return {A} a.
Arguments Raise {A} e.

Definition bind {A B} (r : result A) (k : A -> result B) : result B :=
  match r with
  | Return a => k a
  | Raise e => Raise e
  end.

(** [str(n)] for an [int]. *)
Definition str_of_int (n : Z) : string :=
  DecimalString.NilZero.string_of_int (Z.to_int n).

(** A dict display [{k1: v1, ..., kn: vn}]: the entries are stored from
    left to right, so that a later entry with an equal key overwrites an
    earlier one. *)
Definition dict_display {K V} `{Countable K} (entries : list (K * V)) : gmap K V :=
  foldl (fun m kv => <[ kv.1 := kv.2 ]> m) ∅ entries.

(** [mapping.get(k, default)]. *)
Definition dict_get {K V} `{Countable K} (m : gmap K V) (k : K) (default : V) : V :=
  match m !! k with
  | Some v => v
  | None => default
  end.

(** The integer types of the fields of a protobuf message, by the range of
    the values they take ([sint32], [sfixed32] have the range of [int32],
    [fixed32] that of [uint32], and so on). *)
Inductive int_type :=
| int32
| int64
| uint32
| uint64.

Definition int_range (t : int_type) : Z * Z :=
  match t with
  | int32 => (- 2 ^ 31, 2 ^ 31 - 1)
  | int64 => (- 2 ^ 63, 2 ^ 63 - 1)
  | uint32 => (0, 2 ^ 32 - 1)
  | uint64 => (0, 2 ^ 64 - 1)
  end.

(** Giving an [int] to an integer field in the constructor of a generated
    message: a value outside the range of the field is refused with a
    [ValueError]. *)
Definition int_field (t : int_type) (n : Z) : result Z :=
  if (fst (int_range t) <=? n) && (n <=? snd (int_range t))
  then Return n
  else Raise (ValueError "Value out of range"%string).

End Py.

#[global] Instance result_ret : MRet Py.result := fun A a => Py.Return a.
#[global] Instance result_bind : MBind Py.result := fun A B k r => Py.bind r k.

(** ** delos/models/deploy.py *)

Module DeployModel.

(** Both enums have a member [UNSPECIFIED]; the constructors carry the
    name of their enum to tell the two apart. *)
Inductive DeploymentStatus :=
| STATUS_UNSPECIFIED
| PENDING_APPROVAL
| PENDING_GATES
| GATES_FAILED
| IN_PROGRESS
| COMPLETED
| ROLLED_BACK
| CANCELLED
| FAILED.

Inductive DeploymentType :=
| TYPE_UNSPECIFIED
| IMMEDIATE
| GRADUAL
| CANARY
| BLUE_GREEN.

#[global] Instance DeploymentStatus_eq_dec : EqDecision DeploymentStatus.
Proof. solve_decision. Defined.

#[global] Instance DeploymentType_eq_dec : EqDecision DeploymentType.
Proof. solve_decision. Defined.

Definition all_statuses : list DeploymentStatus :=
  [STATUS_UNSPECIFIED; PENDING_APPROVAL; PENDING_GATES; GATES_FAILED;
   IN_PROGRESS; COMPLETED; ROLLED_BACK; CANCELLED; FAILED].

Definition all_types : list DeploymentType :=
  [TYPE_UNSPECIFIED; IMMEDIATE; GRADUAL; CANARY; BLUE_GREEN].

Definition status_index (s : DeploymentStatus) : nat :=
  match s with
  | STATUS_UNSPECIFIED => 0 | PENDING_APPROVAL => 1 | PENDING_GATES => 2
  | GATES_FAILED => 3 | IN_PROGRESS => 4 | COMPLETED => 5
  | ROLLED_BACK => 6 | CANCELLED => 7 | FAILED => 8
  end%nat.

Definition type_index (t : DeploymentType) : nat :=
  match t with
  | TYPE_UNSPECIFIED => 0 | IMMEDIATE => 1 | GRADUAL => 2
  | CANARY => 3 | BLUE_GREEN => 4
  end%nat.

#[global] Program Instance DeploymentStatus_countable : Countable DeploymentStatus :=
  inj_countable' status_index (fun n => nth n all_statuses STATUS_UNSPECIFIED) _.
Next Obligation. by intros []. Qed.

#[global] Program Instance DeploymentType_countable : Countable DeploymentType :=
  inj_countable' type_index (fun n => nth n all_types TYPE_UNSPECIFIED) _.
Next Obligation. by intros []. Qed.

(** The fields of [Deployment] that its derived properties read. *)
Record Deployment := {
  id : string;
  prompt_id : string;
  from_version : Z;
  to_version : Z;
  environment : string;
  status : DeploymentStatus;
  status_message : string;
  gates_passed : bool;
}.

(** [x in (a, b, c)]: membership in a tuple, by equality. *)
Definition member {A} `{EqDecision A} (x : A) (xs : list A) : bool :=
  existsb (fun y => bool_decide (x = y)) xs.

Definition is_active (d : Deployment) : bool :=
  member (status d) [PENDING_APPROVAL; PENDING_GATES; IN_PROGRESS].

Definition is_complete (d : Deployment) : bool :=
  member (status d) [COMPLETED; ROLLED_BACK; CANCELLED; FAILED; GATES_FAILED].

End DeployModel.

(** ** delos/services/deploy.py: the enum mappers *)

Module DeployService.
Import DeployModel.

(** The generated module [deploy.v1.deploy_pb2] is not part of the
    repository.  The mappers only read its enum constants, which are taken
    here as a parameter: one wire number per constant. *)
Record deploy_pb2 := {
  DEPLOYMENT_TYPE_UNSPECIFIED : Z;
  DEPLOYMENT_TYPE_IMMEDIATE : Z;
  DEPLOYMENT_TYPE_GRADUAL : Z;
  DEPLOYMENT_TYPE_CANARY : Z;
  DEPLOYMENT_TYPE_BLUE_GREEN : Z;
  DEPLOYMENT_STATUS_UNSPECIFIED : Z;
  DEPLOYMENT_STATUS_PENDING_APPROVAL : Z;
  DEPLOYMENT_STATUS_PENDING_GATES : Z;
  DEPLOYMENT_STATUS_GATES_FAILED : Z;
  DEPLOYMENT_STATUS_IN_PROGRESS : Z;
  DEPLOYMENT_STATUS_COMPLETED : Z;
  DEPLOYMENT_STATUS_ROLLED_BACK : Z;
  DEPLOYMENT_STATUS_CANCELLED : Z;
  DEPLOYMENT_STATUS_FAILED : Z;
}.

Definition _type_to_pb (pb : deploy_pb2) (t : DeploymentType) : Z :=
  let mapping := Py.dict_display [
    (TYPE_UNSPECIFIED, DEPLOYMENT_TYPE_UNSPECIFIED pb);
    (IMMEDIATE, DEPLOYMENT_TYPE_IMMEDIATE pb);
    (GRADUAL, DEPLOYMENT_TYPE_GRADUAL pb);
    (CANARY, DEPLOYMENT_TYPE_CANARY pb);
    (BLUE_GREEN, DEPLOYMENT_TYPE_BLUE_GREEN pb)
  ] in
  Py.dict_get mapping t (DEPLOYMENT_TYPE_UNSPECIFIED pb).

Definition _type_from_pb (pb : deploy_pb2) (t : Z) : DeploymentType :=
  let mapping := Py.dict_display [
    (DEPLOYMENT_TYPE_UNSPECIFIED pb, TYPE_UNSPECIFIED);
    (DEPLOYMENT_TYPE_IMMEDIATE pb, IMMEDIATE);
    (DEPLOYMENT_TYPE_GRADUAL pb, GRADUAL);
    (DEPLOYMENT_TYPE_CANARY pb, CANARY);
    (DEPLOYMENT_TYPE_BLUE_GREEN pb, BLUE_GREEN)
  ] in
  Py.dict_get mapping t TYPE_UNSPECIFIED.

Definition _status_to_pb (pb : deploy_pb2) (s : DeploymentStatus) : Z :=
  let mapping := Py.dict_display [
    (STATUS_UNSPECIFIED, DEPLOYMENT_STATUS_UNSPECIFIED pb);
    (PENDING_APPROVAL, DEPLOYMENT_STATUS_PENDING_APPROVAL pb);
    (PENDING_GATES, DEPLOYMENT_STATUS_PENDING_GATES pb);
    (GATES_FAILED, DEPLOYMENT_STATUS_GATES_FAILED pb);
    (IN_PROGRESS, DEPLOYMENT_STATUS_IN_PROGRESS pb);
    (COMPLETED, DEPLOYMENT_STATUS_COMPLETED pb);
    (ROLLED_BACK, DEPLOYMENT_STATUS_ROLLED_BACK pb);
    (CANCELLED, DEPLOYMENT_STATUS_CANCELLED pb);
    (FAILED, DEPLOYMENT_STATUS_FAILED pb)
  ] in
  Py.dict_get mapping s (DEPLOYMENT_STATUS_UNSPECIFIED pb).

Definition _status_from_pb (pb : deploy_pb2) (s : Z) : DeploymentStatus :=
  let mapping := Py.dict_display [
    (DEPLOYMENT_STATUS_UNSPECIFIED pb, STATUS_UNSPECIFIED);
    (DEPLOYMENT_STATUS_PENDING_APPROVAL pb, PENDING_APPROVAL);
    (DEPLOYMENT_STATUS_PENDING_GATES pb, PENDING_GATES);
    (DEPLOYMENT_STATUS_GATES_FAILED pb, GATES_FAILED);
    (DEPLOYMENT_STATUS_IN_PROGRESS pb, IN_PROGRESS);
    (DEPLOYMENT_STATUS_COMPLETED pb, COMPLETED);
    (DEPLOYMENT_STATUS_ROLLED_BACK pb, ROLLED_BACK);
    (DEPLOYMENT_STATUS_CANCELLED pb, CANCELLED);
    (DEPLOYMENT_STATUS_FAILED pb, FAILED)
  ] in
  Py.dict_get mapping s STATUS_UNSPECIFIED.

(** The wire numbers that the two mapping tables mention. *)
Definition type_wire_values (pb : deploy_pb2) : list Z :=
  map (_type_to_pb pb) all_types.

Definition status_wire_values (pb : deploy_pb2) : list Z :=
  map (_status_to_pb pb) all_statuses.

(** One possible numbering, in the manner of protobuf enums: the constants
    of each enum are numbered from zero in the order of the tables. *)
Definition consecutive_pb2 : deploy_pb2 := {|
  DEPLOYMENT_TYPE_UNSPECIFIED := 0;
  DEPLOYMENT_TYPE_IMMEDIATE := 1;
  DEPLOYMENT_TYPE_GRADUAL := 2;
  DEPLOYMENT_TYPE_CANARY := 3;
  DEPLOYMENT_TYPE_BLUE_GREEN := 4;
  DEPLOYMENT_STATUS_UNSPECIFIED := 0;
  DEPLOYMENT_STATUS_PENDING_APPROVAL := 1;
  DEPLOYMENT_STATUS_PENDING_GATES := 2;
  DEPLOYMENT_STATUS_GATES_FAILED := 3;
  DEPLOYMENT_STATUS_IN_PROGRESS := 4;
  DEPLOYMENT_STATUS_COMPLETED := 5;
  DEPLOYMENT_STATUS_ROLLED_BACK := 6;
  DEPLOYMENT_STATUS_CANCELLED := 7;
  DEPLOYMENT_STATUS_FAILED := 8;
|}.

End DeployService.

(** ** delos/models/prompt.py *)

Module PromptModel.
Local Open Scope string_scope.

(** *** [str.replace] *)

(** [s.replace(old, new)] for a non-empty [old]: the occurrences of [old]
    are found from left to right and do not overlap.  [skip] counts the
    characters of the occurrence just replaced that are still to be passed
    over. *)
Fixpoint replace_from (old new : string) (skip : nat) (s : string) : string :=
  match s with
  | EmptyString => EmptyString
  | String c s' =>
      match skip with
      | S k => replace_from old new k s'
      | O =>
          if String.prefix old (String c s')
          then new ++ replace_from old new (String.length old - 1) s'
          else String c (replace_from old new O s')
      end
  end.

(** [s.replace("", new)] puts [new] before every character and at the end. *)
Fixpoint replace_empty (new : string) (s : string) : string :=
  match s with
  | EmptyString => new
  | String c s' => new ++ String c (replace_empty new s')
  end.

Definition str_replace (s old new : string) : string :=
  match old with
  | EmptyString => replace_empty new s
  | String _ _ => replace_from old new O s
  end.

(** *** The models *)

Record PromptVersion := {
  version : Z;
  template : string;
  system_prompt : string;
  model : string;
  max_tokens : Z;
  created_by : string;
  commit_message : string;
}.

(** [created_by] of [Prompt] is [created_by_user] here, the name being
    taken by the field of [PromptVersion]. *)
Record Prompt := {
  id : string;
  name : string;
  slug : string;
  description : string;
  current_version : Z;
  versions : list PromptVersion;
  tags : list string;
  created_by_user : string;
}.

(** [version or self.current_version]: [None] and [0] are both falsy. *)
Definition version_or (version : option Z) (current : Z) : Z :=
  match version with
  | Some n => if Z.eqb n 0 then current else n
  | None => current
  end.

Definition get_version (p : Prompt) (version : option Z) : option PromptVersion :=
  let target := version_or version (current_version p) in
  find (fun v => Z.eqb (PromptModel.version v) target) (versions p).


(** The placeholder [f"{{{{{name}}}}}"], that is, the name between two
    pairs of braces. *)
Definition placeholder (name : string) : string :=
  "{{" ++ name ++ "}}".

(** [variables] is a [dict[str, str] | None]; [items] lists it in
    insertion order. *)
Definition render (p : Prompt) (variables : option (list (string * string)))
    (version : option Z) : Py.result string :=
  match get_version p version with
  | None =>
      Py.Raise (Py.ValueError
        ("Version " ++ Py.str_of_int (version_or version (current_version p)) ++ " not found"))
  | Some v =>
      let template := template v in
      match variables with
      | None | Some [] => Py.Return template
      | Some items =>
          Py.Return
            (fold_left (fun template kv => str_replace template (placeholder kv.1) kv.2)
               items template)
      end
  end.

(** *** Templates as sequences of text pieces and placeholders *)

Inductive segment :=
| Text (s : string)
| Hole (name : string).

Definition segment_text (g : segment) : string :=
  match g with
  | Text s => s
  | Hole n => placeholder n
  end.

Definition flatten (segs : list segment) : string :=
  fold_right (fun g rest => segment_text g ++ rest) "" segs.

Definition lookup_variable (items : list (string * string)) (n : string) : option string :=
  match find (fun kv => String.eqb kv.1 n) items with
  | Some kv => Some kv.2
  | None => None
  end.

(** What the specification describes: every placeholder is replaced by
    the value supplied for its name, and a placeholder without a supplied
    value stays as it is. *)
Definition filled (items : list (string * string)) (segs : list segment) : list segment :=
  map (fun g =>
    match g with
    | Text s => Text s
    | Hole n =>
        match lookup_variable items n with
        | Some v => Text v
        | None => Hole n
        end
    end) segs.

Definition substitute (items : list (string * string)) (segs : list segment) : string :=
  flatten (filled items segs).

(** One replacement step seen on the segments: the placeholders named
    [n] are filled with [v]. *)
Definition fill (n v : string) (g : segment) : segment :=
  match g with
  | Text s => Text s
  | Hole m => if String.eqb n m then Text v else Hole m
  end.

Definition items_of (variables : option (list (string * string))) : list (string * string) :=
  match variables with
  | Some items => items
  | None => []
  end.

Fixpoint has_char (c : ascii) (s : string) : bool :=
  match s with
  | EmptyString => false
  | String c' s' => Ascii.eqb c c' || has_char c s'
  end.

Definition no_open (s : string) : bool := negb (has_char "{" s).
Definition no_brace (s : string) : bool := negb (has_char "{" s) && negb (has_char "}" s).

(** The names of the placeholders contain no brace. *)
Definition brace_free_names (segs : list segment) : bool :=
  forallb (fun g => match g with Text _ => true | Hole n => no_brace n end) segs.

(** Reading a piece of text in search of two opening braces side by side:
    [prev] tells whether the character before is an opening brace; the
    result is [None] when two are found, and otherwise tells whether the
    text ends with one. *)
Fixpoint scan_text (prev : bool) (s : string) : option bool :=
  match s with
  | EmptyString => Some prev
  | String c s' =>
      if Ascii.eqb c "{"
      then if prev then None else scan_text true s'
      else scan_text false s'
  end.

(** No two opening braces stand side by side in the text of a template,
    the braces of its placeholders apart.  Pieces of text that follow one
    another are read as one text. *)
Fixpoint no_double_open_from (prev : bool) (segs : list segment) : bool :=
  match segs with
  | [] => true
  | Text s :: rest =>
      match scan_text prev s with
      | Some prev' => no_double_open_from prev' rest
      | None => false
      end
  | Hole _ :: rest => no_double_open_from false rest
  end.

Definition no_double_open (segs : list segment) : bool :=
  no_double_open_from false segs.

(** A prompt with the given versions, the other fields at their defaults. *)
Definition prompt_with (current : Z) (vs : list PromptVersion) : Prompt :=
  {| id := "p"; name := "p"; slug := ""; description := "";
     current_version := current; versions := vs; tags := [];
     created_by_user := "" |}.

Definition version_with (n : Z) (t : string) : PromptVersion :=
  {| version := n; template := t; system_prompt := ""; model := "";
     max_tokens := 1024; created_by := ""; commit_message := "" |}.

End PromptModel.

(** ** Python [float] and [int / int] *)

Module PyFloat.

(** A Python [float] is an IEEE binary64 number. *)
Definition prec : Z := 53.
Definition emax : Z := 1024.

(** [float(n)], rounded to nearest even; exact up to [2^53].  (Python
    raises [OverflowError] for an [n] beyond the range of floats; the
    constants converted here are small.) *)
Definition of_int (n : Z) : spec_float := binary_normalize prec emax n 0 false.

(** An integer as an exact, not yet rounded, binary number. *)
Definition exact_int (n : Z) : spec_float :=
  match n with
  | Z0 => S754_zero false
  | Zpos m => S754_finite false m 0
  | Zneg m => S754_finite true m 0
  end.

(** [a / b] on two [int]s: the quotient of the two integers, rounded once
    to the nearest float.  Python raises where IEEE arithmetic would give
    an infinity or a NaN. *)
Definition int_truediv (a b : Z) : Py.result spec_float :=
  if Z.eqb b 0 then Py.Raise (Py.ZeroDivisionError "division by zero")
  else
    match SFdiv prec emax (exact_int a) (exact_int b) with
    | S754_infinity _ | S754_nan =>
        Py.Raise (Py.OverflowError "integer division result too large for a float")
    | q => Py.Return q
    end.

(** [x * n] for a float [x] and an int [n]: [n] is converted first. *)
Definition mul_int (x : spec_float) (n : Z) : spec_float :=
  SFmul prec emax x (of_int n).

Definition zero : spec_float := S754_zero false.

End PyFloat.

(** ** delos/models/eval.py *)

Module EvalModel.

Inductive EvalRunStatus :=
| UNSPECIFIED
| PENDING
| RUNNING
| COMPLETED
| FAILED
| CANCELLED.

Record EvalRun := {
  id : string;
  name : string;
  description : string;
  prompt_id : string;
  prompt_version : Z;
  dataset_id : string;
  status : EvalRunStatus;
  error_message : string;
  total_examples : Z;
  completed_examples : Z;
  created_by : string;
}.

Definition progress (r : EvalRun) : Py.result spec_float :=
  if Z.eqb (total_examples r) 0 then Py.Return PyFloat.zero
  else
    q ← PyFloat.int_truediv (completed_examples r) (total_examples r);
    Py.Return (PyFloat.mul_int q 100).

(** A run with the given counters, the other fields at their defaults. *)
Definition run_with (total completed : Z) : EvalRun :=
  {| id := "r"; name := "r"; description := ""; prompt_id := "";
     prompt_version := 0; dataset_id := ""; status := UNSPECIFIED;
     error_message := ""; total_examples := total;
     completed_examples := completed; created_by := "" |}.

End EvalModel.

(** ** Stateful code: a state and exception monad *)

Module Eff.

(** A computation over a mutable state [S]: it ends by returning or by
    raising, and in both cases leaves a state behind. *)
Definition eff (S A : Type) : Type := S -> Py.result A * S.

Definition ret {S A} (a : A) : eff S A := fun s => (Py.Return a, s).

Definition raise {S A} (e : Py.exn) : eff S A := fun s => (Py.Raise e, s).

Definition bind {S A B} (m : eff S A) (k : A -> eff S B) : eff S B :=
  fun s =>
    match m s with
    | (Py.Return a, s') => k a s'
    | (Py.Raise e, s') => (Py.Raise e, s')
    end.

Definition modify {S} (f : S -> S) : eff S unit := fun s => (Py.Return tt, f s).

(** [try: body / except cls: handler], where [catches e] tells whether the
    raised exception is an instance of [cls]. *)
Definition try_except {S A} (body : eff S A) (catches : Py.exn -> bool)
    (handler : eff S A) : eff S A :=
  fun s =>
    match body s with
    | (Py.Return a, s') => (Py.Return a, s')
    | (Py.Raise e, s') => if catches e then handler s' else (Py.Raise e, s')
    end.

(** [try: body / finally: cleanup]: the cleanup always runs; an exception
    raised by the cleanup replaces the outcome of the body. *)
Definition try_finally {S A} (body : eff S A) (cleanup : eff S unit) : eff S A :=
  fun s =>
    match body s with
    | (r, s') =>
        match cleanup s' with
        | (Py.Return _, s'') => (r, s'')
        | (Py.Raise e, s'') => (Py.Raise e, s'')
        end
    end.

(** [for x in xs: body]. *)
Fixpoint for_each {S A} (xs : list A) (body : A -> eff S unit) : eff S unit :=
  match xs with
  | [] => ret tt
  | x :: xs' => bind (body x) (fun _ => for_each xs' body)
  end.

(** The classes of the two [except] clauses in use. *)
Definition is_Exception (e : Py.exn) : bool := true.

Definition is_FutureTimeoutError (e : Py.exn) : bool :=
  match e with
  | Py.FutureTimeoutError => true
  | _ => false
  end.

End Eff.

#[global] Instance eff_ret {S} : MRet (Eff.eff S) := fun A a => Eff.ret a.
#[global] Instance eff_bind {S} : MBind (Eff.eff S) := fun A B k m => Eff.bind m k.

(** ** delos/config.py *)

Module Config.
Local Open Scope string_scope.

Record ServiceEndpoint := {
  host : string;
  port : Z;
  use_tls : bool;
}.

Definition address (e : ServiceEndpoint) : string :=
  host e ++ ":" ++ Py.str_of_int (port e).

Record DelosConfig := {
  observe : ServiceEndpoint;
  runtime : ServiceEndpoint;
  prompt : ServiceEndpoint;
  datasets : ServiceEndpoint;
  eval : ServiceEndpoint;
  deploy : ServiceEndpoint;
  api_key : option string;
  timeout : spec_float;
  connect_timeout : spec_float;
}.

Definition default_endpoint (p : Z) : ServiceEndpoint :=
  {| host := "localhost"; port := p; use_tls := false |}.

(** [DelosConfig()] *)
Definition default_config : DelosConfig :=
  {| observe := default_endpoint 9000; runtime := default_endpoint 9001;
     prompt := default_endpoint 9002; datasets := default_endpoint 9003;
     eval := default_endpoint 9004; deploy := default_endpoint 9005;
     api_key := None; timeout := PyFloat.of_int 30;
     connect_timeout := PyFloat.of_int 10 |}.

End Config.

(** ** The gRPC runtime, as far as the SDK uses it *)

Module Grpc.

(** A channel is known by the number the runtime gave it. *)
Definition Channel := nat.

Inductive event :=
| SecureChannel (h : Channel) (target : string)
| InsecureChannel (h : Channel) (target : string)
| ChannelClose (h : Channel).

(** The runtime: the next free channel number, what has happened so far,
    and, as the behaviour of the environment, the exception (if any) that
    closing a given channel raises. *)
Record runtime := {
  next_channel : Channel;
  trace : list event;
  close_error : Channel -> option Py.exn;
}.

Definition log (ev : event) (g : runtime) : runtime :=
  {| next_channel := next_channel g; trace := trace g ++ [ev];
     close_error := close_error g |}.

Definition fresh (g : runtime) : runtime :=
  {| next_channel := S (next_channel g); trace := trace g;
     close_error := close_error g |}.

Definition is_creation (ev : event) : bool :=
  match ev with
  | SecureChannel _ _ | InsecureChannel _ _ => true
  | ChannelClose _ => false
  end.

(** The channels created so far. *)
Definition created (g : runtime) : list event := List.filter is_creation (trace g).

Definition initial : runtime :=
  {| next_channel := O; trace := []; close_error := fun _ => None |}.

End Grpc.

(** ** delos/services/base.py *)

Module Base.
Import Eff.

Record BaseClient := {
  _endpoint : Config.ServiceEndpoint;
  _timeout : spec_float;
  _channel : option Grpc.Channel;
}.

Definition set_channel (ch : option Grpc.Channel) (c : BaseClient) : BaseClient :=
  {| _endpoint := _endpoint c; _timeout := _timeout c; _channel := ch |}.

(** [BaseClient(endpoint, timeout)] *)
Definition init (endpoint : Config.ServiceEndpoint) (timeout : spec_float) : BaseClient :=
  {| _endpoint := endpoint; _timeout := timeout; _channel := None |}.

(** The state that the methods of one client act on: the client object
    and the gRPC runtime. *)
Definition state : Type := BaseClient * Grpc.runtime.

(** [grpc.secure_channel(address, credentials)] when the endpoint asks
    for TLS, [grpc.insecure_channel(address)] otherwise. *)
Definition creation (e : Config.ServiceEndpoint) (h : Grpc.Channel) : Grpc.event :=
  if Config.use_tls e
  then Grpc.SecureChannel h (Config.address e)
  else Grpc.InsecureChannel h (Config.address e).

Definition open_channel (e : Config.ServiceEndpoint) : eff state Grpc.Channel :=
  fun '(c, g) =>
    let h := Grpc.next_channel g in
    (Py.Return h, (c, Grpc.fresh (Grpc.log (creation e h) g))).

(** [channel.close()] *)
Definition channel_close (h : Grpc.Channel) : eff state unit :=
  fun '(c, g) =>
    match Grpc.close_error g h with
    | Some e => (Py.Raise e, (c, g))
    | None => (Py.Return tt, (c, Grpc.log (Grpc.ChannelClose h) g))
    end.

Definition read_channel : eff state (option Grpc.Channel) :=
  fun '(c, g) => (Py.Return (_channel c), (c, g)).

Definition write_channel (ch : option Grpc.Channel) : eff state unit :=
  fun '(c, g) => (Py.Return tt, (set_channel ch c, g)).

Definition read_endpoint : eff state Config.ServiceEndpoint :=
  fun '(c, g) => (Py.Return (_endpoint c), (c, g)).

(** The [channel] property, run without interference.  The final
    [return self._channel] reads the field again. *)
Definition channel : eff state (option Grpc.Channel) :=
  ch ← read_channel;
  _ ← match ch with
      | None =>
          e ← read_endpoint;
          h ← open_channel e;
          write_channel (Some h)
      | Some _ => ret tt
      end;
  read_channel.

Definition close : eff state unit :=
  ch ← read_channel;
  match ch with
  | Some h =>
      _ ← channel_close h;
      write_channel None
  | None => ret tt
  end.

(** A client whose channel has been asked for once. *)
Definition after_first_use : state :=
  snd (channel (init (Config.default_endpoint 9002) (PyFloat.of_int 30), Grpc.initial)).

(** [n] calls of [channel], one after the other; the values returned. *)
Fixpoint channel_calls (n : nat) : eff state (list (option Grpc.Channel)) :=
  match n with
  | O => ret []
  | S n' =>
      r ← channel;
      rs ← channel_calls n';
      ret (r :: rs)
  end.

(** *** Calls to [channel] from several threads

    A thread that evaluates the [channel] property passes through the
    statements of its body one at a time, and another thread may run
    between any two of them.  [Creating] is the point after the test
    [self._channel is None] succeeded, [Storing h] the point after the
    channel [h] was created and before it is assigned, [Returning] the
    point before [return self._channel]. *)
Inductive thread :=
| Start
| Creating
| Storing (h : Grpc.Channel)
| Returning
| Done (r : option Grpc.Channel).

Definition step_thread (t : thread) (s : state) : thread * state :=
  match t with
  | Start =>
      match _channel (fst s) with
      | None => (Creating, s)
      | Some _ => (Returning, s)
      end
  | Creating =>
      match open_channel (_endpoint (fst s)) s with
      | (Py.Return h, s') => (Storing h, s')
      | (Py.Raise _, s') => (Done None, s')
      end
  | Storing h => (Returning, snd (write_channel (Some h) s))
  | Returning => (Done (_channel (fst s)), s)
  | Done r => (Done r, s)
  end.

(** The threads of a program and the state they share; [schedule] names,
    step by step, the thread that runs next. *)
Fixpoint run_threads (schedule : list nat) (ts : list thread) (s : state)
    : list thread * state :=
  match schedule with
  | [] => (ts, s)
  | i :: schedule' =>
      match ts !! i with
      | Some t =>
          let '(t', s') := step_thread t s in
          run_threads schedule' (<[ i := t' ]> ts) s'
      | None => run_threads schedule' ts s
      end
  end.

End Base.

(** ** delos/services: what the six service clients have in common *)

Module Service.
Import Eff.

(** A stub of the generated code, bound to the channel it was built on. *)
Record Stub := { stub_channel : option Grpc.Channel }.

(** A service client: a [BaseClient] with a lazily built stub.  The six
    client classes differ in the stub class and in their methods, not in
    their state. *)
Record ServiceClient := {
  base : Base.BaseClient;
  _stub : option Stub;
}.

(** [XClient(endpoint, timeout)] *)
Definition init (endpoint : Config.ServiceEndpoint) (timeout : spec_float) : ServiceClient :=
  {| base := Base.init endpoint timeout; _stub := None |}.

Definition state : Type := ServiceClient * Grpc.runtime.

(** A method inherited from [BaseClient] acts on the base part. *)
Definition inherited {A} (m : eff Base.state A) : eff state A :=
  fun '(c, g) =>
    match m (base c, g) with
    | (r, (b', g')) => (r, ({| base := b'; _stub := _stub c |}, g'))
    end.

Definition read_stub : eff state (option Stub) :=
  fun '(c, g) => (Py.Return (_stub c), (c, g)).

Definition write_stub (st : Stub) : eff state unit :=
  fun '(c, g) => (Py.Return tt, ({| base := base c; _stub := Some st |}, g)).

Definition close : eff state unit := inherited Base.close.

(** The [stub] property.  [generated] tells whether the generated module
    [*_pb2_grpc] could be imported. *)
Definition stub (generated : bool) : eff state Stub :=
  st ← read_stub;
  match st with
  | Some st => ret st
  | None =>
      if generated then
        ch ← inherited Base.channel;
        _ ← write_stub {| stub_channel := ch |};
        ret {| stub_channel := ch |}
      else
        raise (Py.ImportError "Generated protobuf code not found. Run 'buf generate' first.")
  end.

(** A service client whose stub has been asked for once. *)
Definition after_first_use : state :=
  snd (stub true (init (Config.default_endpoint 9002) (PyFloat.of_int 30), Grpc.initial)).

(** A remote method of a stub: the service answers a request with a
    response or with a failure. *)
Definition rpc (Request Response : Type) : Type := Request -> Py.result Response.

(** The remote call itself leaves the client as it is. *)
Definition remote {Request Response} (method : rpc Request Response)
    (request : Request) : eff state Response :=
  fun s => (method request, s).

(** [self.stub.Method(request, timeout=self._timeout)] *)
Definition invoke {Request Response} (generated : bool) (method : rpc Request Response)
    (request : Request) : eff state Response :=
  _ ← stub generated;
  remote method request.

(** A step that leaves the client as it is and ends as [r] does. *)
Definition outcome {A} (r : Py.result A) : eff state A :=
  fun s => (r, s).

(** [x_pb2.SomeRequest(...)]: building a message needs the generated module
    [*_pb2]; without it the name is bound to [None] and the attribute
    access raises.  With it, the constructor may refuse a value, in which
    case [built] is the exception it raises. *)
Definition message {A} (generated : bool) (built : Py.result A) : eff state A :=
  if generated then outcome built
  else raise (Py.AttributeError "'NoneType' object has no attribute").

(** A message received from the service, as a conversion [_to_x] sees it.
    A conversion maps the fields of the message to those of the model; on
    the way it calls into the protobuf library for the fields that are
    themselves messages ([Timestamp.ToDatetime] for each timestamp that is
    set, which raises for a timestamp that is no [datetime];
    [MessageToDict] for a struct), and the model class validates what it is
    given.  [payload] holds the fields that the models here keep;
    [unconvertible] is the exception that the conversion of the other
    fields raises, if it raises. *)
Record response (Msg : Type) := {
  payload : Msg;
  unconvertible : option Py.exn;
}.
Arguments payload {Msg} r.
Arguments unconvertible {Msg} r.

(** [self._to_x(response.x)], for the mapping [fields] of the fields kept. *)
Definition converted {Msg Model} (fields : Msg -> Model) (r : response Msg)
    : Py.result Model :=
  match unconvertible r with
  | Some e => Py.Raise e
  | None => Py.Return (fields (payload r))
  end.

(** The body shared by every lookup method ([PromptClient.get],
    [PromptClient.get_version], [DeployClient.get], [DatasetsClient.get],
    [EvalClient.get_run], [ObserveClient.get_trace]):
<<
    request = x_pb2.GetXRequest(...)
    try:
        response = self.stub.GetX(request, timeout=self._timeout)
        return self._to_x(response.x)
    except Exception:
        return None
>> *)
Definition lookup {Request Response Model} (generated : bool)
    (method : rpc Request Response) (convert : Response -> Py.result Model)
    (request : Py.result Request) : eff state (option Model) :=
  request ← message generated request;
  try_except
    (response ← invoke generated method request;
     model ← outcome (convert response);
     ret (Some model))
    is_Exception
    (ret None).

(** The body shared by the methods that do not catch:
<<
    request = x_pb2.SomeRequest(...)
    response = self.stub.Some(request, timeout=self._timeout)
    return convert(response)
>> *)
Definition call {Request Response Model} (generated : bool)
    (method : rpc Request Response) (convert : Response -> Py.result Model)
    (request : Py.result Request) : eff state Model :=
  request ← message generated request;
  response ← invoke generated method request;
  outcome (convert response).

End Service.

(** ** delos/services/prompt.py *)

Module PromptClient.

(** The messages of the generated module [prompt.v1.prompt_pb2], which is
    not part of the repository, with the fields that the client reads and
    writes. *)
Record PromptVersion_pb := {
  pb_version : Z;
  pb_template : string;
  pb_system_prompt : string;
  pb_model : string;
  pb_max_tokens : Z;
  pb_created_by : string;
  pb_commit_message : string;
}.

Record Prompt_pb := {
  pb_id : string;
  pb_name : string;
  pb_slug : string;
  pb_description : string;
  pb_current_version : Z;
  pb_versions : list PromptVersion_pb;
  pb_tags : list string;
  pb_prompt_created_by : string;
}.

Record GetPromptRequest := { req_id : string; req_version : Z }.
Record GetPromptVersionRequest := { vreq_id : string; vreq_version : Z }.
Record DeletePromptRequest := { dreq_id : string }.

(** What the client depends on in the schema of the two requests: the
    integer type of their field [version]. *)
Record prompt_pb2 := {
  GetPromptRequest_version : Py.int_type;
  GetPromptVersionRequest_version : Py.int_type;
}.

(** The remote service, as seen through [PromptServiceStub]. *)
Record PromptService := {
  GetPrompt : Service.rpc GetPromptRequest (Service.response Prompt_pb);
  GetPromptVersion :
    Service.rpc GetPromptVersionRequest (Service.response PromptVersion_pb);
  DeletePrompt : Service.rpc DeletePromptRequest bool;
}.

Definition _to_version (pb : PromptVersion_pb) : PromptModel.PromptVersion :=
  {| PromptModel.version := pb_version pb;
     PromptModel.template := pb_template pb;
     PromptModel.system_prompt := pb_system_prompt pb;
     PromptModel.model := pb_model pb;
     PromptModel.max_tokens := pb_max_tokens pb;
     PromptModel.created_by := pb_created_by pb;
     PromptModel.commit_message := pb_commit_message pb |}.

Definition _to_prompt (pb : Prompt_pb) : PromptModel.Prompt :=
  let versions := map _to_version (pb_versions pb) in
  {| PromptModel.id := pb_id pb;
     PromptModel.name := pb_name pb;
     PromptModel.slug := pb_slug pb;
     PromptModel.description := pb_description pb;
     PromptModel.current_version := pb_current_version pb;
     PromptModel.versions := versions;
     PromptModel.tags := pb_tags pb;
     PromptModel.created_by_user := pb_prompt_created_by pb |}.

(** [prompt_pb2.GetPromptRequest(id=id_or_slug, version=version or 0)] *)
Definition GetPromptRequest_new (pb2 : prompt_pb2) (id : string) (version : Z)
    : Py.result GetPromptRequest :=
  version ← Py.int_field (GetPromptRequest_version pb2) version;
  Py.Return {| req_id := id; req_version := version |}.

(** [prompt_pb2.GetPromptVersionRequest(id=id, version=version)] *)
Definition GetPromptVersionRequest_new (pb2 : prompt_pb2) (id : string) (version : Z)
    : Py.result GetPromptVersionRequest :=
  version ← Py.int_field (GetPromptVersionRequest_version pb2) version;
  Py.Return {| vreq_id := id; vreq_version := version |}.

Definition get (generated : bool) (pb2 : prompt_pb2) (svc : PromptService)
    (id_or_slug : string) (version : option Z)
    : Eff.eff Service.state (option PromptModel.Prompt) :=
  Service.lookup generated (GetPrompt svc) (Service.converted _to_prompt)
    (GetPromptRequest_new pb2 id_or_slug (PromptModel.version_or version 0)).

Definition get_version (generated : bool) (pb2 : prompt_pb2) (svc : PromptService)
    (id : string) (version : Z)
    : Eff.eff Service.state (option PromptModel.PromptVersion) :=
  Service.lookup generated (GetPromptVersion svc) (Service.converted _to_version)
    (GetPromptVersionRequest_new pb2 id version).

(** [return response.success] *)
Definition delete (generated : bool) (svc : PromptService) (id : string)
    : Eff.eff Service.state bool :=
  Service.call generated (DeletePrompt svc) (fun success => Py.Return success)
    (Py.Return {| dreq_id := id |}).

(** A service that refuses every lookup for lack of permission, and one
    that knows no prompt at all. *)
Definition denying_service : PromptService :=
  {| GetPrompt := fun _ => Py.Raise (Py.RpcError Py.PERMISSION_DENIED);
     GetPromptVersion := fun _ => Py.Raise (Py.RpcError Py.PERMISSION_DENIED);
     DeletePrompt := fun _ => Py.Raise (Py.RpcError Py.PERMISSION_DENIED) |}.

Definition empty_service : PromptService :=
  {| GetPrompt := fun _ => Py.Raise (Py.RpcError Py.NOT_FOUND);
     GetPromptVersion := fun _ => Py.Raise (Py.RpcError Py.NOT_FOUND);
     DeletePrompt := fun _ => Py.Raise (Py.RpcError Py.NOT_FOUND) |}.

(** A service whose prompts carry a creation time beyond the last
    [datetime], which [ToDatetime] refuses. *)
Definition misdated_service : PromptService :=
  {| GetPrompt := fun request =>
       Py.Return
         {| Service.payload :=
              {| pb_id := req_id request; pb_name := "summarizer"; pb_slug := "";
                 pb_description := ""; pb_current_version := 1; pb_versions := [];
                 pb_tags := []; pb_prompt_created_by := "" |};
            Service.unconvertible := Some (Py.ValueError "Timestamp is not valid") |};
     GetPromptVersion := fun _ => Py.Raise (Py.RpcError Py.NOT_FOUND);
     DeletePrompt := fun _ => Py.Return true |}.

(** A schema with 32-bit version numbers. *)
Definition int32_pb2 : prompt_pb2 :=
  {| GetPromptRequest_version := Py.int32;
     GetPromptVersionRequest_version := Py.int32 |}.

End PromptClient.

(** ** delos/services/deploy.py: the lookup *)

Module DeployClient.
Import DeployService.

(** The [Deployment] message of [deploy.v1.deploy_pb2], with the fields
    that the model keeps. *)
Record Deployment_pb := {
  pb_id : string;
  pb_prompt_id : string;
  pb_from_version : Z;
  pb_to_version : Z;
  pb_environment : string;
  pb_status : Z;
  pb_status_message : string;
  pb_gates_passed : bool;
}.

Record GetDeploymentRequest := { req_id : string }.
Record CancelDeploymentRequest := { creq_id : string; creq_reason : string }.

Record DeployServiceRemote := {
  GetDeployment : Service.rpc GetDeploymentRequest (Service.response Deployment_pb);
  CancelDeployment : Service.rpc CancelDeploymentRequest (Service.response Deployment_pb);
}.

Definition _to_deployment (pb2 : deploy_pb2) (pb : Deployment_pb) : DeployModel.Deployment :=
  {| DeployModel.id := pb_id pb;
     DeployModel.prompt_id := pb_prompt_id pb;
     DeployModel.from_version := pb_from_version pb;
     DeployModel.to_version := pb_to_version pb;
     DeployModel.environment := pb_environment pb;
     DeployModel.status := _status_from_pb pb2 (pb_status pb);
     DeployModel.status_message := pb_status_message pb;
     DeployModel.gates_passed := pb_gates_passed pb |}.

Definition get (generated : bool) (pb2 : deploy_pb2) (svc : DeployServiceRemote)
    (id : string) : Eff.eff Service.state (option DeployModel.Deployment) :=
  Service.lookup generated (GetDeployment svc) (Service.converted (_to_deployment pb2))
    (Py.Return {| req_id := id |}).

Definition cancel (generated : bool) (pb2 : deploy_pb2) (svc : DeployServiceRemote)
    (id : string) (reason : string) : Eff.eff Service.state DeployModel.Deployment :=
  Service.call generated (CancelDeployment svc) (Service.converted (_to_deployment pb2))
    (Py.Return {| creq_id := id; creq_reason := reason |}).

End DeployClient.

(** ** delos/services/datasets.py, eval.py, observe.py: the lookups

    The messages of these three services and the conversions [_to_dataset],
    [_to_run] and [_to_trace] are parameters here; a conversion returns the
    model or raises. *)

Module OtherClients.
Section Lookups.
Context {Dataset_pb Dataset EvalRun_pb EvalRun Trace_pb Trace : Type}.
Variable _to_dataset : Dataset_pb -> Py.result Dataset.
Variable _to_run : EvalRun_pb -> Py.result EvalRun.
Variable _to_trace : Trace_pb -> Py.result Trace.

(** [DatasetsClient.get] *)
Definition datasets_get (generated : bool) (GetDataset : Service.rpc string Dataset_pb)
    (id : string) : Eff.eff Service.state (option Dataset) :=
  Service.lookup generated GetDataset _to_dataset (Py.Return id).

(** [EvalClient.get_run] *)
Definition eval_get_run (generated : bool) (GetEvalRun : Service.rpc string EvalRun_pb)
    (id : string) : Eff.eff Service.state (option EvalRun) :=
  Service.lookup generated GetEvalRun _to_run (Py.Return id).

(** [ObserveClient.get_trace] *)
Definition observe_get_trace (generated : bool) (GetTrace : Service.rpc string Trace_pb)
    (trace_id : string) : Eff.eff Service.state (option Trace) :=
  Service.lookup generated GetTrace _to_trace (Py.Return trace_id).

End Lookups.
End OtherClients.

(** ** delos/services/runtime.py: the streaming completion *)

Module RuntimeClient.

(** A [CompleteStreamResponse] of [runtime.v1.runtime_pb2], with the field
    that the client reads. *)
Record CompleteStreamResponse := { content : string }.

(** The remote stream: the responses it produces and how it ends, by
    exhaustion ([None]) or by a failure of the call. *)
Record remote_stream := {
  responses : list CompleteStreamResponse;
  ending : option Py.exn;
}.

(** [if response.content]: a string is true when it is not empty. *)
Definition truthy (s : string) : bool :=
  match s with
  | EmptyString => false
  | String _ _ => true
  end.

(** What [next] on the generator gives. *)
Inductive step (G : Type) :=
| Yield (chunk : string) (rest : G)
| StopIteration
| Raised (e : Py.exn).
Arguments Yield {G} chunk rest.
Arguments StopIteration {G}.
Arguments Raised {G} e.

(** The generator returned by [complete_stream], suspended in its loop
<<
    for response in self.stub.CompleteStream(request, timeout=self._timeout):
        if response.content:
            yield response.content
>>
    holds what is left of the remote stream. *)
Definition generator := remote_stream.

Definition complete_stream (remote : remote_stream) : generator := remote.

(** One [next]: responses are taken from the remote stream until one has
    content. *)
Fixpoint next_from (rs : list CompleteStreamResponse) (e : option Py.exn) : step generator :=
  match rs with
  | [] =>
      match e with
      | None => StopIteration
      | Some e => Raised e
      end
  | r :: rs' =>
      if truthy (content r)
      then Yield (content r) {| responses := rs'; ending := e |}
      else next_from rs' e
  end.

Definition next (g : generator) : step generator :=
  next_from (responses g) (ending g).

(** The caller's loop [for chunk in client.complete_stream(...)]: the
    chunks received, and the exception that ended the loop, if any.
    [fuel] bounds the number of calls of [next]. *)
Fixpoint consume (fuel : nat) (g : generator) : option (list string * option Py.exn) :=
  match fuel with
  | O => None
  | S fuel' =>
      match next g with
      | Yield chunk g' =>
          match consume fuel' g' with
          | Some (chunks, e) => Some (chunk :: chunks, e)
          | None => None
          end
      | StopIteration => Some ([], None)
      | Raised e => Some ([], Some e)
      end
  end.

End RuntimeClient.

(** ** delos/client.py *)

Module Client.
Import Eff.
Local Open Scope string_scope.

Record DelosClient := {
  _config : Config.DelosConfig;
  _observe : option Service.ServiceClient;
  _runtime : option Service.ServiceClient;
  _prompts : option Service.ServiceClient;
  _datasets : option Service.ServiceClient;
  _eval : option Service.ServiceClient;
  _deploy : option Service.ServiceClient;
}.

(** [DelosClient(config)] *)
Definition init (config : option Config.DelosConfig) : DelosClient :=
  {| _config := match config with Some c => c | None => Config.default_config end;
     _observe := None; _runtime := None; _prompts := None;
     _datasets := None; _eval := None; _deploy := None |}.

Definition state : Type := DelosClient * Grpc.runtime.

Definition set_observe (x : option Service.ServiceClient) (f : DelosClient) : DelosClient :=
  {| _config := _config f; _observe := x; _runtime := _runtime f;
     _prompts := _prompts f; _datasets := _datasets f; _eval := _eval f;
     _deploy := _deploy f |}.

Definition set_runtime (x : option Service.ServiceClient) (f : DelosClient) : DelosClient :=
  {| _config := _config f; _observe := _observe f; _runtime := x;
     _prompts := _prompts f; _datasets := _datasets f; _eval := _eval f;
     _deploy := _deploy f |}.

Definition set_prompts (x : option Service.ServiceClient) (f : DelosClient) : DelosClient :=
  {| _config := _config f; _observe := _observe f; _runtime := _runtime f;
     _prompts := x; _datasets := _datasets f; _eval := _eval f;
     _deploy := _deploy f |}.

Definition set_datasets (x : option Service.ServiceClient) (f : DelosClient) : DelosClient :=
  {| _config := _config f; _observe := _observe f; _runtime := _runtime f;
     _prompts := _prompts f; _datasets := x; _eval := _eval f;
     _deploy := _deploy f |}.

Definition set_eval (x : option Service.ServiceClient) (f : DelosClient) : DelosClient :=
  {| _config := _config f; _observe := _observe f; _runtime := _runtime f;
     _prompts := _prompts f; _datasets := _datasets f; _eval := x;
     _deploy := _deploy f |}.

Definition set_deploy (x : option Service.ServiceClient) (f : DelosClient) : DelosClient :=
  {| _config := _config f; _observe := _observe f; _runtime := _runtime f;
     _prompts := _prompts f; _datasets := _datasets f; _eval := _eval f;
     _deploy := x |}.

(** A lazily built sub-client, as in
<<
    if self._prompts is None:
        self._prompts = PromptClient(self._config.prompt, timeout=self._config.timeout)
    return self._prompts
>> *)
Definition sub_client (slot : DelosClient -> option Service.ServiceClient)
    (set_slot : option Service.ServiceClient -> DelosClient -> DelosClient)
    (endpoint : Config.DelosConfig -> Config.ServiceEndpoint)
    : eff state Service.ServiceClient :=
  fun '(f, g) =>
    match slot f with
    | Some c => (Py.Return c, (f, g))
    | None =>
        let c := Service.init (endpoint (_config f)) (Config.timeout (_config f)) in
        (Py.Return c, (set_slot (Some c) f, g))
    end.

Definition prompts : eff state Service.ServiceClient :=
  sub_client _prompts set_prompts Config.prompt.

Definition deploy : eff state Service.ServiceClient :=
  sub_client _deploy set_deploy Config.deploy.

(** A method of a sub-client, run on the client object that a slot of the
    facade refers to. *)
Definition on_slot {A} (set_slot : option Service.ServiceClient -> DelosClient -> DelosClient)
    (c : Service.ServiceClient) (m : eff Service.state A) : eff state A :=
  fun '(f, g) =>
    match m (c, g) with
    | (r, (c', g')) => (r, (set_slot (Some c') f, g'))
    end.

Definition read_self : eff state DelosClient :=
  fun '(f, g) => (Py.Return f, (f, g)).

(** One block of [close]:
<<
    if self._x is not None:
        self._x.close()
        self._x = None
>> *)
Definition close_slot (slot : DelosClient -> option Service.ServiceClient)
    (set_slot : option Service.ServiceClient -> DelosClient -> DelosClient)
    : eff state unit :=
  f ← read_self;
  match slot f with
  | Some c =>
      _ ← on_slot set_slot c Service.close;
      modify (fun '(f, g) => (set_slot None f, g))
  | None => ret tt
  end.

Definition close : eff state unit :=
  _ ← close_slot _observe set_observe;
  _ ← close_slot _runtime set_runtime;
  _ ← close_slot _prompts set_prompts;
  _ ← close_slot _datasets set_datasets;
  _ ← close_slot _eval set_eval;
  close_slot _deploy set_deploy.

(** A facade whose prompt client has been used once: the sub-client
    exists and holds a channel and a stub. *)
Definition after_first_use : state :=
  snd ((c ← prompts; on_slot set_prompts c (Service.stub true)) (init None, Grpc.initial)).

Definition all_closed (f : DelosClient) : bool :=
  match _observe f, _runtime f, _prompts f, _datasets f, _eval f, _deploy f with
  | None, None, None, None, None, None => true
  | _, _, _, _, _, _ => false
  end.

(** *** [health_check] *)

(** How the network answers one connectivity probe: the exception, if any,
    raised by [grpc.insecure_channel], by
    [grpc.channel_ready_future(channel).result(timeout=2)], and by
    [channel.close()]. *)
Record probe := {
  connecting : option Py.exn;
  waiting : option Py.exn;
  closing : option Py.exn;
}.

(** A probe succeeds when none of its three calls raises. *)
Definition reachable (p : probe) : bool :=
  match connecting p, waiting p, closing p with
  | None, None, None => true
  | _, _, _ => false
  end.

(** A call of the probe: it raises, or returns, as the network dictates. *)
Definition attempt {S} (outcome : option Py.exn) : eff S unit :=
  match outcome with
  | Some e => raise e
  | None => ret tt
  end.

(** [results[name] = b] *)
Definition set_result (name : string) (b : bool) : eff (gmap string bool) unit :=
  modify (fun results => <[ name := b ]> results).

Definition services (f : DelosClient) : list (string * Config.ServiceEndpoint) :=
  [ ("observe", Config.observe (_config f));
    ("runtime", Config.runtime (_config f));
    ("prompt", Config.prompt (_config f));
    ("datasets", Config.datasets (_config f));
    ("eval", Config.eval (_config f));
    ("deploy", Config.deploy (_config f)) ].

(** The body of the loop of [health_check]. *)
Definition check_service (network : string -> probe)
    (service : string * Config.ServiceEndpoint) : eff (gmap string bool) unit :=
  let '(name, endpoint) := service in
  let p := network (Config.address endpoint) in
  try_except
    (_ ← attempt (connecting p);
     try_finally
       (try_except
          (_ ← attempt (waiting p);
           set_result name true)
          is_FutureTimeoutError
          (set_result name false))
       (attempt (closing p)))
    is_Exception
    (set_result name false).

Definition health_check (network : string -> probe) (f : DelosClient)
    : Py.result (gmap string bool) :=
  match for_each (services f) (check_service network) ∅ with
  | (Py.Return _, results) => Py.Return results
  | (Py.Raise e, _) => Py.Raise e
  end.

(** The dict that [health_check] is expected to build: for each service,
    in turn, whether its probe went through. *)
Definition expected_results (network : string -> probe) (f : DelosClient)
    : gmap string bool :=
  foldl (fun results '(name, endpoint) =>
           <[ name := reachable (network (Config.address endpoint)) ]> results)
    ∅ (services f).

(** A network on which the prompt service does not answer in time, the
    eval service refuses the connection, and closing the channel to the
    deploy service fails. *)
Definition flaky_network (target : string) : probe :=
  if String.eqb target "localhost:9002" then
    {| connecting := None; waiting := Some Py.FutureTimeoutError; closing := None |}
  else if String.eqb target "localhost:9004" then
    {| connecting := Some (Py.RpcError Py.UNAVAILABLE); waiting := None; closing := None |}
  else if String.eqb target "localhost:9005" then
    {| connecting := None; waiting := None; closing := Some (Py.RuntimeError "close") |}
  else
    {| connecting := None; waiting := None; closing := None |}.

End Client.

(** ** delos/models/observe.py *)

Module ObserveModel.

Inductive SpanKind :=
| UNSPECIFIED
| INTERNAL
| SERVER
| CLIENT
| PRODUCER
| CONSUMER.

Inductive SpanStatus :=
| UNSET
| OK
| ERROR.

#[global] Instance SpanKind_eq_dec : EqDecision SpanKind.
Proof. solve_decision. Defined.

#[global] Instance SpanStatus_eq_dec : EqDecision SpanStatus.
Proof. solve_decision. Defined.

Definition all_kinds : list SpanKind :=
  [UNSPECIFIED; INTERNAL; SERVER; CLIENT; PRODUCER; CONSUMER].

Definition all_span_statuses : list SpanStatus := [UNSET; OK; ERROR].

Definition kind_index (k : SpanKind) : nat :=
  match k with
  | UNSPECIFIED => 0 | INTERNAL => 1 | SERVER => 2
  | CLIENT => 3 | PRODUCER => 4 | CONSUMER => 5
  end%nat.

Definition span_status_index (s : SpanStatus) : nat :=
  match s with
  | UNSET => 0 | OK => 1 | ERROR => 2
  end%nat.

#[global] Program Instance SpanKind_countable : Countable SpanKind :=
  inj_countable' kind_index (fun n => nth n all_kinds UNSPECIFIED) _.
Next Obligation. by intros []. Qed.

#[global] Program Instance SpanStatus_countable : Countable SpanStatus :=
  inj_countable' span_status_index (fun n => nth n all_span_statuses UNSET) _.
Next Obligation. by intros []. Qed.

Section Models.
(** The values of [datetime.datetime]; the models only store them. *)
Context {datetime : Type}.

Record Span := {
  trace_id : string;
  span_id : string;
  parent_span_id : option string;
  name : string;
  kind : SpanKind;
  start_time : datetime;
  end_time : option datetime;
  status : SpanStatus;
  status_message : option string;
  attributes : gmap string string;
  service_name : string;
}.

Record Trace := {
  trace_trace_id : string;
  spans : list Span;
  trace_service_name : string;
  trace_start_time : option datetime;
  trace_end_time : option datetime;
}.

(** [span.parent_span_id is None] *)
Definition is_root (s : Span) : bool :=
  match parent_span_id s with
  | None => true
  | Some _ => false
  end.

Definition root_span (t : Trace) : option Span :=
  find is_root (spans t).

End Models.

Arguments Span : clear implicits.
Arguments Trace : clear implicits.

End ObserveModel.

(** ** delos/services/observe.py *)

Module ObserveClient.
Import ObserveModel.

(** The enum constants of the generated module [observe.v1.observe_pb2],
    which is not part of the repository, as a parameter. *)
Record observe_pb2 := {
  SPAN_KIND_UNSPECIFIED : Z;
  SPAN_KIND_INTERNAL : Z;
  SPAN_KIND_SERVER : Z;
  SPAN_KIND_CLIENT : Z;
  SPAN_KIND_PRODUCER : Z;
  SPAN_KIND_CONSUMER : Z;
  SPAN_STATUS_UNSET : Z;
  SPAN_STATUS_OK : Z;
  SPAN_STATUS_ERROR : Z;
}.

Definition _kind_to_pb (pb2 : observe_pb2) (kind : SpanKind) : Z :=
  let mapping := Py.dict_display [
    (UNSPECIFIED, SPAN_KIND_UNSPECIFIED pb2);
    (INTERNAL, SPAN_KIND_INTERNAL pb2);
    (SERVER, SPAN_KIND_SERVER pb2);
    (CLIENT, SPAN_KIND_CLIENT pb2);
    (PRODUCER, SPAN_KIND_PRODUCER pb2);
    (CONSUMER, SPAN_KIND_CONSUMER pb2)
  ] in
  Py.dict_get mapping kind (SPAN_KIND_UNSPECIFIED pb2).

Definition _kind_from_pb (pb2 : observe_pb2) (kind : Z) : SpanKind :=
  let mapping := Py.dict_display [
    (SPAN_KIND_UNSPECIFIED pb2, UNSPECIFIED);
    (SPAN_KIND_INTERNAL pb2, INTERNAL);
    (SPAN_KIND_SERVER pb2, SERVER);
    (SPAN_KIND_CLIENT pb2, CLIENT);
    (SPAN_KIND_PRODUCER pb2, PRODUCER);
    (SPAN_KIND_CONSUMER pb2, CONSUMER)
  ] in
  Py.dict_get mapping kind UNSPECIFIED.

Definition _status_to_pb (pb2 : observe_pb2) (status : SpanStatus) : Z :=
  let mapping := Py.dict_display [
    (UNSET, SPAN_STATUS_UNSET pb2);
    (OK, SPAN_STATUS_OK pb2);
    (ERROR, SPAN_STATUS_ERROR pb2)
  ] in
  Py.dict_get mapping status (SPAN_STATUS_UNSET pb2).

Definition _status_from_pb (pb2 : observe_pb2) (status : Z) : SpanStatus :=
  let mapping := Py.dict_display [
    (SPAN_STATUS_UNSET pb2, UNSET);
    (SPAN_STATUS_OK pb2, OK);
    (SPAN_STATUS_ERROR pb2, ERROR)
  ] in
  Py.dict_get mapping status UNSET.

Definition kind_wire_values (pb2 : observe_pb2) : list Z :=
  map (_kind_to_pb pb2) all_kinds.

Definition span_status_wire_values (pb2 : observe_pb2) : list Z :=
  map (_status_to_pb pb2) all_span_statuses.

(** One possible numbering: each enum numbered from zero in the order of
    the tables. *)
Definition consecutive_pb2 : observe_pb2 := {|
  SPAN_KIND_UNSPECIFIED := 0;
  SPAN_KIND_INTERNAL := 1;
  SPAN_KIND_SERVER := 2;
  SPAN_KIND_CLIENT := 3;
  SPAN_KIND_PRODUCER := 4;
  SPAN_KIND_CONSUMER := 5;
  SPAN_STATUS_UNSET := 0;
  SPAN_STATUS_OK := 1;
  SPAN_STATUS_ERROR := 2;
|}.

(** [x or ""] for an optional string: [None] and [""] are both falsy. *)
Definition or_empty (x : option string) : string :=
  match x with
  | Some (String c s) => String c s
  | Some EmptyString | None => EmptyString
  end.

(** [x if x else None] for a string. *)
Definition none_if_empty (x : string) : option string :=
  match x with
  | EmptyString => None
  | String _ _ => Some x
  end.

Section Conversions.
(** [datetime.datetime], the message [google.protobuf.Timestamp] with its
    methods [FromDatetime] and [ToDatetime(timezone.utc)], and the value of
    a timestamp field that was never set. *)
Context {datetime Timestamp : Type}.
Variable FromDatetime : datetime -> Timestamp.
Variable ToDatetime : Timestamp -> datetime.
Variable unset_timestamp : Timestamp.

(** The messages [Span] and [Trace] of [observe_pb2], with the fields that
    the client reads and writes; a message field that [HasField] reports
    as absent is [None]. *)
Record Span_pb := {
  pb_trace_id : string;
  pb_span_id : string;
  pb_parent_span_id : string;
  pb_name : string;
  pb_kind : Z;
  pb_status : Z;
  pb_status_message : string;
  pb_attributes : gmap string string;
  pb_service_name : string;
  pb_start_time : option Timestamp;
  pb_end_time : option Timestamp;
}.

Record Trace_pb := {
  pb_trace_trace_id : string;
  pb_spans : list Span_pb;
  pb_trace_service_name : string;
  pb_trace_start_time : option Timestamp;
  pb_trace_end_time : option Timestamp;
}.

(** Reading a message field that may be unset. *)
Definition field (t : option Timestamp) : Timestamp :=
  match t with
  | Some t => t
  | None => unset_timestamp
  end.

(** The body of the loop of [ingest_spans]: one span as a message.  A
    [datetime] is always true, so [if span.start_time] always holds and
    [if span.end_time] holds when the end time is not [None]. *)
Definition span_to_pb (pb2 : observe_pb2) (span : Span datetime) : Span_pb :=
  {| pb_trace_id := trace_id span;
     pb_span_id := span_id span;
     pb_parent_span_id := or_empty (parent_span_id span);
     pb_name := name span;
     pb_kind := _kind_to_pb pb2 (kind span);
     pb_status := _status_to_pb pb2 (status span);
     pb_status_message := or_empty (status_message span);
     pb_attributes := attributes span;
     pb_service_name := service_name span;
     pb_start_time := Some (FromDatetime (start_time span));
     pb_end_time := option_map FromDatetime (end_time span) |}.

Definition _to_span (pb2 : observe_pb2) (pb : Span_pb) : Span datetime :=
  {| trace_id := pb_trace_id pb;
     span_id := pb_span_id pb;
     parent_span_id := none_if_empty (pb_parent_span_id pb);
     name := pb_name pb;
     kind := _kind_from_pb pb2 (pb_kind pb);
     start_time := ToDatetime (field (pb_start_time pb));
     end_time := option_map ToDatetime (pb_end_time pb);
     status := _status_from_pb pb2 (pb_status pb);
     status_message := none_if_empty (pb_status_message pb);
     attributes := pb_attributes pb;
     service_name := pb_service_name pb |}.

Definition _to_trace (pb2 : observe_pb2) (pb : Trace_pb) : Trace datetime :=
  let spans := map (_to_span pb2) (pb_spans pb) in
  {| trace_trace_id := pb_trace_trace_id pb;
     spans := spans;
     trace_service_name := pb_trace_service_name pb;
     trace_start_time := option_map ToDatetime (pb_trace_start_time pb);
     trace_end_time := option_map ToDatetime (pb_trace_end_time pb) |}.

(** A span as it comes back from the wire: an empty parent id or status
    message has become [None]. *)
Definition normalized (span : Span datetime) : Span datetime :=
  {| trace_id := trace_id span;
     span_id := span_id span;
     parent_span_id := none_if_empty (or_empty (parent_span_id span));
     name := name span;
     kind := kind span;
     start_time := start_time span;
     end_time := end_time span;
     status := status span;
     status_message := none_if_empty (or_empty (status_message span));
     attributes := attributes span;
     service_name := service_name span |}.

End Conversions.

End ObserveClient.

(** ** delos/models/datasets.py *)

Module DatasetsModel.
Local Open Scope string_scope.

Inductive ExampleSource :=
| UNSPECIFIED
| MANUAL
| GENERATED
| PRODUCTION
| IMPORTED.

#[global] Instance ExampleSource_eq_dec : EqDecision ExampleSource.
Proof. solve_decision. Defined.

Definition all_sources : list ExampleSource :=
  [UNSPECIFIED; MANUAL; GENERATED; PRODUCTION; IMPORTED].

Definition source_index (s : ExampleSource) : nat :=
  match s with
  | UNSPECIFIED => 0 | MANUAL => 1 | GENERATED => 2
  | PRODUCTION => 3 | IMPORTED => 4
  end%nat.

#[global] Program Instance ExampleSource_countable : Countable ExampleSource :=
  inj_countable' source_index (fun n => nth n all_sources UNSPECIFIED) _.
Next Obligation. by intros []. Qed.

(** [Dataset.__init__], up to the call of the constructor of the base
    class: the keyword arguments [data] after
<<
    if "schema" in data and "schema_" not in data:
        data["schema_"] = data.pop("schema")
>> *)
Definition init_data {V} (data : gmap string V) : gmap string V :=
  match data !! "schema", data !! "schema_" with
  | Some v, None => <[ "schema_" := v ]> (delete "schema" data)
  | _, _ => data
  end.

End DatasetsModel.

(** ** delos/services/datasets.py: the enum mappers *)

Module DatasetsClient.
Import DatasetsModel.

(** The enum constants of [datasets.v1.datasets_pb2], as a parameter. *)
Record datasets_pb2 := {
  EXAMPLE_SOURCE_UNSPECIFIED : Z;
  EXAMPLE_SOURCE_MANUAL : Z;
  EXAMPLE_SOURCE_GENERATED : Z;
  EXAMPLE_SOURCE_PRODUCTION : Z;
  EXAMPLE_SOURCE_IMPORTED : Z;
}.

Definition _source_to_pb (pb2 : datasets_pb2) (source : ExampleSource) : Z :=
  let mapping := Py.dict_display [
    (UNSPECIFIED, EXAMPLE_SOURCE_UNSPECIFIED pb2);
    (MANUAL, EXAMPLE_SOURCE_MANUAL pb2);
    (GENERATED, EXAMPLE_SOURCE_GENERATED pb2);
    (PRODUCTION, EXAMPLE_SOURCE_PRODUCTION pb2);
    (IMPORTED, EXAMPLE_SOURCE_IMPORTED pb2)
  ] in
  Py.dict_get mapping source (EXAMPLE_SOURCE_UNSPECIFIED pb2).

Definition _source_from_pb (pb2 : datasets_pb2) (source : Z) : ExampleSource :=
  let mapping := Py.dict_display [
    (EXAMPLE_SOURCE_UNSPECIFIED pb2, UNSPECIFIED);
    (EXAMPLE_SOURCE_MANUAL pb2, MANUAL);
    (EXAMPLE_SOURCE_GENERATED pb2, GENERATED);
    (EXAMPLE_SOURCE_PRODUCTION pb2, PRODUCTION);
    (EXAMPLE_SOURCE_IMPORTED pb2, IMPORTED)
  ] in
  Py.dict_get mapping source UNSPECIFIED.

Definition source_wire_values (pb2 : datasets_pb2) : list Z :=
  map (_source_to_pb pb2) all_sources.

Definition consecutive_pb2 : datasets_pb2 := {|
  EXAMPLE_SOURCE_UNSPECIFIED := 0;
  EXAMPLE_SOURCE_MANUAL := 1;
  EXAMPLE_SOURCE_GENERATED := 2;
  EXAMPLE_SOURCE_PRODUCTION := 3;
  EXAMPLE_SOURCE_IMPORTED := 4;
|}.

(** A numbering in which two constants share a number, as a protobuf
    enum with [allow_alias] may have. *)
Definition aliased_pb2 : datasets_pb2 := {|
  EXAMPLE_SOURCE_UNSPECIFIED := 0;
  EXAMPLE_SOURCE_MANUAL := 1;
  EXAMPLE_SOURCE_GENERATED := 2;
  EXAMPLE_SOURCE_PRODUCTION := 3;
  EXAMPLE_SOURCE_IMPORTED := 1;
|}.

End DatasetsClient.

(** ** delos/services/eval.py: the enum mappers and [_to_run] *)

Module EvalClient.
Import EvalModel.

#[global] Instance EvalRunStatus_eq_dec : EqDecision EvalRunStatus.
Proof. solve_decision. Defined.

Definition all_run_statuses : list EvalRunStatus :=
  [UNSPECIFIED; PENDING; RUNNING; COMPLETED; FAILED; CANCELLED].

Definition run_status_index (s : EvalRunStatus) : nat :=
  match s with
  | UNSPECIFIED => 0 | PENDING => 1 | RUNNING => 2
  | COMPLETED => 3 | FAILED => 4 | CANCELLED => 5
  end%nat.

#[global] Program Instance EvalRunStatus_countable : Countable EvalRunStatus :=
  inj_countable' run_status_index (fun n => nth n all_run_statuses UNSPECIFIED) _.
Next Obligation. by intros []. Qed.

(** The enum constants of [eval.v1.eval_pb2], as a parameter. *)
Record eval_pb2 := {
  EVAL_RUN_STATUS_UNSPECIFIED : Z;
  EVAL_RUN_STATUS_PENDING : Z;
  EVAL_RUN_STATUS_RUNNING : Z;
  EVAL_RUN_STATUS_COMPLETED : Z;
  EVAL_RUN_STATUS_FAILED : Z;
  EVAL_RUN_STATUS_CANCELLED : Z;
}.

Definition _status_to_pb (pb2 : eval_pb2) (status : EvalRunStatus) : Z :=
  let mapping := Py.dict_display [
    (UNSPECIFIED, EVAL_RUN_STATUS_UNSPECIFIED pb2);
    (PENDING, EVAL_RUN_STATUS_PENDING pb2);
    (RUNNING, EVAL_RUN_STATUS_RUNNING pb2);
    (COMPLETED, EVAL_RUN_STATUS_COMPLETED pb2);
    (FAILED, EVAL_RUN_STATUS_FAILED pb2);
    (CANCELLED, EVAL_RUN_STATUS_CANCELLED pb2)
  ] in
  Py.dict_get mapping status (EVAL_RUN_STATUS_UNSPECIFIED pb2).

Definition _status_from_pb (pb2 : eval_pb2) (status : Z) : EvalRunStatus :=
  let mapping := Py.dict_display [
    (EVAL_RUN_STATUS_UNSPECIFIED pb2, UNSPECIFIED);
    (EVAL_RUN_STATUS_PENDING pb2, PENDING);
    (EVAL_RUN_STATUS_RUNNING pb2, RUNNING);
    (EVAL_RUN_STATUS_COMPLETED pb2, COMPLETED);
    (EVAL_RUN_STATUS_FAILED pb2, FAILED);
    (EVAL_RUN_STATUS_CANCELLED pb2, CANCELLED)
  ] in
  Py.dict_get mapping status UNSPECIFIED.

Definition run_status_wire_values (pb2 : eval_pb2) : list Z :=
  map (_status_to_pb pb2) all_run_statuses.

Definition consecutive_pb2 : eval_pb2 := {|
  EVAL_RUN_STATUS_UNSPECIFIED := 0;
  EVAL_RUN_STATUS_PENDING := 1;
  EVAL_RUN_STATUS_RUNNING := 2;
  EVAL_RUN_STATUS_COMPLETED := 3;
  EVAL_RUN_STATUS_FAILED := 4;
  EVAL_RUN_STATUS_CANCELLED := 5;
|}.

End EvalClient.

(** ** Python [str]: the operator [in] *)

Module PyStr.

(** [old in s]: [old] occurs somewhere in [s]. *)
Fixpoint occurs (old s : string) : bool :=
  String.prefix old s ||
  match s with
  | EmptyString => false
  | String _ s' => occurs old s'
  end.

End PyStr.

(** ** delos/services/base.py: bookkeeping for the thread model *)

Module BaseThreads.
Import Base.

(** A thread that has not created a channel (yet). *)
Definition waiting (t : thread) : bool :=
  match t with
  | Start | Creating => true
  | Storing _ | Returning | Done _ => false
  end.

(** A thread that has not reached its [return]. *)
Definition before_return (t : thread) : bool :=
  match t with
  | Start | Creating | Storing _ => true
  | Returning | Done _ => false
  end.

(** A thread that has not returned [None]. *)
Definition not_none (t : thread) : bool :=
  match t with
  | Done None => false
  | _ => true
  end.

Definition count_waiting (ts : list thread) : nat :=
  length (List.filter waiting ts).

End BaseThreads.

(** ** The [with] statement on the clients *)

Module ContextManager.
Import Eff.

(** [with obj: body], for an object whose [__enter__] returns [self] and
    whose [__exit__] cleans up and returns [None]: the cleanup runs when
    the body returns and when it raises, and an exception of the body is
    not suppressed. *)
Definition with_ {S A} (__exit__ : eff S unit) (body : eff S A) : eff S A :=
  try_finally body __exit__.

(** [BaseClient.__exit__] and [DelosClient.__exit__] call [close]. *)
Definition with_base {A} (body : eff Base.state A) : eff Base.state A :=
  with_ Base.close body.

Definition with_service {A} (body : eff Service.state A) : eff Service.state A :=
  with_ Service.close body.

Definition with_client {A} (body : eff Client.state A) : eff Client.state A :=
  with_ Client.close body.

End ContextManager.

(** ** delos/client.py: the six lazily built sub-clients *)

Module ClientAccess.

Definition observe : Eff.eff Client.state Service.ServiceClient :=
  Client.sub_client Client._observe Client.set_observe Config.observe.

Definition runtime : Eff.eff Client.state Service.ServiceClient :=
  Client.sub_client Client._runtime Client.set_runtime Config.runtime.

Definition datasets : Eff.eff Client.state Service.ServiceClient :=
  Client.sub_client Client._datasets Client.set_datasets Config.datasets.

Definition eval : Eff.eff Client.state Service.ServiceClient :=
  Client.sub_client Client._eval Client.set_eval Config.eval.

(** What it means for a property of the facade to build its client
    lazily and once.  When its slot holds a client, that client is
    returned, whatever it is, and nothing changes.  When its slot is empty,
    a client is built from the endpoint of the configuration and the
    configured timeout, with no channel and no stub; it is returned and
    stored in the slot, the configuration and the slots of the [others]
    stay as they are, and the next access returns it again.  The gRPC
    runtime is never touched. *)
Definition lazily_built (property : Eff.eff Client.state Service.ServiceClient)
    (slot : Client.DelosClient -> option Service.ServiceClient)
    (endpoint : Config.DelosConfig -> Config.ServiceEndpoint)
    (others : list (Client.DelosClient -> option Service.ServiceClient)) : Prop :=
  forall (f : Client.DelosClient) (g : Grpc.runtime),
    match slot f with
    | Some c => property (f, g) = (Py.Return c, (f, g))
    | None =>
        exists f',
          property (f, g) =
            (Py.Return
               {| Service.base :=
                    {| Base._endpoint := endpoint (Client._config f);
                       Base._timeout := Config.timeout (Client._config f);
                       Base._channel := None |};
                  Service._stub := None |},
             (f', g)) /\
          slot f' =
            Some {| Service.base :=
                      {| Base._endpoint := endpoint (Client._config f);
                         Base._timeout := Config.timeout (Client._config f);
                         Base._channel := None |};
                    Service._stub := None |} /\
          Client._config f' = Client._config f /\
          Forall (fun other => other f' = other f) others /\
          property (f', g) =
            (Py.Return
               {| Service.base :=
                    {| Base._endpoint := endpoint (Client._config f);
                       Base._timeout := Config.timeout (Client._config f);
                       Base._channel := None |};
                  Service._stub := None |},
             (f', g))
    end.

End ClientAccess.

(** ** delos/config.py: [DelosConfig.from_env] *)

Module ConfigEnv.
Local Open Scope string_scope.

(** [c.upper()] and [c.lower()] on the letters of ASCII. *)
Definition upper_char (c : ascii) : ascii :=
  let n := nat_of_ascii c in
  if (97 <=? n)%nat && (n <=? 122)%nat then ascii_of_nat (n - 32) else c.

Definition lower_char (c : ascii) : ascii :=
  let n := nat_of_ascii c in
  if (65 <=? n)%nat && (n <=? 90)%nat then ascii_of_nat (n + 32) else c.

Fixpoint map_chars (f : ascii -> ascii) (s : string) : string :=
  match s with
  | EmptyString => EmptyString
  | String c s' => String (f c) (map_chars f s')
  end.

(** [name.upper()], for the ASCII service names. *)
Definition upper (s : string) : string := map_chars upper_char s.

(** [value.lower() == "true"].  Only the letters of ASCII have "t", "r",
    "u" or "e" as their lower case, so lowering those decides the test. *)
Definition is_true (value : string) : bool :=
  String.eqb (map_chars lower_char value) "true".

(** The process environment, and [os.getenv] with and without default. *)
Definition getenv (env : gmap string string) (key default : string) : string :=
  Py.dict_get env key default.

Definition getenv_opt (env : gmap string string) (key : string) : option string :=
  env !! key.

Section FromEnv.
(** The builtins [int] and [float] applied to a string. *)
Variable int_of_str : string -> Py.result Z.
Variable float_of_str : string -> Py.result spec_float.

(** The local function [get_endpoint] of [from_env]. *)
Definition get_endpoint (env : gmap string string) (default_host : string)
    (use_tls : bool) (name : string) (default_port : Z)
    : Py.result Config.ServiceEndpoint :=
  let host := getenv env ("DELOS_" ++ upper name ++ "_HOST") default_host in
  port ← int_of_str (getenv env ("DELOS_" ++ upper name ++ "_PORT")
                        (Py.str_of_int default_port));
  Py.Return {| Config.host := host; Config.port := port; Config.use_tls := use_tls |}.

Definition from_env (env : gmap string string) : Py.result Config.DelosConfig :=
  let default_host := getenv env "DELOS_HOST" "localhost" in
  let use_tls := is_true (getenv env "DELOS_USE_TLS" "false") in
  observe ← get_endpoint env default_host use_tls "observe" 9000;
  runtime ← get_endpoint env default_host use_tls "runtime" 9001;
  prompt ← get_endpoint env default_host use_tls "prompt" 9002;
  datasets ← get_endpoint env default_host use_tls "datasets" 9003;
  eval ← get_endpoint env default_host use_tls "eval" 9004;
  deploy ← get_endpoint env default_host use_tls "deploy" 9005;
  timeout ← float_of_str (getenv env "DELOS_TIMEOUT" "30.0");
  connect_timeout ← float_of_str (getenv env "DELOS_CONNECT_TIMEOUT" "10.0");
  Py.Return
    {| Config.observe := observe; Config.runtime := runtime;
       Config.prompt := prompt; Config.datasets := datasets;
       Config.eval := eval; Config.deploy := deploy;
       Config.api_key := getenv_opt env "DELOS_API_KEY";
       Config.timeout := timeout;
       Config.connect_timeout := connect_timeout |}.

End FromEnv.

(** The variables that [from_env] reads. *)
Definition variables : list string :=
  [ "DELOS_HOST"; "DELOS_USE_TLS";
    "DELOS_OBSERVE_HOST"; "DELOS_OBSERVE_PORT";
    "DELOS_RUNTIME_HOST"; "DELOS_RUNTIME_PORT";
    "DELOS_PROMPT_HOST"; "DELOS_PROMPT_PORT";
    "DELOS_DATASETS_HOST"; "DELOS_DATASETS_PORT";
    "DELOS_EVAL_HOST"; "DELOS_EVAL_PORT";
    "DELOS_DEPLOY_HOST"; "DELOS_DEPLOY_PORT";
    "DELOS_API_KEY"; "DELOS_TIMEOUT"; "DELOS_CONNECT_TIMEOUT" ].

Definition default_ports : list Z := [9000; 9001; 9002; 9003; 9004; 9005].

Definition services : list string :=
  ["observe"; "runtime"; "prompt"; "datasets"; "eval"; "deploy"].


(** Stand-ins for [int] and [float] on the strings of the examples:
    unsigned decimal numerals, and the two default timeouts. *)
Fixpoint decimal_digits (acc : Z) (s : string) : Py.result Z :=
  match s with
  | EmptyString => Py.Return acc
  | String c s' =>
      let n := nat_of_ascii c in
      if (48 <=? n)%nat && (n <=? 57)%nat
      then decimal_digits (10 * acc + Z.of_nat (n - 48)) s'
      else Py.Raise (Py.ValueError "invalid literal for int() with base 10")
  end.

Definition sample_int (s : string) : Py.result Z :=
  match s with
  | EmptyString => Py.Raise (Py.ValueError "invalid literal for int() with base 10")
  | String _ _ => decimal_digits 0 s
  end.

Definition sample_float (s : string) : Py.result spec_float :=
  if String.eqb s "30.0" then Py.Return (PyFloat.of_int 30)
  else if String.eqb s "10.0" then Py.Return (PyFloat.of_int 10)
  else Py.Raise (Py.ValueError "could not convert string to float").


End ConfigEnv.

(** ** A gRPC runtime in which closing a channel fails *)

Module CloseFailure.
Local Open Scope string_scope.

Definition stuck_runtime : Grpc.runtime :=
  {| Grpc.next_channel := 1%nat;
     Grpc.trace := [Grpc.InsecureChannel 0%nat "localhost:9002"];
     Grpc.close_error := fun _ => Some (Py.RuntimeError "close failed") |}.

(** A client that holds channel 0 of that runtime, and a facade whose
    prompt client is that client. *)
Definition stuck_client : Base.state :=
  (Base.set_channel (Some 0%nat)
     (Base.init (Config.default_endpoint 9002) (PyFloat.of_int 30)),
   stuck_runtime).

Definition stuck_facade : Client.state :=
  (Client.set_prompts
     (Some {| Service.base := fst stuck_client;
              Service._stub := Some {| Service.stub_channel := Some 0%nat |} |})
     (Client.init None),
   stuck_runtime).

End CloseFailure.

(** * Verified properties *)

Section DeployModelFacts.
Import DeployModel.

Lemma member_spec {A} `{EqDecision A} (x : A) (xs : list A) :
  member x xs = true <-> In x xs.
Proof.
  unfold member. rewrite existsb_exists. split.
  - intros (y & Hy & Heq). apply bool_decide_eq_true in Heq. by subst.
  - intros Hin. exists x. split; [done | by apply bool_decide_eq_true].
Qed.

(** C5. [is_active] holds exactly for pending_approval, pending_gates and
    in_progress; [is_complete] holds exactly for completed, rolled_back,
    cancelled, failed and gates_failed; no deployment is both; and a
    deployment is neither active nor complete exactly when its status is
    UNSPECIFIED, so that the two properties do not cover every status. *)
Theorem C5_active_complete_partition :
  (forall d, is_active d = true <->
     status d = PENDING_APPROVAL \/ status d = PENDING_GATES \/
     status d = IN_PROGRESS) /\
  (forall d, is_complete d = true <->
     status d = COMPLETED \/ status d = ROLLED_BACK \/ status d = CANCELLED \/
     status d = FAILED \/ status d = GATES_FAILED) /\
  (forall d, ~ (is_active d = true /\ is_complete d = true)) /\
  (forall d, status d = STATUS_UNSPECIFIED <->
     is_active d = false /\ is_complete d = false).
Proof.
  split; [| split; [| split]].
  - intros d. unfold is_active. rewrite member_spec. simpl. intuition congruence.
  - intros d. unfold is_complete. rewrite member_spec. simpl. intuition congruence.
  - intros d [Ha Hc]. unfold is_active, is_complete in *.
    destruct (status d); discriminate.
  - intros d. unfold is_active, is_complete.
    destruct (status d); simpl; intuition congruence.
Qed.

End DeployModelFacts.

Section DeployMapperFacts.
Import DeployModel DeployService.

(** Reading a dict display: the last entry with an equal key wins. *)
Lemma find_app_last {A} (f : A -> bool) (l : list A) (x : A) :
  find f (l ++ [x]) =
  match find f l with Some y => Some y | None => if f x then Some x else None end.
Proof. induction l as [|y l IH]; simpl; [done |]. by destruct (f y). Qed.

Lemma dict_get_foldl {K V} `{Countable K} (l : list (K * V)) (m : gmap K V) k d :
  Py.dict_get (foldl (fun m kv => <[ kv.1 := kv.2 ]> m) m l) k d =
  match find (fun kv => bool_decide (kv.1 = k)) (rev l) with
  | Some kv => kv.2
  | None => Py.dict_get m k d
  end.
Proof.
  revert m. induction l as [|[k0 v0] l IH]; intros m; simpl; [done |].
  rewrite IH, find_app_last.
  destruct (find _ (rev l)); [done |]. simpl.
  unfold Py.dict_get. rewrite lookup_insert.
  case_bool_decide; case_decide; done.
Qed.

Lemma dict_get_display {K V} `{Countable K} (l : list (K * V)) k d :
  Py.dict_get (Py.dict_display l) k d =
  match find (fun kv => bool_decide (kv.1 = k)) (rev l) with
  | Some kv => kv.2
  | None => d
  end.
Proof. unfold Py.dict_display. by rewrite dict_get_foldl. Qed.

Lemma _type_to_pb_eq pb t :
  _type_to_pb pb t =
  match t with
  | TYPE_UNSPECIFIED => DEPLOYMENT_TYPE_UNSPECIFIED pb
  | IMMEDIATE => DEPLOYMENT_TYPE_IMMEDIATE pb
  | GRADUAL => DEPLOYMENT_TYPE_GRADUAL pb
  | CANARY => DEPLOYMENT_TYPE_CANARY pb
  | BLUE_GREEN => DEPLOYMENT_TYPE_BLUE_GREEN pb
  end.
Proof. unfold _type_to_pb. rewrite dict_get_display. by destruct t. Qed.

Lemma _status_to_pb_eq pb s :
  _status_to_pb pb s =
  match s with
  | STATUS_UNSPECIFIED => DEPLOYMENT_STATUS_UNSPECIFIED pb
  | PENDING_APPROVAL => DEPLOYMENT_STATUS_PENDING_APPROVAL pb
  | PENDING_GATES => DEPLOYMENT_STATUS_PENDING_GATES pb
  | GATES_FAILED => DEPLOYMENT_STATUS_GATES_FAILED pb
  | IN_PROGRESS => DEPLOYMENT_STATUS_IN_PROGRESS pb
  | COMPLETED => DEPLOYMENT_STATUS_COMPLETED pb
  | ROLLED_BACK => DEPLOYMENT_STATUS_ROLLED_BACK pb
  | CANCELLED => DEPLOYMENT_STATUS_CANCELLED pb
  | FAILED => DEPLOYMENT_STATUS_FAILED pb
  end.
Proof. unfold _status_to_pb. rewrite dict_get_display. by destruct s. Qed.

End DeployMapperFacts.

Ltac split_NoDup :=
  repeat match goal with
  | H : NoDup (_ :: _) |- _ => apply NoDup_cons in H; destruct H
  | H : _ ∉ _ :: _ |- _ => apply not_elem_of_cons in H; destruct H
  end.

Ltac decide_lookups :=
  cbn [rev app find fst snd];
  repeat (case_bool_decide; cbn [fst snd]; try congruence).

Section DeployMapperRoundTrip.
Import DeployModel DeployService.

Variable pb : deploy_pb2.

(** Distinct constants of a generated enum carry distinct wire numbers. *)
Hypothesis type_numbers_distinct : NoDup (type_wire_values pb).
Hypothesis status_numbers_distinct : NoDup (status_wire_values pb).

(** C2. For both enum mapper pairs of the deploy client (deployment type
    and deployment status), decoding the encoding of a domain value gives
    the value back, and decoding a wire number that no table entry
    mentions gives the UNSPECIFIED member instead of failing. *)
Theorem C2_enum_mappers_round_trip :
  (forall t, _type_from_pb pb (_type_to_pb pb t) = t) /\
  (forall s, _status_from_pb pb (_status_to_pb pb s) = s) /\
  (forall w, ~ In w (type_wire_values pb) -> _type_from_pb pb w = TYPE_UNSPECIFIED) /\
  (forall w, ~ In w (status_wire_values pb) -> _status_from_pb pb w = STATUS_UNSPECIFIED).
Proof.
  unfold type_wire_values, status_wire_values in *. simpl in *.
  rewrite !_type_to_pb_eq in type_numbers_distinct.
  rewrite !_status_to_pb_eq in status_numbers_distinct.
  split_NoDup.
  split; [| split; [| split]].
  - intros t. rewrite _type_to_pb_eq. unfold _type_from_pb.
    rewrite dict_get_display. destruct t; decide_lookups.
  - intros s. rewrite _status_to_pb_eq. unfold _status_from_pb.
    rewrite dict_get_display. destruct s; decide_lookups.
  - intros w Hw. rewrite !_type_to_pb_eq in Hw. unfold _type_from_pb.
    rewrite dict_get_display. decide_lookups; subst; exfalso; apply Hw; tauto.
  - intros w Hw. rewrite !_status_to_pb_eq in Hw. unfold _status_from_pb.
    rewrite dict_get_display. decide_lookups; subst; exfalso; apply Hw; tauto.
Qed.

End DeployMapperRoundTrip.

Section StrReplaceFacts.
Import PromptModel.
Local Open Scope string_scope.

Lemma append_nil (b : string) : "" ++ b = b.
Proof. reflexivity. Qed.

Lemma append_cons (x : ascii) (a b : string) : String x a ++ b = String x (a ++ b).
Proof. reflexivity. Qed.

Lemma append_assoc (a b c : string) : (a ++ b) ++ c = a ++ (b ++ c).
Proof.
  induction a as [|x a IH]; [done |].
  by rewrite !append_cons, IH.
Qed.

Lemma prefix_cons (x y : ascii) (a t : string) :
  String.prefix (String x a) (String y t) =
  if ascii_dec x y then String.prefix a t else false.
Proof. reflexivity. Qed.

Lemma prefix_append (a t : string) : String.prefix a (a ++ t) = true.
Proof.
  induction a as [|x a IH]; [by destruct t |].
  rewrite append_cons, prefix_cons.
  destruct (ascii_dec x x); [done | congruence].
Qed.

Lemma prefix_head_ne (x y : ascii) (a t : string) :
  x <> y -> String.prefix (String x a) (String y t) = false.
Proof. intros Hne. rewrite prefix_cons. by destruct (ascii_dec x y). Qed.

Lemma has_char_cons_false c x s :
  has_char c (String x s) = false -> c <> x /\ has_char c s = false.
Proof.
  simpl. intros H. apply orb_false_elim in H as [Hx Hs].
  split; [by apply Ascii.eqb_neq | done].
Qed.

Lemma no_open_cons x s : no_open (String x s) = true -> "{"%char <> x /\ no_open s = true.
Proof.
  unfold no_open. intros H. apply negb_true_iff in H.
  apply has_char_cons_false in H as [Hx Hs]. by rewrite Hs.
Qed.

Lemma no_brace_cons x s :
  no_brace (String x s) = true ->
  "{"%char <> x /\ "}"%char <> x /\ no_brace s = true.
Proof.
  unfold no_brace. intros H. apply andb_true_iff in H as [H1 H2].
  apply negb_true_iff in H1, H2.
  apply has_char_cons_false in H1 as [Hx1 Hs1].
  apply has_char_cons_false in H2 as [Hx2 Hs2].
  by rewrite Hs1, Hs2.
Qed.

Lemma no_brace_no_open s : no_brace s = true -> no_open s = true.
Proof. unfold no_brace, no_open. by intros [H _]%andb_true_iff. Qed.

(** Passing over the rest of a replaced occurrence. *)
Lemma replace_from_skip old new (u t : string) :
  replace_from old new (String.length u) (u ++ t) = replace_from old new 0 t.
Proof.
  induction u as [|x u IH]; [done |].
  rewrite append_cons. exact IH.
Qed.

(** Text without an opening brace cannot start an occurrence of a
    placeholder. *)
Lemma replace_from_text old' new (s t : string) :
  no_open s = true ->
  replace_from (String "{" old') new 0 (s ++ t) =
  s ++ replace_from (String "{" old') new 0 t.
Proof.
  induction s as [|x s IH]; intros Hs; [done |].
  apply no_open_cons in Hs as [Hx Hs].
  rewrite !append_cons.
  cbn [replace_from]. rewrite prefix_head_ne by done.
  by rewrite IH.
Qed.

(** Two brace-free names followed by the closing braces can only match
    when they are equal. *)
Lemma prefix_name (n m t : string) :
  no_brace n = true -> no_brace m = true ->
  String.prefix (n ++ "}}") (m ++ "}}" ++ t) = true -> n = m.
Proof.
  revert m. induction n as [|x n IH]; intros [|y m] Hn Hm Hp.
  - done.
  - apply no_brace_cons in Hm as (_ & Hy & _).
    rewrite append_nil, !append_cons, prefix_cons in Hp.
    by destruct (ascii_dec "}" y).
  - apply no_brace_cons in Hn as (_ & Hx & _).
    rewrite append_nil, !append_cons, prefix_cons in Hp.
    destruct (ascii_dec x "}"); [congruence | done].
  - apply no_brace_cons in Hn as (_ & _ & Hn).
    apply no_brace_cons in Hm as (_ & _ & Hm).
    rewrite !append_cons, prefix_cons in Hp.
    destruct (ascii_dec x y) as [-> |]; [| done].
    f_equal. by apply IH.
Qed.

Lemma replace_from_hole_same n v (t : string) :
  replace_from (placeholder n) v 0 (placeholder n ++ t) =
  v ++ replace_from (placeholder n) v 0 t.
Proof.
  pose proof (prefix_append (placeholder n) t) as Hp.
  unfold placeholder in *.
  change ("{{" ++ n ++ "}}") with (String "{" (String "{" (n ++ "}}"))) in *.
  set (old := String "{" (String "{" (n ++ "}}"))) in *.
  change (old ++ t) with (String "{" (String "{" (n ++ "}}") ++ t)) in *.
  cbn [replace_from]. rewrite Hp. f_equal.
  replace (String.length old - 1)%nat with (String.length (String "{" (n ++ "}}"))).
  - apply replace_from_skip.
  - subst old. simpl. lia.
Qed.

Lemma replace_from_hole_other n m v (t : string) :
  no_brace n = true -> no_brace m = true -> n <> m ->
  replace_from (placeholder n) v 0 (placeholder m ++ t) =
  placeholder m ++ replace_from (placeholder n) v 0 t.
Proof.
  intros Hn Hm Hne. unfold placeholder.
  change ("{{" ++ n ++ "}}") with (String "{" (String "{" (n ++ "}}"))).
  change ("{{" ++ m ++ "}}") with (String "{" (String "{" (m ++ "}}"))).
  set (old := String "{" (String "{" (n ++ "}}"))).
  change (String "{" (String "{" (m ++ "}}")) ++ t)
    with (String "{" (String "{" ((m ++ "}}") ++ t))).
  rewrite append_assoc.
  assert (H0 : String.prefix old (String "{" (String "{" (m ++ "}}" ++ t))) = false).
  { subst old. rewrite !prefix_cons.
    destruct (ascii_dec "{" "{"); [| done].
    destruct (String.prefix (n ++ "}}") (m ++ "}}" ++ t)) eqn:Hp; [| done].
    by apply prefix_name in Hp. }
  assert (H1 : String.prefix old (String "{" (m ++ "}}" ++ t)) = false).
  { subst old. destruct m as [|y m].
    - reflexivity.
    - apply no_brace_cons in Hm as (Hy & _ & _).
      rewrite append_cons, !prefix_cons.
      destruct (ascii_dec "{" "{"); [| done].
      by destruct (ascii_dec "{" y). }
  cbn [replace_from]. rewrite H0, H1. subst old.
  rewrite replace_from_text by by apply no_brace_no_open.
  rewrite (replace_from_text _ v "}}" t) by reflexivity.
  by rewrite !append_cons, append_assoc.
Qed.

Lemma scan_text_open (s : string) :
  scan_text true s <> None ->
  s = "" \/ exists c s', s = String c s' /\ "{"%char <> c.
Proof.
  intros Hs. destruct s as [|c s']; [by left |]. right. exists c, s'. split; [done |].
  cbn [scan_text] in Hs. destruct (Ascii.eqb_spec c "{"); [done | congruence].
Qed.

Lemma no_double_open_weaken (prev : bool) (segs : list segment) :
  no_double_open_from prev segs = true -> no_double_open_from false segs = true.
Proof.
  destruct prev; [| done].
  induction segs as [|[s | m] segs IH]; [done | | done].
  cbn [no_double_open_from]. destruct s as [|c s']; [exact IH |].
  cbn [scan_text]. by destruct (Ascii.eqb c "{").
Qed.

(** After an opening brace of the text, what follows does not complete a
    placeholder. *)
Lemma prefix_after_open (n : string) (segs : list segment) :
  no_brace n = true -> no_double_open_from true segs = true ->
  String.prefix (String "{" (n ++ "}}")) (flatten segs) = false.
Proof.
  intros Hn. induction segs as [|[s | m] segs IH]; intros Hsegs.
  - reflexivity.
  - cbn [no_double_open_from] in Hsegs.
    cbn [flatten fold_right segment_text]. fold (flatten segs).
    destruct (scan_text true s) as [prev' |] eqn:Hs; [| done].
    destruct (scan_text_open s) as [-> | (c & s' & -> & Hc)]; [by rewrite Hs | |].
    + cbn [scan_text] in Hs. injection Hs as <-. rewrite append_nil. by apply IH.
    + rewrite append_cons. by apply prefix_head_ne.
  - cbn [flatten fold_right segment_text]. fold (flatten segs). unfold placeholder.
    change (("{{" ++ m ++ "}}") ++ flatten segs)
      with (String "{" (String "{" ((m ++ "}}") ++ flatten segs))).
    rewrite prefix_cons. destruct (ascii_dec "{" "{"); [| done].
    destruct n as [|x n].
    + rewrite append_nil. by apply prefix_head_ne.
    + apply no_brace_cons in Hn as (Hx & _ & _).
      rewrite append_cons. apply prefix_head_ne. congruence.
Qed.

(** Text without two opening braces side by side holds no placeholder. *)
Lemma replace_from_scanned n v (s : string) (prev prev' : bool) (segs : list segment) :
  no_brace n = true ->
  scan_text prev s = Some prev' -> no_double_open_from prev' segs = true ->
  replace_from (placeholder n) v 0 (s ++ flatten segs) =
  s ++ replace_from (placeholder n) v 0 (flatten segs).
Proof.
  intros Hn. revert prev. induction s as [|c s IH]; intros prev Hs Hsegs; [done |].
  rewrite !append_cons. unfold placeholder.
  change ("{{" ++ n ++ "}}") with (String "{" (String "{" (n ++ "}}"))).
  cbn [replace_from]. cbn [scan_text] in Hs.
  destruct (Ascii.eqb_spec c "{") as [-> | Hc].
  - destruct prev; [done |].
    rewrite prefix_cons. destruct (ascii_dec "{" "{"); [| done].
    assert (String.prefix (String "{" (n ++ "}}")) (s ++ flatten segs) = false) as ->.
    { change (s ++ flatten segs) with (flatten (Text s :: segs)).
      apply prefix_after_open; [done |]. cbn [no_double_open_from]. by rewrite Hs. }
    f_equal. exact (IH true Hs Hsegs).
  - rewrite prefix_head_ne by congruence.
    f_equal. exact (IH false Hs Hsegs).
Qed.

(** One replacement step fills the placeholders of that name and nothing
    else. *)
Lemma str_replace_flatten n v (prev : bool) (segs : list segment) :
  no_double_open_from prev segs = true -> brace_free_names segs = true ->
  no_brace n = true ->
  str_replace (flatten segs) (placeholder n) v = flatten (map (fill n v) segs).
Proof.
  intros Hsegs Hnames Hn.
  change (str_replace (flatten segs) (placeholder n) v)
    with (replace_from (placeholder n) v 0 (flatten segs)).
  revert prev Hsegs. induction segs as [|g segs IH]; intros prev Hsegs; [done |].
  cbn [brace_free_names forallb] in Hnames. apply andb_true_iff in Hnames as [Hg Hnames].
  specialize (IH Hnames).
  cbn [flatten fold_right map]. fold (flatten segs). fold (flatten (map (fill n v) segs)).
  cbn [no_double_open_from] in Hsegs.
  destruct g as [s | m]; cbn [segment_text fill] in *.
  - destruct (scan_text prev s) as [prev' |] eqn:Hs; [| done].
    rewrite (replace_from_scanned n v s prev prev') by done.
    by rewrite (IH prev').
  - destruct (String.eqb_spec n m) as [<- | Hne].
    + rewrite replace_from_hole_same. by rewrite (IH false).
    + rewrite replace_from_hole_other by done. by rewrite (IH false).
Qed.

Lemma fill_names n v (segs : list segment) :
  brace_free_names segs = true -> brace_free_names (map (fill n v) segs) = true.
Proof.
  intros Hsegs. induction segs as [|g segs IH]; [done |].
  cbn [brace_free_names forallb] in Hsegs. apply andb_true_iff in Hsegs as [Hg Hsegs].
  cbn [map brace_free_names forallb]. fold (brace_free_names (map (fill n v) segs)).
  rewrite IH by done. rewrite andb_true_r.
  destruct g as [s | m]; cbn [fill]; [done |].
  by destruct (String.eqb n m).
Qed.

(** Where the text is free of double braces once placeholders are filled,
    it was so before they were. *)
Lemma unfill_no_double_open n v (prev : bool) (segs : list segment) :
  no_double_open_from prev (map (fill n v) segs) = true ->
  no_double_open_from prev segs = true.
Proof.
  revert prev. induction segs as [|g segs IH]; intros prev H; [done |].
  destruct g as [s | m]; cbn [map fill no_double_open_from] in *.
  - destruct (scan_text prev s) as [prev' |]; [by apply IH | done].
  - destruct (String.eqb n m).
    + cbn [no_double_open_from] in H.
      destruct (scan_text prev v) as [prev' |]; [| done].
      apply (no_double_open_weaken prev'). by apply IH.
    + cbn [no_double_open_from] in H. by apply IH.
Qed.

Lemma unfill_all_no_double_open (items : list (string * string)) (prev : bool)
    (segs : list segment) :
  no_double_open_from prev
    (fold_left (fun segs kv => map (fill kv.1 kv.2) segs) items segs) = true ->
  no_double_open_from prev segs = true.
Proof.
  revert segs. induction items as [|[k v] items IH]; intros segs H; [done |].
  cbn [fold_left fst snd] in H. apply IH in H. by apply unfill_no_double_open in H.
Qed.

(** All steps together: a placeholder receives the value of the first
    item with its name. *)
Lemma fill_all_filled (items : list (string * string)) (segs : list segment) :
  fold_left (fun segs kv => map (fill kv.1 kv.2) segs) items segs = filled items segs.
Proof.
  unfold filled. revert segs.
  induction items as [|[k v] items IH]; intros segs.
  - cbn [fold_left]. induction segs as [|[s | m] segs IHs]; cbn [map]; by f_equal.
  - cbn [fold_left fst snd]. rewrite IH, map_map. apply map_ext. intros [s | m]; [done |].
    unfold lookup_variable. cbn [fill find fst snd].
    by destruct (String.eqb k m).
Qed.

Lemma render_steps (items : list (string * string)) (segs : list segment) :
  brace_free_names segs = true ->
  forallb (fun kv => no_brace kv.1) items = true ->
  no_double_open (filled items segs) = true ->
  fold_left (fun template kv => str_replace template (placeholder kv.1) kv.2)
    items (flatten segs) =
  flatten (filled items segs).
Proof.
  rewrite <- fill_all_filled. unfold no_double_open.
  revert segs. induction items as [|[k v] items IH]; intros segs Hnames Hitems Hout; [done |].
  cbn [forallb fst] in Hitems. apply andb_true_iff in Hitems as [Hk Hitems].
  cbn [fold_left fst snd] in *.
  rewrite (str_replace_flatten k v false).
  - apply IH; [by apply fill_names | done | done].
  - apply unfill_all_no_double_open in Hout. by apply unfill_no_double_open in Hout.
  - done.
  - done.
Qed.

End StrReplaceFacts.

Section PromptFacts.
Import PromptModel.
Local Open Scope string_scope.

(** The example of the documentation, by evaluation. *)
Example render_hello_world :
  render (prompt_with 1 [version_with 1 "Hello {{name}}!"])
    (Some [("name", "World")]) None = Py.Return "Hello World!".
Proof. reflexivity. Qed.

Example render_unmatched_verbatim :
  render (prompt_with 1 [version_with 1 "Hello {{name}}!"])
    (Some [("user", "World")]) None = Py.Return "Hello {{name}}!".
Proof. reflexivity. Qed.

Example render_missing_version :
  render (prompt_with 1 [version_with 1 "Hello {{name}}!"]) None (Some 3) =
  Py.Raise (Py.ValueError "Version 3 not found").
Proof. reflexivity. Qed.

(** C3, as amended.  When the selected version exists, [render] returns
    its template after one [str.replace] per supplied variable, made in
    the order of the dict on the result of the replacements before it.
    When, moreover, the names of the placeholders of the template and of
    the supplied variables contain no brace, and no two opening braces
    stand side by side in the text of the expected result (the template
    with the supplied values in place of their placeholders) other than
    those of the placeholders left in place, then what [render] returns is
    that expected result: every placeholder replaced by the value supplied
    for its name, and the placeholders without a supplied value left as
    they are.  Single braces, in the text of the template and in the
    values, are allowed. *)
Theorem C3_render_fills_placeholders
    (p : Prompt) (version : option Z) (v : PromptVersion)
    (variables : option (list (string * string))) :
  get_version p version = Some v ->
  render p variables version =
    Py.Return
      (fold_left (fun template kv => str_replace template (placeholder kv.1) kv.2)
         (items_of variables) (template v)) /\
  (forall segs : list segment,
     template v = flatten segs ->
     brace_free_names segs = true ->
     forallb (fun kv => no_brace kv.1) (items_of variables) = true ->
     no_double_open (filled (items_of variables) segs) = true ->
     render p variables version = Py.Return (substitute (items_of variables) segs)).
Proof.
  intros Hv.
  assert (render p variables version =
          Py.Return
            (fold_left (fun template kv => str_replace template (placeholder kv.1) kv.2)
               (items_of variables) (template v))) as Hrender.
  { unfold render. rewrite Hv. by destruct variables as [[|kv items] |]. }
  split; [exact Hrender |].
  intros segs Ht Hnames Hitems Hout.
  rewrite Hrender, Ht. f_equal. by apply render_steps.
Qed.

(** A template with single braces of its own, a value in braces and a
    placeholder without a value. *)
Lemma C3_render_fills_placeholders_witness :
  render (prompt_with 1 [version_with 1 "{'q': '{{name}}', 'k': '{{k}}'} {"])
    (Some [("name", "{World}"); ("user", "{{name}}")]) None =
  Py.Return "{'q': '{World}', 'k': '{{k}}'} {".
Proof.
  refine (proj2 (C3_render_fills_placeholders
            (prompt_with 1 [version_with 1 "{'q': '{{name}}', 'k': '{{k}}'} {"]) None
            (version_with 1 "{'q': '{{name}}', 'k': '{{k}}'} {")
            (Some [("name", "{World}"); ("user", "{{name}}")]) _)
            [Text "{'q': '"; Hole "name"; Text "', 'k': '"; Hole "k"; Text "'} {"]
            _ _ _ _); reflexivity.
Defined.

(** Without the condition on the text, a value can complete a placeholder
    that the template only begins. *)
Example render_completed_placeholder :
  render (prompt_with 1 [version_with 1 "{{x{{a}}y}}"])
    (Some [("a", "1"); ("x1y", "boom")]) None = Py.Return "boom".
Proof. reflexivity. Qed.

(** C3, as stated, fails: the replacements are made one variable after
    the other, so a supplied value that contains the placeholder of a later
    variable is substituted again. *)
Lemma C3_render_counterexample :
  get_version (prompt_with 1 [version_with 1 "{{a}}"]) None =
    Some (version_with 1 "{{a}}") /\
  template (version_with 1 "{{a}}") = flatten [Hole "a"] /\
  substitute [("a", "{{b}}"); ("b", "X")] [Hole "a"] = "{{b}}" /\
  render (prompt_with 1 [version_with 1 "{{a}}"])
    (Some [("a", "{{b}}"); ("b", "X")]) None = Py.Return "X" /\
  render (prompt_with 1 [version_with 1 "{{a}}"])
    (Some [("a", "{{b}}"); ("b", "X")]) None <>
  Py.Return (substitute [("a", "{{b}}"); ("b", "X")] [Hole "a"]).
Proof. repeat split; try reflexivity. discriminate. Qed.

(** C10, as amended.  Asking for version 0 is the same as asking for no
    version: both select the first version whose number is
    [current_version], and [render] behaves alike for both.  A version
    numbered 0 is therefore selected by [get_version(0)] only when it is
    the current version. *)
Theorem C10_version_zero_is_unspecified (p : Prompt) :
  get_version p (Some 0) = get_version p None /\
  get_version p None =
    find (fun v => Z.eqb (PromptModel.version v) (current_version p)) (versions p) /\
  (forall variables, render p variables (Some 0) = render p variables None) /\
  (forall v, get_version p (Some 0) = Some v ->
     PromptModel.version v = current_version p).
Proof.
  split; [done |]. split; [done |]. split; [done |].
  intros v Hv. unfold get_version in Hv. cbn [version_or Z.eqb] in Hv.
  apply find_some in Hv as [_ Hv]. by apply Z.eqb_eq.
Qed.

Lemma C10_version_zero_is_unspecified_witness :
  PromptModel.version (version_with 2 "two") =
  current_version (prompt_with 2 [version_with 0 "zero"; version_with 2 "two"]).
Proof.
  apply (C10_version_zero_is_unspecified
           (prompt_with 2 [version_with 0 "zero"; version_with 2 "two"])).
  reflexivity.
Defined.

(** C10, as stated, fails: when the current version is itself numbered 0,
    [get_version(0)] selects the version numbered 0. *)
Lemma C10_version_zero_counterexample :
  get_version (prompt_with 0 [version_with 0 "zero"; version_with 1 "one"]) (Some 0) =
    Some (version_with 0 "zero") /\
  PromptModel.version (version_with 0 "zero") = 0.
Proof. split; reflexivity. Qed.

End PromptFacts.

Section EvalFacts.
Import EvalModel.

(** C4. [progress] is [0.0] whenever [total_examples] is 0, whatever
    [completed_examples] is.  Otherwise it is the value of the Python
    expression [(completed_examples / total_examples) * 100]: the quotient
    of the two integers rounded to a binary64 float ([OverflowError] when
    it is beyond the range of floats), multiplied as a float by 100.0.  The
    operations are those of IEEE 754 at precision 53, [SFdiv] and [SFmul]
    of the standard library; an integer [n] other than 0 stands for itself,
    with mantissa [|n|] and exponent 0, and 100.0 is written with its
    normalized mantissa, [7036874417766400 * 2^-46].  With no example
    completed the result is a zero.  For 1 completed example out of 4 it
    is 25.0, that is [7036874417766400 * 2^-48]. *)
Theorem C4_progress (r : EvalRun) :
  (total_examples r = 0 -> progress r = Py.Return (S754_zero false)) /\
  (total_examples r <> 0 -> completed_examples r = 0 ->
     progress r = Py.Return (S754_zero (total_examples r <? 0))) /\
  (total_examples r <> 0 -> completed_examples r <> 0 ->
     progress r =
     match SFdiv 53 1024
             (S754_finite (completed_examples r <? 0)
                (Z.to_pos (Z.abs (completed_examples r))) 0)
             (S754_finite (total_examples r <? 0)
                (Z.to_pos (Z.abs (total_examples r))) 0) with
     | S754_infinity _ | S754_nan =>
         Py.Raise (Py.OverflowError "integer division result too large for a float")
     | quotient =>
         Py.Return (SFmul 53 1024 quotient (S754_finite false 7036874417766400 (-46)))
     end) /\
  progress (run_with 4 1) = Py.Return (S754_finite false 7036874417766400 (-48)).
Proof.
  split; [| split; [| split]].
  - intros H. unfold progress. by rewrite H.
  - intros Ht Hc. unfold progress. apply Z.eqb_neq in Ht. rewrite Ht, Hc.
    by destruct (total_examples r).
  - intros Ht Hc. unfold progress. apply Z.eqb_neq in Ht. rewrite Ht.
    unfold PyFloat.int_truediv. rewrite Ht.
    destruct (completed_examples r) as [|c|c], (total_examples r) as [|t|t];
      try done; cbn [PyFloat.exact_int Z.ltb Z.compare Z.abs Z.to_pos];
      rewrite ?Pos2Z.id; by destruct (SFdiv _ _ _ _).
  - reflexivity.
Qed.

Lemma C4_progress_witness :
  progress (run_with 0 7) = Py.Return (S754_zero false) /\
  progress (run_with 3 0) = Py.Return (S754_zero false) /\
  progress (run_with 8 2) = Py.Return (S754_finite false 7036874417766400 (-48)).
Proof.
  split; [| split].
  - refine (proj1 (C4_progress (run_with 0 7)) _). reflexivity.
  - refine (proj1 (proj2 (C4_progress (run_with 3 0))) _ _); [discriminate | reflexivity].
  - refine (proj1 (proj2 (proj2 (C4_progress (run_with 8 2)))) _ _); discriminate.
Defined.

(** The order of the two operations shows in the last digit: one example
    out of three gives 33.33333333333333, not the float nearest to 100/3,
    which is 33.333333333333336. *)
Example progress_one_third :
  progress (run_with 3 1) = Py.Return (S754_finite false 4691249611844266 (-47)).
Proof. reflexivity. Qed.

End EvalFacts.

Section StreamFacts.
Import RuntimeClient.

Lemma truthy_nonempty (s : string) : truthy s = negb (String.eqb s "").
Proof. by destruct s. Qed.

Lemma consume_skip r rs e fuel :
  truthy (content r) = false ->
  consume fuel {| responses := r :: rs; ending := e |} =
  consume fuel {| responses := rs; ending := e |}.
Proof.
  intros Hr. destruct fuel as [|fuel]; [done |].
  cbn [consume]. unfold next. cbn [responses ending next_from]. by rewrite Hr.
Qed.

(** Draining the generator from any point of the remote stream: with
    more calls of [next] allowed than responses are left, the loop ends. *)
Lemma consume_responses (rs : list CompleteStreamResponse) (e : option Py.exn) (fuel : nat) :
  (length rs < fuel)%nat ->
  consume fuel {| responses := rs; ending := e |} =
  Some (List.filter (fun chunk => negb (String.eqb chunk "")) (map content rs), e).
Proof.
  revert fuel. induction rs as [|r rs IH]; intros fuel Hfuel.
  - destruct fuel as [|fuel]; [lia |]. simpl. by destruct e.
  - cbn [map List.filter]. rewrite <- truthy_nonempty.
    destruct (truthy (content r)) eqn:Hr.
    + destruct fuel as [|fuel]; [simpl in Hfuel; lia |].
      cbn [consume]. unfold next. cbn [responses ending next_from]. rewrite Hr.
      rewrite IH; [done | simpl in Hfuel; lia].
    + rewrite consume_skip by done. apply IH. simpl in Hfuel. lia.
Qed.

(** C7. Whatever responses the remote stream produces, the caller of
    [complete_stream] receives exactly the contents that differ from the
    empty string, in the order of the stream: the chunks received are the
    contents of the stream with the empty ones removed, so none of them is
    empty, and every content that is not empty is among them.  The loop
    ends as the remote stream ends. *)
Theorem C7_stream_yields_nonempty_contents (remote : remote_stream) (extra : nat) :
  exists chunks,
    consume (S (length (responses remote)) + extra) (complete_stream remote) =
      Some (chunks, ending remote) /\
    chunks =
      List.filter (fun chunk => negb (String.eqb chunk ""))
        (map content (responses remote)) /\
    Forall (fun chunk => chunk <> EmptyString) chunks /\
    (forall r, In r (responses remote) -> content r <> EmptyString ->
       In (content r) chunks).
Proof.
  destruct remote as [rs e]. unfold complete_stream. cbn [responses ending].
  eexists. split; [apply consume_responses; lia |]. split; [done |]. split.
  - apply List.Forall_forall. intros chunk [_ Hc]%List.filter_In.
    apply negb_true_iff in Hc. by apply String.eqb_neq.
  - intros r Hr Hc. apply List.filter_In. split.
    + by apply List.in_map.
    + apply negb_true_iff. by apply String.eqb_neq.
Qed.

Lemma C7_stream_yields_nonempty_contents_witness :
  exists chunks,
    consume 5 (complete_stream
      {| responses := [ {| content := "Hel" |}; {| content := "" |};
                        {| content := "lo" |}; {| content := "" |} ];
         ending := None |}) = Some (chunks, None) /\
    In "lo"%string chunks.
Proof.
  destruct (C7_stream_yields_nonempty_contents
              {| responses := [ {| content := "Hel" |}; {| content := "" |};
                                {| content := "lo" |}; {| content := "" |} ];
                 ending := None |} 0) as (chunks & Hc & _ & _ & Hin).
  exists chunks. split; [exact Hc |].
  apply (Hin {| content := "lo" |}); [cbn; tauto | discriminate].
Defined.

Example stream_example :
  consume 5 (complete_stream
    {| responses := [ {| content := "Hel" |}; {| content := "" |};
                      {| content := "lo" |}; {| content := "" |} ];
       ending := None |}) = Some (["Hel"; "lo"]%string, None).
Proof. reflexivity. Qed.

End StreamFacts.

Section ConnectionFacts.
Import Eff.

Lemma bind_return_inv {S A B} (m : eff S A) (k : A -> eff S B) s b s' :
  Eff.bind m k s = (Py.Return b, s') ->
  exists a s1, m s = (Py.Return a, s1) /\ k a s1 = (Py.Return b, s').
Proof.
  unfold Eff.bind. destruct (m s) as [[a | e] s1]; [eauto | discriminate].
Qed.

Lemma base_close_closed (c : Base.BaseClient) (g : Grpc.runtime) :
  Base._channel c = None -> Base.close (c, g) = (Py.Return tt, (c, g)).
Proof.
  intros Hc. unfold Base.close, mbind, eff_bind, Eff.bind. simpl. by rewrite Hc.
Qed.

Lemma base_close_returns (s s' : Base.state) :
  Base.close s = (Py.Return tt, s') -> Base._channel (fst s') = None.
Proof.
  destruct s as [c g]. unfold Base.close, mbind, eff_bind, Eff.bind. simpl.
  destruct (Base._channel c) as [h |] eqn:Hc; simpl.
  - destruct (Grpc.close_error g h); simpl; [discriminate |].
    by intros [= <-].
  - by intros [= <-].
Qed.

Lemma service_close_closed (c : Service.ServiceClient) (g : Grpc.runtime) :
  Base._channel (Service.base c) = None ->
  Service.close (c, g) = (Py.Return tt, (c, g)).
Proof.
  intros Hc. unfold Service.close, Service.inherited.
  rewrite base_close_closed by done. by destruct c.
Qed.

Lemma service_close_returns (s s' : Service.state) :
  Service.close s = (Py.Return tt, s') ->
  Base._channel (Service.base (fst s')) = None /\
  Service._stub (fst s') = Service._stub (fst s).
Proof.
  destruct s as [c g]. unfold Service.close, Service.inherited.
  destruct (Base.close (Service.base c, g)) as [r [b' g']] eqn:Hclose.
  intros [= -> <-]. split; [| done].
  by apply base_close_returns in Hclose.
Qed.

Lemma close_slot_closed slot set_slot (f : Client.DelosClient) (g : Grpc.runtime) :
  slot f = None -> Client.close_slot slot set_slot (f, g) = (Py.Return tt, (f, g)).
Proof.
  intros Hf. unfold Client.close_slot, mbind, eff_bind, Eff.bind. simpl. by rewrite Hf.
Qed.

Lemma close_slot_returns slot set_slot (f f' : Client.DelosClient) (g g' : Grpc.runtime) :
  Client.close_slot slot set_slot (f, g) = (Py.Return tt, (f', g')) ->
  (slot f = None /\ f' = f) \/
  (exists c', f' = set_slot None (set_slot (Some c') f)).
Proof.
  unfold Client.close_slot, mbind, eff_bind, Eff.bind. simpl.
  destruct (slot f) as [c |]; [| intros [= <-]; by left].
  unfold Client.on_slot.
  destruct (Service.close (c, g)) as [[[] | e] [c' g1]]; simpl; [| discriminate].
  intros [= <- _]. right. by exists c'.
Qed.

Lemma client_close_closed (f : Client.DelosClient) (g : Grpc.runtime) :
  Client.all_closed f = true -> Client.close (f, g) = (Py.Return tt, (f, g)).
Proof.
  intros Hf. destruct f as [cfg [o |] [r |] [p |] [d |] [e |] [y |]]; try discriminate.
  reflexivity.
Qed.

Lemma client_close_returns (s s' : Client.state) :
  Client.close s = (Py.Return tt, s') -> Client.all_closed (fst s') = true.
Proof.
  destruct s as [f g], s' as [f' g']. unfold Client.close, mbind, eff_bind.
  intros H.
  apply bind_return_inv in H as ([] & [f1 g1] & H1 & H).
  apply bind_return_inv in H as ([] & [f2 g2] & H2 & H).
  apply bind_return_inv in H as ([] & [f3 g3] & H3 & H).
  apply bind_return_inv in H as ([] & [f4 g4] & H4 & H).
  apply bind_return_inv in H as ([] & [f5 g5] & H5 & H6).
  apply close_slot_returns in H1, H2, H3, H4, H5, H6.
  destruct f as [cfg o r p d e y].
  destruct H1 as [[? ->] | [? ->]], H2 as [[? ->] | [? ->]],
    H3 as [[? ->] | [? ->]], H4 as [[? ->] | [? ->]],
    H5 as [[? ->] | [? ->]], H6 as [[? ->] | [? ->]];
    simpl in *; subst; reflexivity.
Qed.

(** C8. Closing a client that is already closed does nothing and raises
    nothing: once [close] has returned, the channel of a service client is
    [None], the sub-clients of the facade are all [None], and a second
    [close] returns with the client and the gRPC runtime as they were. *)
Theorem C8_close_idempotent :
  (forall s s' : Base.state,
     Base.close s = (Py.Return tt, s') ->
     Base._channel (fst s') = None /\ Base.close s' = (Py.Return tt, s')) /\
  (forall s s' : Service.state,
     Service.close s = (Py.Return tt, s') ->
     Base._channel (Service.base (fst s')) = None /\
     Service.close s' = (Py.Return tt, s')) /\
  (forall s s' : Client.state,
     Client.close s = (Py.Return tt, s') ->
     Client.all_closed (fst s') = true /\ Client.close s' = (Py.Return tt, s')).
Proof.
  split; [| split].
  - intros s [c' g'] H. apply base_close_returns in H as Hc.
    split; [done |]. by apply base_close_closed.
  - intros s [c' g'] H. apply service_close_returns in H as [Hc _].
    split; [done |]. by apply service_close_closed.
  - intros s [f' g'] H. apply client_close_returns in H as Hf.
    split; [done |]. by apply client_close_closed.
Qed.

End ConnectionFacts.

Section ConnectionExamples.

Lemma C8_close_idempotent_witness :
  (Base._channel (fst (snd (Base.close Base.after_first_use))) = None /\
   Base.close (snd (Base.close Base.after_first_use)) =
   (Py.Return tt, snd (Base.close Base.after_first_use))) /\
  (Base._channel (Service.base (fst (snd (Service.close Service.after_first_use)))) = None /\
   Service.close (snd (Service.close Service.after_first_use)) =
   (Py.Return tt, snd (Service.close Service.after_first_use))) /\
  (Client.all_closed (fst (snd (Client.close Client.after_first_use))) = true /\
   Client.close (snd (Client.close Client.after_first_use)) =
   (Py.Return tt, snd (Client.close Client.after_first_use))).
Proof.
  split; [| split].
  - refine (proj1 C8_close_idempotent Base.after_first_use _ _). reflexivity.
  - refine (proj1 (proj2 C8_close_idempotent) Service.after_first_use _ _). reflexivity.
  - refine (proj2 (proj2 C8_close_idempotent) Client.after_first_use _ _). reflexivity.
Defined.

Example close_closes_the_channel :
  Grpc.trace (snd (snd (Client.close Client.after_first_use))) =
  [Grpc.InsecureChannel 0%nat "localhost:9002"; Grpc.ChannelClose 0%nat].
Proof. reflexivity. Qed.

End ConnectionExamples.

Section ChannelFacts.
Import Eff.

Lemma channel_creates (c : Base.BaseClient) (g : Grpc.runtime) :
  Base.channel (Base.set_channel None c, g) =
  (Py.Return (Some (Grpc.next_channel g)),
   (Base.set_channel (Some (Grpc.next_channel g)) c,
    Grpc.fresh (Grpc.log (Base.creation (Base._endpoint c) (Grpc.next_channel g)) g))).
Proof. reflexivity. Qed.

Lemma channel_reuses (c : Base.BaseClient) (g : Grpc.runtime) (h : Grpc.Channel) :
  Base._channel c = Some h -> Base.channel (c, g) = (Py.Return (Some h), (c, g)).
Proof.
  intros Hc. destruct c as [e t ch]. simpl in Hc. by subst ch.
Qed.

Lemma channel_calls_reuse (n : nat) (c : Base.BaseClient) (g : Grpc.runtime) (h : Grpc.Channel) :
  Base._channel c = Some h ->
  Base.channel_calls n (c, g) = (Py.Return (repeat (Some h) n), (c, g)).
Proof.
  intros Hc. induction n as [|n IH]; [done |].
  cbn [Base.channel_calls repeat]. unfold mbind, eff_bind, Eff.bind.
  by rewrite (channel_reuses c g h Hc), IH.
Qed.

Lemma created_log_creation e h g :
  Grpc.created (Grpc.fresh (Grpc.log (Base.creation e h) g)) = Grpc.created g ++ [Base.creation e h].
Proof.
  unfold Grpc.created. simpl. rewrite List.filter_app. f_equal.
  unfold Base.creation. by destruct (Config.use_tls e).
Qed.

(** C9, as amended.  Calls of [channel] that follow one another on a
    client without a channel create exactly one channel: the first call
    creates it and every call, the first included, returns it. *)
Theorem C9_sequential_calls_share_one_channel
    (c : Base.BaseClient) (g : Grpc.runtime) (n : nat) :
  Base.channel_calls (S n) (Base.set_channel None c, g) =
  (Py.Return (repeat (Some (Grpc.next_channel g)) (S n)),
   (Base.set_channel (Some (Grpc.next_channel g)) c,
    Grpc.fresh (Grpc.log (Base.creation (Base._endpoint c) (Grpc.next_channel g)) g))) /\
  Grpc.created (snd (snd (Base.channel_calls (S n) (Base.set_channel None c, g)))) =
  Grpc.created g ++ [Base.creation (Base._endpoint c) (Grpc.next_channel g)].
Proof.
  assert (H : Base.channel_calls (S n) (Base.set_channel None c, g) =
    (Py.Return (repeat (Some (Grpc.next_channel g)) (S n)),
     (Base.set_channel (Some (Grpc.next_channel g)) c,
      Grpc.fresh (Grpc.log (Base.creation (Base._endpoint c) (Grpc.next_channel g)) g)))).
  { cbn [Base.channel_calls repeat]. unfold mbind, eff_bind, Eff.bind.
    rewrite channel_creates.
    by rewrite (channel_calls_reuse n _ _ (Grpc.next_channel g)). }
  split; [exact H |]. rewrite H. apply created_log_creation.
Qed.

(** The thread model agrees with the property run without interference:
    a thread that runs alone makes the four steps of one call. *)
Lemma single_thread_is_channel (s : Base.state) :
  Base.run_threads [0; 0; 0; 0]%nat [Base.Start] s =
  match Base.channel s with
  | (Py.Return r, s') => ([Base.Done r], s')
  | (Py.Raise _, s') => ([Base.Done None], s')
  end.
Proof.
  destruct s as [[e t [h |]] g]; reflexivity.
Qed.

(** C9, as stated, fails: nothing guards the initialization.  Two threads
    that both pass the test [self._channel is None] before either assigns
    create a channel each; the one assigned first is overwritten and is
    neither returned nor closed. *)
Lemma C9_race_counterexample :
  Base.run_threads [0; 1; 0; 1; 0; 1; 0; 1]%nat [Base.Start; Base.Start]
    (Base.init (Config.default_endpoint 9002) (PyFloat.of_int 30), Grpc.initial) =
  ([Base.Done (Some 1%nat); Base.Done (Some 1%nat)],
   (Base.set_channel (Some 1%nat)
      (Base.init (Config.default_endpoint 9002) (PyFloat.of_int 30)),
    {| Grpc.next_channel := 2%nat;
       Grpc.trace := [Grpc.InsecureChannel 0%nat "localhost:9002";
                      Grpc.InsecureChannel 1%nat "localhost:9002"];
       Grpc.close_error := fun _ => None |})) /\
  length (Grpc.created (snd (snd
    (Base.run_threads [0; 1; 0; 1; 0; 1; 0; 1]%nat [Base.Start; Base.Start]
       (Base.init (Config.default_endpoint 9002) (PyFloat.of_int 30), Grpc.initial))))) = 2%nat.
Proof. split; reflexivity. Qed.

End ChannelFacts.

Section LookupFacts.
Import Eff.

Lemma stub_returns (s : Service.state) :
  exists st s', Service.stub true s = (Py.Return st, s').
Proof.
  destruct s as [[b [st |]] g].
  - by eexists _, _.
  - unfold Service.stub, mbind, eff_bind, Eff.bind. cbn -[Base.channel].
    unfold Service.inherited. cbn -[Base.channel].
    destruct (Base.channel (b, g)) as [[ch | e] [b' g']] eqn:Hch; [by eexists _, _ |].
    exfalso. destruct b as [e0 t [h |]]; discriminate.
Qed.

(** What a lookup gives: an exception when the request cannot be built,
    which happens before the [try]; otherwise the converted response, and
    [None] when the call or the conversion fails in whatever way. *)
Lemma lookup_result {Request Response Model} generated
    (method : Service.rpc Request Response) (convert : Response -> Py.result Model)
    (request : Py.result Request) (s : Service.state) :
  fst (Service.lookup generated method convert request s) =
  if generated then
    match request with
    | Py.Raise e => Py.Raise e
    | Py.Return request =>
        match method request with
        | Py.Raise _ => Py.Return None
        | Py.Return response =>
            match convert response with
            | Py.Raise _ => Py.Return None
            | Py.Return model => Py.Return (Some model)
            end
        end
    end
  else Py.Raise (Py.AttributeError "'NoneType' object has no attribute").
Proof.
  destruct generated; [| done].
  destruct request as [request | e]; [| done].
  unfold Service.lookup, Service.message, Service.invoke, Service.remote,
    Service.outcome, mbind, eff_bind, Eff.bind, Eff.try_except, Eff.ret.
  destruct (stub_returns s) as (st & s' & ->).
  destruct (method request) as [response |]; [| done].
  by destruct (convert response).
Qed.

(** What a method without [try] gives: a failure of the call or of the
    conversion is raised unchanged. *)
Lemma call_result {Request Response Model} generated
    (method : Service.rpc Request Response) (convert : Response -> Py.result Model)
    (request : Py.result Request) (s : Service.state) :
  fst (Service.call generated method convert request s) =
  if generated then
    match request with
    | Py.Raise e => Py.Raise e
    | Py.Return request =>
        match method request with
        | Py.Raise e => Py.Raise e
        | Py.Return response => convert response
        end
    end
  else Py.Raise (Py.AttributeError "'NoneType' object has no attribute").
Proof.
  destruct generated; [| done].
  destruct request as [request | e]; [| done].
  unfold Service.call, Service.message, Service.invoke, Service.remote,
    Service.outcome, mbind, eff_bind, Eff.bind, Eff.ret.
  destruct (stub_returns s) as (st & s' & ->).
  by destruct (method request).
Qed.

Lemma int_field_out_of_range (t : Py.int_type) (n : Z) :
  n < - 2 ^ 63 \/ 2 ^ 64 <= n ->
  Py.int_field t n = Py.Raise (Py.ValueError "Value out of range").
Proof.
  intros Hn. unfold Py.int_field.
  destruct ((fst (Py.int_range t) <=? n) && (n <=? snd (Py.int_range t))) eqn:H; [| done].
  exfalso. apply andb_true_iff in H as [H1 H2].
  apply Z.leb_le in H1, H2. destruct t; cbn in H1, H2; lia.
Qed.

Lemma int_field_in_range (t : Py.int_type) (n : Z) :
  0 <= n < 2 ^ 31 -> Py.int_field t n = Py.Return n.
Proof.
  intros Hn. unfold Py.int_field.
  destruct ((fst (Py.int_range t) <=? n) && (n <=? snd (Py.int_range t))) eqn:H; [done |].
  exfalso. apply andb_false_iff in H as [H | H]; apply Z.leb_gt in H;
    destruct t; cbn in H; lia.
Qed.

(** C1, as amended.  Every lookup ([PromptClient.get] and [get_version],
    [DeployClient.get], [DatasetsClient.get], [EvalClient.get_run],
    [ObserveClient.get_trace]) builds its request before the [try]: without
    the generated code that raises an [AttributeError], and a version
    number that does not fit the integer field of the request raises a
    [ValueError] (any number below [-2^63] or from [2^64] on, whatever the
    type of the field; none from 0 to [2^31 - 1]).  Once the request is
    built, the lookup never raises: it returns the converted response when
    the remote call and the conversion succeed, and [None] when the remote
    call fails, whatever the failure (not found, but also permission,
    validation, internal and timeout failures), or when the conversion
    raises.  Methods that are not lookups ([PromptClient.delete],
    [DeployClient.cancel]) raise the failure of the remote call, or of the
    conversion, unchanged. *)
Theorem C1_lookups_absorb_every_failure :
  (forall generated pb2 svc id version s,
     fst (PromptClient.get generated pb2 svc id version s) =
     if generated then
       match Py.int_field (PromptClient.GetPromptRequest_version pb2)
               (PromptModel.version_or version 0) with
       | Py.Raise e => Py.Raise e
       | Py.Return n =>
           match PromptClient.GetPrompt svc
                   {| PromptClient.req_id := id; PromptClient.req_version := n |} with
           | Py.Raise _ => Py.Return None
           | Py.Return r =>
               match Service.unconvertible r with
               | Some _ => Py.Return None
               | None => Py.Return (Some (PromptClient._to_prompt (Service.payload r)))
               end
           end
       end
     else Py.Raise (Py.AttributeError "'NoneType' object has no attribute")) /\
  (forall generated pb2 svc id version s,
     fst (PromptClient.get_version generated pb2 svc id version s) =
     if generated then
       match Py.int_field (PromptClient.GetPromptVersionRequest_version pb2) version with
       | Py.Raise e => Py.Raise e
       | Py.Return n =>
           match PromptClient.GetPromptVersion svc
                   {| PromptClient.vreq_id := id; PromptClient.vreq_version := n |} with
           | Py.Raise _ => Py.Return None
           | Py.Return r =>
               match Service.unconvertible r with
               | Some _ => Py.Return None
               | None => Py.Return (Some (PromptClient._to_version (Service.payload r)))
               end
           end
       end
     else Py.Raise (Py.AttributeError "'NoneType' object has no attribute")) /\
  (forall generated pb2 svc id s,
     fst (DeployClient.get generated pb2 svc id s) =
     if generated then
       match DeployClient.GetDeployment svc {| DeployClient.req_id := id |} with
       | Py.Raise _ => Py.Return None
       | Py.Return r =>
           match Service.unconvertible r with
           | Some _ => Py.Return None
           | None => Py.Return (Some (DeployClient._to_deployment pb2 (Service.payload r)))
           end
       end
     else Py.Raise (Py.AttributeError "'NoneType' object has no attribute")) /\
  (forall (Dataset_pb Dataset : Type) (_to_dataset : Dataset_pb -> Py.result Dataset)
          generated GetDataset id s,
     fst (OtherClients.datasets_get _to_dataset generated GetDataset id s) =
     if generated then
       match GetDataset id with
       | Py.Raise _ => Py.Return None
       | Py.Return r =>
           match _to_dataset r with
           | Py.Raise _ => Py.Return None
           | Py.Return dataset => Py.Return (Some dataset)
           end
       end
     else Py.Raise (Py.AttributeError "'NoneType' object has no attribute")) /\
  (forall (EvalRun_pb EvalRun : Type) (_to_run : EvalRun_pb -> Py.result EvalRun)
          generated GetEvalRun id s,
     fst (OtherClients.eval_get_run _to_run generated GetEvalRun id s) =
     if generated then
       match GetEvalRun id with
       | Py.Raise _ => Py.Return None
       | Py.Return r =>
           match _to_run r with
           | Py.Raise _ => Py.Return None
           | Py.Return run => Py.Return (Some run)
           end
       end
     else Py.Raise (Py.AttributeError "'NoneType' object has no attribute")) /\
  (forall (Trace_pb Trace : Type) (_to_trace : Trace_pb -> Py.result Trace)
          generated GetTrace id s,
     fst (OtherClients.observe_get_trace _to_trace generated GetTrace id s) =
     if generated then
       match GetTrace id with
       | Py.Raise _ => Py.Return None
       | Py.Return r =>
           match _to_trace r with
           | Py.Raise _ => Py.Return None
           | Py.Return trace => Py.Return (Some trace)
           end
       end
     else Py.Raise (Py.AttributeError "'NoneType' object has no attribute")) /\
  (forall generated svc id s,
     fst (PromptClient.delete generated svc id s) =
     if generated then
       match PromptClient.DeletePrompt svc {| PromptClient.dreq_id := id |} with
       | Py.Raise e => Py.Raise e
       | Py.Return success => Py.Return success
       end
     else Py.Raise (Py.AttributeError "'NoneType' object has no attribute")) /\
  (forall generated pb2 svc id reason s,
     fst (DeployClient.cancel generated pb2 svc id reason s) =
     if generated then
       match DeployClient.CancelDeployment svc
               {| DeployClient.creq_id := id; DeployClient.creq_reason := reason |} with
       | Py.Raise e => Py.Raise e
       | Py.Return r =>
           match Service.unconvertible r with
           | Some e => Py.Raise e
           | None => Py.Return (DeployClient._to_deployment pb2 (Service.payload r))
           end
       end
     else Py.Raise (Py.AttributeError "'NoneType' object has no attribute")) /\
  (forall pb2 svc id n s,
     n < - 2 ^ 63 \/ 2 ^ 64 <= n ->
     fst (PromptClient.get true pb2 svc id (Some n) s) =
       Py.Raise (Py.ValueError "Value out of range") /\
     fst (PromptClient.get_version true pb2 svc id n s) =
       Py.Raise (Py.ValueError "Value out of range")) /\
  (forall pb2 svc id n s,
     0 <= n < 2 ^ 31 ->
     fst (PromptClient.get true pb2 svc id (Some n) s) <>
       Py.Raise (Py.ValueError "Value out of range") /\
     fst (PromptClient.get_version true pb2 svc id n s) <>
       Py.Raise (Py.ValueError "Value out of range")).
Proof.
  repeat apply conj.
  - intros. unfold PromptClient.get, PromptClient.GetPromptRequest_new.
    rewrite lookup_result. destruct generated; [| done].
    destruct (Py.int_field _ _) as [n |]; [| done]. cbn.
    destruct (PromptClient.GetPrompt _ _) as [r |]; [| done].
    unfold Service.converted. by destruct (Service.unconvertible r).
  - intros. unfold PromptClient.get_version, PromptClient.GetPromptVersionRequest_new.
    rewrite lookup_result. destruct generated; [| done].
    destruct (Py.int_field _ _) as [n |]; [| done]. cbn.
    destruct (PromptClient.GetPromptVersion _ _) as [r |]; [| done].
    unfold Service.converted. by destruct (Service.unconvertible r).
  - intros. unfold DeployClient.get. rewrite lookup_result.
    destruct generated; [| done].
    destruct (DeployClient.GetDeployment _ _) as [r |]; [| done].
    unfold Service.converted. by destruct (Service.unconvertible r).
  - intros. unfold OtherClients.datasets_get. by rewrite lookup_result.
  - intros. unfold OtherClients.eval_get_run. by rewrite lookup_result.
  - intros. unfold OtherClients.observe_get_trace. by rewrite lookup_result.
  - intros. unfold PromptClient.delete. rewrite call_result.
    destruct generated; [| done]. by destruct (PromptClient.DeletePrompt _ _).
  - intros. unfold DeployClient.cancel. rewrite call_result.
    destruct generated; [| done].
    destruct (DeployClient.CancelDeployment _ _) as [r |]; [| done].
    unfold Service.converted. by destruct (Service.unconvertible r).
  - intros pb2 svc id n s Hn.
    unfold PromptClient.get, PromptClient.get_version,
      PromptClient.GetPromptRequest_new, PromptClient.GetPromptVersionRequest_new.
    rewrite !lookup_result.
    assert (PromptModel.version_or (Some n) 0 = n) as ->.
    { unfold PromptModel.version_or. destruct (Z.eqb_spec n 0); [lia | done]. }
    by rewrite !int_field_out_of_range.
  - intros pb2 svc id n s Hn.
    unfold PromptClient.get, PromptClient.get_version,
      PromptClient.GetPromptRequest_new, PromptClient.GetPromptVersionRequest_new.
    rewrite !lookup_result.
    assert (PromptModel.version_or (Some n) 0 = n) as ->.
    { unfold PromptModel.version_or. destruct (Z.eqb_spec n 0); [lia | done]. }
    rewrite !int_field_in_range by done. cbn.
    split.
    + destruct (PromptClient.GetPrompt _ _) as [r |]; [| done].
      unfold Service.converted. by destruct (Service.unconvertible r).
    + destruct (PromptClient.GetPromptVersion _ _) as [r |]; [| done].
      unfold Service.converted. by destruct (Service.unconvertible r).
Qed.

(** A version number of 71 bits is refused whatever the type of the
    field, and version 2 is not. *)
Lemma C1_lookups_absorb_every_failure_witness :
  fst (PromptClient.get true PromptClient.int32_pb2 PromptClient.empty_service
         "summarizer" (Some (2 ^ 70)) Service.after_first_use) =
    Py.Raise (Py.ValueError "Value out of range") /\
  fst (PromptClient.get true PromptClient.int32_pb2 PromptClient.empty_service
         "summarizer" (Some 2) Service.after_first_use) <>
    Py.Raise (Py.ValueError "Value out of range").
Proof.
  split.
  - refine (proj1 (proj1 (proj2 (proj2 (proj2 (proj2 (proj2 (proj2 (proj2 (proj2
      C1_lookups_absorb_every_failure))))))))
      PromptClient.int32_pb2 PromptClient.empty_service "summarizer" (2 ^ 70)
      Service.after_first_use _)).
    right. lia.
  - refine (proj1 (proj2 (proj2 (proj2 (proj2 (proj2 (proj2 (proj2 (proj2 (proj2
      C1_lookups_absorb_every_failure))))))))
      PromptClient.int32_pb2 PromptClient.empty_service "summarizer" 2
      Service.after_first_use _)).
    lia.
Defined.

(** C1, as stated, fails: a lookup that the service refuses for lack of
    permission returns [None] like a lookup of a missing prompt; the
    failure does not reach the caller. *)
Lemma C1_permission_denied_counterexample :
  PromptClient.GetPrompt PromptClient.denying_service
    {| PromptClient.req_id := "summarizer"; PromptClient.req_version := 0 |} =
    Py.Raise (Py.RpcError Py.PERMISSION_DENIED) /\
  fst (PromptClient.get true PromptClient.int32_pb2 PromptClient.denying_service
         "summarizer" None Service.after_first_use) = Py.Return None /\
  fst (PromptClient.get true PromptClient.int32_pb2 PromptClient.denying_service
         "summarizer" None Service.after_first_use) <>
    Py.Raise (Py.RpcError Py.PERMISSION_DENIED).
Proof. repeat split; try reflexivity. discriminate. Qed.

Example lookup_of_missing_prompt :
  fst (PromptClient.get true PromptClient.int32_pb2 PromptClient.empty_service
         "summarizer" None Service.after_first_use) = Py.Return None.
Proof. reflexivity. Qed.

(** A prompt that the service returns but the conversion cannot read is
    reported as absent as well. *)
Example lookup_of_misdated_prompt :
  fst (PromptClient.get true PromptClient.int32_pb2 PromptClient.misdated_service
         "summarizer" None Service.after_first_use) = Py.Return None.
Proof. reflexivity. Qed.

Example lookup_without_generated_code :
  fst (PromptClient.get false PromptClient.int32_pb2 PromptClient.empty_service
         "summarizer" None Service.after_first_use) =
  Py.Raise (Py.AttributeError "'NoneType' object has no attribute").
Proof. reflexivity. Qed.

End LookupFacts.

Section HealthCheckFacts.
Import Eff Client.
Local Open Scope string_scope.

(** One turn of the loop always ends normally and stores one entry: [True]
    when the three calls of the probe returned, [False] as soon as one of
    them raised. *)
Lemma check_service_sets network name endpoint (results : gmap string bool) :
  check_service network (name, endpoint) results =
  (Py.Return tt, <[ name := reachable (network (Config.address endpoint)) ]> results).
Proof.
  unfold check_service, reachable.
  destruct (network (Config.address endpoint)) as [[ec |] [ew |] [ecl |]];
    cbn [connecting waiting closing]; try reflexivity;
    try (destruct ew; cbv [try_except try_finally mbind eff_bind Eff.bind attempt
           raise Eff.ret set_result modify is_Exception is_FutureTimeoutError];
         by rewrite ?insert_insert_eq).
  cbv [try_except try_finally mbind eff_bind Eff.bind attempt
         raise Eff.ret set_result modify is_Exception is_FutureTimeoutError].
  by rewrite insert_insert_eq.
Qed.

Lemma for_each_check_service network svcs (results : gmap string bool) :
  for_each svcs (check_service network) results =
  (Py.Return tt,
   foldl (fun results '(name, endpoint) =>
            <[ name := reachable (network (Config.address endpoint)) ]> results)
     results svcs).
Proof.
  revert results. induction svcs as [|[name endpoint] svcs IH]; intros results; [done |].
  cbn [for_each foldl]. unfold Eff.bind. by rewrite check_service_sets, IH.
Qed.

(** C6. Whatever the network does, [health_check] returns a dict; its
    keys are exactly the six service names, and the entry of a service is
    [True] when the three calls of its probe returned and [False] when any
    of them raised.  No exception of a probe reaches the caller. *)
Theorem C6_health_check_always_returns (network : string -> probe) (f : DelosClient) :
  exists results : gmap string bool,
    health_check network f = Py.Return results /\
    dom results =
      ({["observe"; "runtime"; "prompt"; "datasets"; "eval"; "deploy"]} : gset string) /\
    Forall (fun '(name, endpoint) =>
              results !! name = Some (reachable (network (Config.address endpoint))))
      (services f).
Proof.
  exists (expected_results network f). split; [| split].
  - unfold health_check. by rewrite for_each_check_service.
  - unfold expected_results, services. cbn [foldl].
    rewrite !dom_insert_L, dom_empty_L. set_solver.
  - unfold expected_results, services. cbn [foldl].
    repeat constructor; by simplify_map_eq.
Qed.

Example health_check_flaky_network :
  exists results : gmap string bool,
    health_check flaky_network (init None) = Py.Return results /\
    results !! "observe" = Some true /\ results !! "runtime" = Some true /\
    results !! "prompt" = Some false /\ results !! "datasets" = Some true /\
    results !! "eval" = Some false /\ results !! "deploy" = Some false.
Proof.
  eexists. split.
  - unfold health_check. rewrite for_each_check_service. reflexivity.
  - unfold services. cbn [foldl]. repeat split; by simplify_map_eq.
Qed.

End HealthCheckFacts.

Section DeployMapperExamples.
Import DeployModel DeployService.

Lemma C2_enum_mappers_round_trip_witness :
  (forall t, _type_from_pb consecutive_pb2 (_type_to_pb consecutive_pb2 t) = t) /\
  (forall s, _status_from_pb consecutive_pb2 (_status_to_pb consecutive_pb2 s) = s) /\
  (forall w, ~ In w (type_wire_values consecutive_pb2) ->
     _type_from_pb consecutive_pb2 w = TYPE_UNSPECIFIED) /\
  (forall w, ~ In w (status_wire_values consecutive_pb2) ->
     _status_from_pb consecutive_pb2 w = STATUS_UNSPECIFIED).
Proof.
  apply (C2_enum_mappers_round_trip consecutive_pb2).
  - unfold type_wire_values. cbn [map all_types]. rewrite !_type_to_pb_eq.
    cbn. apply (bool_decide_unpack _). reflexivity.
  - unfold status_wire_values. cbn [map all_statuses]. rewrite !_status_to_pb_eq.
    cbn. apply (bool_decide_unpack _). reflexivity.
Defined.

Example status_from_unknown_wire_value :
  _status_from_pb consecutive_pb2 42 = STATUS_UNSPECIFIED /\
  _type_from_pb consecutive_pb2 (-1) = TYPE_UNSPECIFIED /\
  _status_from_pb consecutive_pb2 (_status_to_pb consecutive_pb2 ROLLED_BACK) = ROLLED_BACK.
Proof.
  unfold _status_from_pb, _type_from_pb. rewrite _status_to_pb_eq, !dict_get_display.
  by cbn.
Qed.

End DeployMapperExamples.

Section ListFacts.

Lemma find_map {A B} (f : B -> bool) (g : A -> B) (l : list A) :
  find f (map g l) = option_map g (find (fun a => f (g a)) l).
Proof.
  induction l as [|a l IH]; [done |]. cbn [map find].
  by destruct (f (g a)).
Qed.

Lemma find_ext_eq {A} (f g : A -> bool) (l : list A) :
  (forall a, f a = g a) -> find f l = find g l.
Proof.
  intros Hfg. induction l as [|a l IH]; [done |]. cbn [find].
  by rewrite Hfg, IH.
Qed.

(** [find] returns the first element that passes the test. *)
Lemma find_first {A} (f : A -> bool) (l : list A) :
  match find f l with
  | Some x =>
      exists before after,
        l = before ++ x :: after /\ f x = true /\
        Forall (fun y => f y = false) before
  | None => Forall (fun y => f y = false) l
  end.
Proof.
  induction l as [|a l IH]; [by constructor |]. cbn [find].
  destruct (f a) eqn:Ha.
  - exists [], l. by repeat split.
  - destruct (find f l) as [x |].
    + destruct IH as (before & after & -> & Hx & Hb).
      exists (a :: before), after. repeat split; [done |]. by constructor.
    + by constructor.
Qed.

End ListFacts.

Section ObserveMapperFacts.
Import ObserveModel ObserveClient.

Lemma observe_kind_to_pb_eq pb2 k :
  _kind_to_pb pb2 k =
  match k with
  | UNSPECIFIED => SPAN_KIND_UNSPECIFIED pb2
  | INTERNAL => SPAN_KIND_INTERNAL pb2
  | SERVER => SPAN_KIND_SERVER pb2
  | CLIENT => SPAN_KIND_CLIENT pb2
  | PRODUCER => SPAN_KIND_PRODUCER pb2
  | CONSUMER => SPAN_KIND_CONSUMER pb2
  end.
Proof. unfold _kind_to_pb. rewrite dict_get_display. by destruct k. Qed.

Lemma observe_status_to_pb_eq pb2 s :
  ObserveClient._status_to_pb pb2 s =
  match s with
  | UNSET => SPAN_STATUS_UNSET pb2
  | OK => SPAN_STATUS_OK pb2
  | ERROR => SPAN_STATUS_ERROR pb2
  end.
Proof. unfold ObserveClient._status_to_pb. rewrite dict_get_display. by destruct s. Qed.

Lemma observe_kind_round_trip pb2 k :
  NoDup (kind_wire_values pb2) -> _kind_from_pb pb2 (_kind_to_pb pb2 k) = k.
Proof.
  intros Hd. unfold kind_wire_values in Hd. simpl in Hd.
  rewrite !observe_kind_to_pb_eq in Hd. split_NoDup.
  rewrite observe_kind_to_pb_eq. unfold _kind_from_pb.
  rewrite dict_get_display. destruct k; decide_lookups.
Qed.

Lemma observe_status_round_trip pb2 s :
  NoDup (span_status_wire_values pb2) ->
  ObserveClient._status_from_pb pb2 (ObserveClient._status_to_pb pb2 s) = s.
Proof.
  intros Hd. unfold span_status_wire_values in Hd. simpl in Hd.
  rewrite !observe_status_to_pb_eq in Hd. split_NoDup.
  rewrite observe_status_to_pb_eq. unfold ObserveClient._status_from_pb.
  rewrite dict_get_display. destruct s; decide_lookups.
Qed.

Lemma observe_kind_unknown pb2 w :
  ~ In w (kind_wire_values pb2) -> _kind_from_pb pb2 w = UNSPECIFIED.
Proof.
  intros Hw. unfold kind_wire_values in Hw. simpl in Hw.
  rewrite !observe_kind_to_pb_eq in Hw. unfold _kind_from_pb.
  rewrite dict_get_display. decide_lookups; subst; exfalso; apply Hw; tauto.
Qed.

Lemma observe_status_unknown pb2 w :
  ~ In w (span_status_wire_values pb2) -> ObserveClient._status_from_pb pb2 w = UNSET.
Proof.
  intros Hw. unfold span_status_wire_values in Hw. simpl in Hw.
  rewrite !observe_status_to_pb_eq in Hw. unfold ObserveClient._status_from_pb.
  rewrite dict_get_display. decide_lookups; subst; exfalso; apply Hw; tauto.
Qed.

(** X1. The span kind and span status mappers of the observe client: when
    the constants of each enum have distinct wire numbers, decoding an
    encoded kind or status gives it back; a wire number outside the table
    decodes to [UNSPECIFIED], respectively [UNSET]. *)
Theorem X1_observe_mappers_round_trip (pb2 : observe_pb2) :
  NoDup (kind_wire_values pb2) ->
  NoDup (span_status_wire_values pb2) ->
  (forall k, _kind_from_pb pb2 (_kind_to_pb pb2 k) = k) /\
  (forall s, ObserveClient._status_from_pb pb2 (ObserveClient._status_to_pb pb2 s) = s) /\
  (forall w, ~ In w (kind_wire_values pb2) -> _kind_from_pb pb2 w = UNSPECIFIED) /\
  (forall w, ~ In w (span_status_wire_values pb2) ->
     ObserveClient._status_from_pb pb2 w = UNSET).
Proof.
  intros Hk Hs. split; [| split; [| split]].
  - intros k. by apply observe_kind_round_trip.
  - intros s. by apply observe_status_round_trip.
  - apply observe_kind_unknown.
  - apply observe_status_unknown.
Qed.

Lemma observe_consecutive_distinct :
  NoDup (kind_wire_values ObserveClient.consecutive_pb2) /\
  NoDup (span_status_wire_values ObserveClient.consecutive_pb2).
Proof.
  split.
  - unfold kind_wire_values. cbn [map all_kinds]. rewrite !observe_kind_to_pb_eq.
    cbn. apply (bool_decide_unpack _). reflexivity.
  - unfold span_status_wire_values. cbn [map all_span_statuses].
    rewrite !observe_status_to_pb_eq. cbn. apply (bool_decide_unpack _). reflexivity.
Defined.

Lemma X1_observe_mappers_round_trip_witness :
  (forall k, _kind_from_pb ObserveClient.consecutive_pb2
               (_kind_to_pb ObserveClient.consecutive_pb2 k) = k) /\
  (forall s, ObserveClient._status_from_pb ObserveClient.consecutive_pb2
               (ObserveClient._status_to_pb ObserveClient.consecutive_pb2 s) = s) /\
  (forall w, ~ In w (kind_wire_values ObserveClient.consecutive_pb2) ->
     _kind_from_pb ObserveClient.consecutive_pb2 w = UNSPECIFIED) /\
  (forall w, ~ In w (span_status_wire_values ObserveClient.consecutive_pb2) ->
     ObserveClient._status_from_pb ObserveClient.consecutive_pb2 w = UNSET).
Proof.
  apply (X1_observe_mappers_round_trip ObserveClient.consecutive_pb2).
  - exact (proj1 observe_consecutive_distinct).
  - exact (proj2 observe_consecutive_distinct).
Defined.

End ObserveMapperFacts.

Section ObserveSpanFacts.
Import ObserveModel ObserveClient.
Context {datetime Timestamp : Type}.
Variable FromDatetime : datetime -> Timestamp.
Variable ToDatetime : Timestamp -> datetime.
Variable unset_timestamp : Timestamp.

Lemma none_if_empty_or_empty (x : option string) :
  none_if_empty (or_empty x) = x <-> x <> Some EmptyString.
Proof. destruct x as [[|c s] |]; simpl; split; congruence. Qed.

(** X2. A span that is sent with [ingest_spans] and read back with
    [_to_span] comes back as it was, except that a parent id or a status
    message that was the empty string comes back as [None]; so the round
    trip is the identity exactly for the spans without such a field.
    (The enum numbers are distinct and the timestamps of the span survive
    [FromDatetime] followed by [ToDatetime].) *)
Theorem X2_span_round_trip (pb2 : observe_pb2) (span : Span datetime) :
  NoDup (kind_wire_values pb2) ->
  NoDup (span_status_wire_values pb2) ->
  ToDatetime (FromDatetime (start_time span)) = start_time span ->
  option_map ToDatetime (option_map FromDatetime (end_time span)) = end_time span ->
  _to_span ToDatetime unset_timestamp pb2 (span_to_pb FromDatetime pb2 span) =
    normalized span /\
  (_to_span ToDatetime unset_timestamp pb2 (span_to_pb FromDatetime pb2 span) = span <->
   parent_span_id span <> Some EmptyString /\
   status_message span <> Some EmptyString).
Proof.
  intros Hk Hs Hstart Hend.
  assert (Heq : _to_span ToDatetime unset_timestamp pb2 (span_to_pb FromDatetime pb2 span) =
                normalized span).
  { unfold _to_span, span_to_pb, normalized. cbn.
    rewrite observe_kind_round_trip, observe_status_round_trip by done.
    by rewrite Hstart, Hend. }
  split; [exact Heq |]. rewrite Heq.
  rewrite <- !none_if_empty_or_empty. unfold normalized.
  destruct span as [t s p n k st en stt msg attrs svc]; cbn. split.
  - intros [= Hp Hm]. by rewrite Hp, Hm.
  - intros [-> ->]. reflexivity.
Qed.

(** X3. [root_span] is the first span of the list that has no parent:
    the spans before it all have one; it is [None] exactly when every span
    has a parent.  Later spans without a parent are not looked at. *)
Theorem X3_root_span_is_first_parentless (t : Trace datetime) :
  match root_span t with
  | Some s =>
      exists before after,
        spans t = before ++ s :: after /\
        parent_span_id s = None /\
        Forall (fun x => parent_span_id x <> None) before
  | None => Forall (fun x => parent_span_id x <> None) (spans t)
  end.
Proof.
  unfold root_span. pose proof (find_first is_root (spans t)) as H.
  assert (Hr : forall x : Span datetime, is_root x = false -> parent_span_id x <> None).
  { intros x. unfold is_root. by destruct (parent_span_id x). }
  destruct (find is_root (spans t)) as [s |].
  - destruct H as (before & after & Hl & Hs & Hb).
    exists before, after. repeat split; [done | |].
    + unfold is_root in Hs. by destruct (parent_span_id s).
    + eapply Forall_impl; [exact Hb | exact Hr].
  - eapply Forall_impl; [exact H | exact Hr].
Qed.

(** X4. The root span of a trace received from the service is the
    conversion of the first wire span whose [parent_span_id] is the empty
    string. *)
Theorem X4_root_span_of_wire_trace (pb2 : observe_pb2) (pb : Trace_pb) :
  root_span (_to_trace ToDatetime unset_timestamp pb2 pb) =
  option_map (_to_span ToDatetime unset_timestamp pb2)
    (find (fun w : Span_pb => String.eqb (pb_parent_span_id w) EmptyString) (pb_spans pb)).
Proof.
  unfold root_span, _to_trace. cbn [spans]. rewrite find_map.
  f_equal. apply find_ext_eq. intros w. unfold is_root, _to_span. cbn.
  by destruct (pb_parent_span_id w).
Qed.

End ObserveSpanFacts.

Section ObserveSpanExamples.
Import ObserveModel ObserveClient.

Lemma X2_span_round_trip_witness :
  _to_span (fun t : Z => t) 0 ObserveClient.consecutive_pb2
    (span_to_pb (fun d : Z => d) ObserveClient.consecutive_pb2
       {| trace_id := "t1"; span_id := "s1"; parent_span_id := Some EmptyString;
          name := "load"; kind := SERVER; start_time := 1000; end_time := Some 2500;
          status := OK; status_message := None; attributes := ∅;
          service_name := "api" |}) =
  normalized
    {| trace_id := "t1"; span_id := "s1"; parent_span_id := Some EmptyString;
       name := "load"; kind := SERVER; start_time := 1000; end_time := Some 2500;
       status := OK; status_message := None; attributes := ∅;
       service_name := "api" |}.
Proof.
  refine (proj1 (X2_span_round_trip (fun d : Z => d) (fun t : Z => t) 0
                   ObserveClient.consecutive_pb2 _ _ _ _ _)).
  - exact (proj1 observe_consecutive_distinct).
  - exact (proj2 observe_consecutive_distinct).
  - reflexivity.
  - reflexivity.
Defined.

End ObserveSpanExamples.

Section DatasetsFacts.
Import DatasetsModel DatasetsClient.
Local Open Scope string_scope.

(** X5. The keyword arguments of [Dataset(...)]: a value given as [schema]
    is moved to [schema_] when no [schema_] is given; a [schema_] that is
    given is never replaced, and then a [schema] given beside it stays
    where it is; no other argument changes; doing it twice changes
    nothing more. *)
Theorem X5_dataset_schema_alias {V} (data : gmap string V) :
  init_data data !! "schema_" =
    match data !! "schema_" with
    | Some v => Some v
    | None => data !! "schema"
    end /\
  init_data data !! "schema" =
    match data !! "schema_" with
    | Some _ => data !! "schema"
    | None => None
    end /\
  delete "schema" (delete "schema_" (init_data data)) =
    delete "schema" (delete "schema_" data) /\
  init_data (init_data data) = init_data data.
Proof.
  unfold init_data.
  destruct (data !! "schema") as [v |] eqn:Hs, (data !! "schema_") as [w |] eqn:Hw;
    rewrite ?Hs, ?Hw; repeat split; try done.
  - by rewrite lookup_insert_eq.
  - rewrite lookup_insert_ne by done. by rewrite lookup_delete_eq.
  - rewrite delete_insert_eq. apply map_eq. intros k.
    rewrite !lookup_delete.
    repeat case_decide; subst; try done.
  - rewrite lookup_insert_ne by done. rewrite lookup_delete_eq.
    done.
Qed.

Lemma datasets_source_to_pb_eq pb2 s :
  _source_to_pb pb2 s =
  match s with
  | UNSPECIFIED => EXAMPLE_SOURCE_UNSPECIFIED pb2
  | MANUAL => EXAMPLE_SOURCE_MANUAL pb2
  | GENERATED => EXAMPLE_SOURCE_GENERATED pb2
  | PRODUCTION => EXAMPLE_SOURCE_PRODUCTION pb2
  | IMPORTED => EXAMPLE_SOURCE_IMPORTED pb2
  end.
Proof. unfold _source_to_pb. rewrite dict_get_display. by destruct s. Qed.

(** X6. The example source mapper of the datasets client: decoding an
    encoded source gives it back for every source when the five constants
    have distinct wire numbers, and only then; a wire number outside the
    table decodes to [UNSPECIFIED]. *)
Theorem X6_source_mapper_round_trip (pb2 : datasets_pb2) :
  (NoDup (source_wire_values pb2) <->
   forall s, _source_from_pb pb2 (_source_to_pb pb2 s) = s) /\
  (forall w, ~ In w (source_wire_values pb2) -> _source_from_pb pb2 w = UNSPECIFIED).
Proof.
  split; [split |].
  - intros Hd s. unfold source_wire_values in Hd. simpl in Hd.
    rewrite !datasets_source_to_pb_eq in Hd. split_NoDup.
    rewrite datasets_source_to_pb_eq. unfold _source_from_pb.
    rewrite dict_get_display. destruct s; decide_lookups.
  - intros Hrt. unfold source_wire_values.
    apply (NoDup_fmap_2_strong (_source_to_pb pb2)).
    + intros x y _ _ Hxy. rewrite <- (Hrt x), <- (Hrt y). by rewrite Hxy.
    + apply (bool_decide_unpack _). reflexivity.
  - intros w Hw. unfold source_wire_values in Hw. simpl in Hw.
    rewrite !datasets_source_to_pb_eq in Hw. unfold _source_from_pb.
    rewrite dict_get_display. decide_lookups; subst; exfalso; apply Hw; tauto.
Qed.

Lemma X6_source_mapper_round_trip_witness :
  _source_from_pb DatasetsClient.consecutive_pb2 42 = UNSPECIFIED.
Proof.
  refine (proj2 (X6_source_mapper_round_trip DatasetsClient.consecutive_pb2) 42 _).
  unfold source_wire_values. cbn [map all_sources]. rewrite !datasets_source_to_pb_eq.
  cbn. intros H. repeat (destruct H as [H | H]; [discriminate H |]). exact H.
Defined.

(** With two constants on one number the later table entry wins, and the
    earlier source does not come back. *)
Example source_alias_is_lossy :
  _source_from_pb aliased_pb2 (_source_to_pb aliased_pb2 MANUAL) = IMPORTED.
Proof.
  rewrite datasets_source_to_pb_eq. unfold _source_from_pb.
  rewrite dict_get_display. by cbn.
Qed.

End DatasetsFacts.

Section EvalMapperFacts.
Import EvalModel EvalClient.

Lemma eval_status_to_pb_eq pb2 s :
  EvalClient._status_to_pb pb2 s =
  match s with
  | UNSPECIFIED => EVAL_RUN_STATUS_UNSPECIFIED pb2
  | PENDING => EVAL_RUN_STATUS_PENDING pb2
  | RUNNING => EVAL_RUN_STATUS_RUNNING pb2
  | COMPLETED => EVAL_RUN_STATUS_COMPLETED pb2
  | FAILED => EVAL_RUN_STATUS_FAILED pb2
  | CANCELLED => EVAL_RUN_STATUS_CANCELLED pb2
  end.
Proof. unfold EvalClient._status_to_pb. rewrite dict_get_display. by destruct s. Qed.

(** X7. The run status mapper of the eval client: decoding an encoded
    status gives it back for every status when the six constants have
    distinct wire numbers, and only then; a wire number outside the table
    decodes to [UNSPECIFIED]. *)
Theorem X7_run_status_mapper_round_trip (pb2 : eval_pb2) :
  (NoDup (run_status_wire_values pb2) <->
   forall s, EvalClient._status_from_pb pb2 (EvalClient._status_to_pb pb2 s) = s) /\
  (forall w, ~ In w (run_status_wire_values pb2) ->
     EvalClient._status_from_pb pb2 w = UNSPECIFIED).
Proof.
  split; [split |].
  - intros Hd s. unfold run_status_wire_values in Hd. simpl in Hd.
    rewrite !eval_status_to_pb_eq in Hd. split_NoDup.
    rewrite eval_status_to_pb_eq. unfold EvalClient._status_from_pb.
    rewrite dict_get_display. destruct s; decide_lookups.
  - intros Hrt. unfold run_status_wire_values.
    apply (NoDup_fmap_2_strong (EvalClient._status_to_pb pb2)).
    + intros x y _ _ Hxy. rewrite <- (Hrt x), <- (Hrt y). by rewrite Hxy.
    + apply (bool_decide_unpack _). reflexivity.
  - intros w Hw. unfold run_status_wire_values in Hw. simpl in Hw.
    rewrite !eval_status_to_pb_eq in Hw. unfold EvalClient._status_from_pb.
    rewrite dict_get_display. decide_lookups; subst; exfalso; apply Hw; tauto.
Qed.

Lemma X7_run_status_mapper_round_trip_witness :
  EvalClient._status_from_pb EvalClient.consecutive_pb2 (-3) = UNSPECIFIED.
Proof.
  refine (proj2 (X7_run_status_mapper_round_trip EvalClient.consecutive_pb2) (-3) _).
  unfold run_status_wire_values. cbn [map all_run_statuses]. rewrite !eval_status_to_pb_eq.
  cbn. intros H. repeat (destruct H as [H | H]; [discriminate H |]). exact H.
Defined.

End EvalMapperFacts.

Section DeployStatusFacts.
Import DeployModel DeployService.

Lemma deploy_status_unknown pb2 w :
  ~ In w (status_wire_values pb2) -> _status_from_pb pb2 w = STATUS_UNSPECIFIED.
Proof.
  intros Hw. unfold status_wire_values in Hw. simpl in Hw.
  rewrite !_status_to_pb_eq in Hw. unfold _status_from_pb.
  rewrite dict_get_display. decide_lookups; subst; exfalso; apply Hw; tauto.
Qed.

Lemma deploy_status_round_trip pb2 s :
  NoDup (status_wire_values pb2) -> _status_from_pb pb2 (_status_to_pb pb2 s) = s.
Proof.
  intros Hd. unfold status_wire_values in Hd. simpl in Hd.
  rewrite !_status_to_pb_eq in Hd. split_NoDup.
  rewrite _status_to_pb_eq. unfold _status_from_pb.
  rewrite dict_get_display. destruct s; decide_lookups.
Qed.

(** X8. A deployment received with a status number that the client does
    not know (one added on the server side, say) is converted to a
    [Deployment] that is neither active nor complete; and with distinct
    status numbers, a deployment received with the number of a known
    status is active, respectively complete, exactly as that status is. *)
Theorem X8_wire_status_classification (pb2 : deploy_pb2) (pb : DeployClient.Deployment_pb) :
  (~ In (DeployClient.pb_status pb) (status_wire_values pb2) ->
   is_active (DeployClient._to_deployment pb2 pb) = false /\
   is_complete (DeployClient._to_deployment pb2 pb) = false) /\
  (NoDup (status_wire_values pb2) ->
   forall s, DeployClient.pb_status pb = _status_to_pb pb2 s ->
     is_active (DeployClient._to_deployment pb2 pb) =
       member s [PENDING_APPROVAL; PENDING_GATES; IN_PROGRESS] /\
     is_complete (DeployClient._to_deployment pb2 pb) =
       member s [COMPLETED; ROLLED_BACK; CANCELLED; FAILED; GATES_FAILED]).
Proof.
  split.
  - intros Hw. unfold is_active, is_complete, DeployClient._to_deployment. cbn [status].
    by rewrite (deploy_status_unknown pb2 _ Hw).
  - intros Hd s Hs. unfold is_active, is_complete, DeployClient._to_deployment.
    cbn [status]. by rewrite Hs, deploy_status_round_trip.
Qed.

Lemma X8_wire_status_classification_witness :
  (is_active (DeployClient._to_deployment consecutive_pb2
     {| DeployClient.pb_id := "d1"; DeployClient.pb_prompt_id := "p1";
        DeployClient.pb_from_version := 1; DeployClient.pb_to_version := 2;
        DeployClient.pb_environment := "production"; DeployClient.pb_status := 42;
        DeployClient.pb_status_message := ""; DeployClient.pb_gates_passed := false |}) = false /\
   is_complete (DeployClient._to_deployment consecutive_pb2
     {| DeployClient.pb_id := "d1"; DeployClient.pb_prompt_id := "p1";
        DeployClient.pb_from_version := 1; DeployClient.pb_to_version := 2;
        DeployClient.pb_environment := "production"; DeployClient.pb_status := 42;
        DeployClient.pb_status_message := ""; DeployClient.pb_gates_passed := false |}) = false) /\
  (is_active (DeployClient._to_deployment consecutive_pb2
     {| DeployClient.pb_id := "d1"; DeployClient.pb_prompt_id := "p1";
        DeployClient.pb_from_version := 1; DeployClient.pb_to_version := 2;
        DeployClient.pb_environment := "production"; DeployClient.pb_status := 4;
        DeployClient.pb_status_message := ""; DeployClient.pb_gates_passed := false |}) =
     member IN_PROGRESS [PENDING_APPROVAL; PENDING_GATES; IN_PROGRESS] /\
   is_complete (DeployClient._to_deployment consecutive_pb2
     {| DeployClient.pb_id := "d1"; DeployClient.pb_prompt_id := "p1";
        DeployClient.pb_from_version := 1; DeployClient.pb_to_version := 2;
        DeployClient.pb_environment := "production"; DeployClient.pb_status := 4;
        DeployClient.pb_status_message := ""; DeployClient.pb_gates_passed := false |}) =
     member IN_PROGRESS [COMPLETED; ROLLED_BACK; CANCELLED; FAILED; GATES_FAILED]).
Proof.
  split.
  - refine (proj1 (X8_wire_status_classification consecutive_pb2 _) _).
    unfold status_wire_values. cbn [map all_statuses]. rewrite !_status_to_pb_eq.
    cbn. intros H. repeat (destruct H as [H | H]; [discriminate H |]). exact H.
  - refine (proj2 (X8_wire_status_classification consecutive_pb2 _) _ IN_PROGRESS _).
    + unfold status_wire_values. cbn [map all_statuses]. rewrite !_status_to_pb_eq.
      cbn. apply (bool_decide_unpack _). reflexivity.
    + by rewrite _status_to_pb_eq.
Defined.

End DeployStatusFacts.

Section PromptMoreFacts.
Import PromptModel PyStr.
Local Open Scope string_scope.

Lemma occurs_cons old c s :
  occurs old (String c s) = false ->
  String.prefix old (String c s) = false /\ occurs old s = false.
Proof. cbn [occurs]. intros H. by apply orb_false_elim in H. Qed.

(** Replacing what does not occur changes nothing. *)
Lemma replace_from_absent old new s :
  occurs old s = false -> replace_from old new 0 s = s.
Proof.
  induction s as [|c s IH]; intros H; [done |].
  apply occurs_cons in H as [Hp Ho].
  cbn [replace_from]. rewrite Hp. by rewrite IH.
Qed.

Lemma str_replace_absent s name value :
  occurs (placeholder name) s = false -> str_replace s (placeholder name) value = s.
Proof. intros H. by apply replace_from_absent. Qed.

(** X9. When the selected version exists and none of the supplied
    variables has its placeholder in the template, whatever the values
    are, [render] returns the template as it is; this includes
    [variables] being [None] or empty. *)
Theorem X9_render_without_matching_placeholder
    (p : Prompt) (variables : option (list (string * string)))
    (version : option Z) (v : PromptVersion) :
  get_version p version = Some v ->
  forallb (fun kv => negb (occurs (placeholder kv.1) (template v)))
    (items_of variables) = true ->
  render p variables version = Py.Return (template v).
Proof.
  intros Hv Hitems. unfold render. rewrite Hv.
  destruct variables as [[|kv items] |]; [done | | done].
  cbn [items_of] in Hitems. f_equal.
  set (l := kv :: items) in *. clearbody l. clear kv items.
  induction l as [|[n x] l IH]; [done |].
  cbn [forallb fst] in Hitems. apply andb_true_iff in Hitems as [Hn Hl].
  apply negb_true_iff in Hn.
  cbn [fold_left fst snd]. rewrite str_replace_absent by done. by apply IH.
Qed.

Lemma X9_render_without_matching_placeholder_witness :
  render (prompt_with 1 [version_with 1 "Hello {{name}}!"])
    (Some [("user", "{{name}}"); ("Name", "x")]) None = Py.Return "Hello {{name}}!".
Proof.
  refine (X9_render_without_matching_placeholder
            (prompt_with 1 [version_with 1 "Hello {{name}}!"])
            (Some [("user", "{{name}}"); ("Name", "x")]) None
            (version_with 1 "Hello {{name}}!") _ _); reflexivity.
Defined.


End PromptMoreFacts.

Section ThreadFacts.
Import Base BaseThreads.

Lemma count_waiting_insert (ts : list thread) (i : nat) (t t' : thread) :
  ts !! i = Some t ->
  (count_waiting (<[ i := t' ]> ts) + (if waiting t then 1 else 0) =
   count_waiting ts + (if waiting t' then 1 else 0))%nat.
Proof.
  unfold count_waiting. revert i. induction ts as [|a ts IH]; intros i Hi; [done |].
  destruct i as [|i]; simpl in Hi.
  - injection Hi as ->. cbn [List.filter]. change (<[0%nat:=t']> (t :: ts)) with (t' :: ts).
    cbn [List.filter]. destruct (waiting t), (waiting t'); simpl; lia.
  - change (<[S i:=t']> (a :: ts)) with (a :: <[i:=t']> ts).
    cbn [List.filter]. specialize (IH i Hi).
    destruct (waiting a); simpl; lia.
Qed.

(** One step of one thread: it creates at most the one channel that its
    leaving [Creating] accounts for, never unsets the channel, and reaches
    [return] only with the channel set. *)
Lemma step_thread_keeps (t t' : thread) (s s' : state) :
  step_thread t s = (t', s') ->
  not_none t = true ->
  (_channel (fst s) = None -> before_return t = true) ->
  not_none t' = true /\
  (_channel (fst s') = None -> before_return t' = true /\ _channel (fst s) = None) /\
  (length (Grpc.created (snd s')) + (if waiting t' then 1 else 0) <=
   length (Grpc.created (snd s)) + (if waiting t then 1 else 0))%nat.
Proof.
  destruct s as [c g]. destruct t as [| | h | | r]; cbn [step_thread fst snd].
  - destruct (_channel c) eqn:Hc; intros [= <- <-] _ _; cbn [fst snd waiting not_none].
    + split; [done |]. split; [| lia]. intros Hc'. congruence.
    + split; [done |]. split; [| lia]. by intros _.
  - unfold open_channel. intros [= <- <-] _ Hq. cbn [fst snd waiting not_none].
    rewrite created_log_creation, length_app. cbn [length].
    split; [done |]. split; [| lia]. intros Hc. by split.
  - intros [= <- <-] _ _. cbn [fst snd waiting not_none write_channel].
    split; [done |]. split; [| lia]. intros Hc. discriminate Hc.
  - intros [= <- <-] _ Hq. cbn [fst snd waiting not_none].
    destruct (_channel c) eqn:Hc.
    + split; [done |]. split; [| lia]. intros Hc'. discriminate Hc'.
    + specialize (Hq eq_refl). discriminate Hq.
  - intros [= <- <-] Hn Hq. cbn [fst snd waiting].
    split; [done |]. split; [| lia]. intros Hc. specialize (Hq Hc). discriminate Hq.
Qed.

Lemma run_threads_keeps (schedule : list nat) (ts : list thread) (s : state) :
  Forall (fun t => not_none t = true) ts ->
  (_channel (fst s) = None -> Forall (fun t => before_return t = true) ts) ->
  Forall (fun t => not_none t = true) (fst (run_threads schedule ts s)) /\
  length (fst (run_threads schedule ts s)) = length ts /\
  (length (Grpc.created (snd (snd (run_threads schedule ts s)))) +
   count_waiting (fst (run_threads schedule ts s)) <=
   length (Grpc.created (snd s)) + count_waiting ts)%nat.
Proof.
  revert ts s. induction schedule as [|i schedule IH]; intros ts s Hn Hq.
  - cbn [run_threads fst snd]. split; [done |]. split; [done | lia].
  - cbn [run_threads]. destruct (ts !! i) as [t |] eqn:Hi; [| by apply IH].
    destruct (step_thread t s) as [t' s'] eqn:Hstep.
    pose proof (Forall_lookup_1 _ _ _ _ Hn Hi) as Hnt.
    assert (Hqt : _channel (fst s) = None -> before_return t = true).
    { intros Hc. exact (Forall_lookup_1 _ _ _ _ (Hq Hc) Hi). }
    destruct (step_thread_keeps _ _ _ _ Hstep Hnt Hqt) as (Hn' & Hq' & Hcount).
    destruct (IH (<[ i := t' ]> ts) s') as (H1 & H2 & H3).
    + by apply Forall_insert.
    + intros Hc. destruct (Hq' Hc) as [Hb Hc0]. apply Forall_insert; [by apply Hq | done].
    + split; [done |]. split; [by rewrite H2, length_insert |].
      pose proof (count_waiting_insert ts i t t' Hi). lia.
Qed.

Lemma count_waiting_start (n : nat) : count_waiting (replicate n Start) = n.
Proof.
  unfold count_waiting. induction n as [|n IH]; [done |]. cbn. by rewrite IH.
Qed.

(** X11. However the calls of [channel] made by [n] threads interleave
    (no [close] among them), at most [n] channels are created, one per
    thread at most, and no call returns [None]. *)
Theorem X11_threads_create_at_most_one_channel_each
    (schedule : list nat) (n : nat) (s : Base.state) :
  (length (Grpc.created (snd (snd (run_threads schedule (replicate n Start) s)))) <=
   length (Grpc.created (snd s)) + n)%nat /\
  Forall (fun t => t <> Done None) (fst (run_threads schedule (replicate n Start) s)) /\
  length (fst (run_threads schedule (replicate n Start) s)) = n.
Proof.
  destruct (run_threads_keeps schedule (replicate n Start) s) as (H1 & H2 & H3).
  - apply Forall_replicate. reflexivity.
  - intros _. apply Forall_replicate. reflexivity.
  - rewrite count_waiting_start in H3. rewrite length_replicate in H2.
    split; [lia |]. split; [| done].
    eapply Forall_impl; [exact H1 |]. intros t Ht ->. discriminate Ht.
Qed.

End ThreadFacts.

Section StubFacts.
Import Eff.

Lemma stub_cached generated (c : Service.ServiceClient) (g : Grpc.runtime) (st : Service.Stub) :
  Service._stub c = Some st -> Service.stub generated (c, g) = (Py.Return st, (c, g)).
Proof.
  intros Hst. unfold Service.stub, mbind, eff_bind, Eff.bind, Service.read_stub.
  by rewrite Hst.
Qed.

Lemma base_channel_created (s : Base.state) :
  (length (Grpc.created (snd (snd (Base.channel s)))) <= S (length (Grpc.created (snd s))))%nat.
Proof.
  destruct s as [[e t [h |]] g].
  - rewrite (channel_reuses {| Base._endpoint := e; Base._timeout := t;
                               Base._channel := Some h |} g h) by reflexivity.
    cbn [snd]. lia.
  - change {| Base._endpoint := e; Base._timeout := t; Base._channel := None |}
      with (Base.set_channel None
              {| Base._endpoint := e; Base._timeout := t; Base._channel := None |}).
    rewrite channel_creates. cbn [snd]. rewrite created_log_creation, length_app.
    cbn. lia.
Qed.

(** X12. The stub of a service client is built at most once: when [stub]
    has returned, every later [stub] returns the same stub and leaves the
    client and the gRPC runtime as they are, whether or not the generated
    code is importable then; and building it creates at most one channel. *)
Theorem X12_stub_is_built_once (generated again : bool) (s s1 : Service.state)
    (st : Service.Stub) :
  Service.stub generated s = (Py.Return st, s1) ->
  Service.stub again s1 = (Py.Return st, s1) /\
  (length (Grpc.created (snd s1)) <= S (length (Grpc.created (snd s))))%nat.
Proof.
  destruct s as [[b [st0 |]] g]; intros H.
  - rewrite (stub_cached _ _ _ st0) in H by done. injection H as <- <-.
    split; [by apply stub_cached | cbn [snd]; lia].
  - unfold Service.stub, mbind, eff_bind, Eff.bind in H. cbn -[Base.channel] in H.
    destruct generated; [| discriminate H].
    unfold Service.inherited in H. cbn -[Base.channel] in H.
    pose proof (base_channel_created (b, g)) as Hc.
    destruct (Base.channel (b, g)) as [[ch | e] [b' g']]; [| discriminate H].
    cbn in H. injection H as <- <-.
    split; [by apply stub_cached | exact Hc].
Qed.

Lemma X12_stub_is_built_once_witness :
  Service.stub false Service.after_first_use =
    (Py.Return {| Service.stub_channel := Some 0%nat |}, Service.after_first_use) /\
  (length (Grpc.created (snd Service.after_first_use)) <=
   S (length (Grpc.created Grpc.initial)))%nat.
Proof.
  refine (X12_stub_is_built_once true false
            (Service.init (Config.default_endpoint 9002) (PyFloat.of_int 30), Grpc.initial)
            Service.after_first_use {| Service.stub_channel := Some 0%nat |} _).
  reflexivity.
Defined.

(** X13. [close] does not discard the stub: a client that has built its
    stub still returns that same stub after [close], bound to the channel
    that was closed; asking for it opens no new channel and leaves
    [_channel] at [None]. *)
Theorem X13_stub_survives_close (generated : bool) (s s' : Service.state)
    (st : Service.Stub) :
  Service._stub (fst s) = Some st ->
  Service.close s = (Py.Return tt, s') ->
  Service.stub generated s' = (Py.Return st, s') /\
  Base._channel (Service.base (fst s')) = None /\
  Grpc.created (snd s') = Grpc.created (snd s) /\
  (forall h, Base._channel (Service.base (fst s)) = Some h ->
     Grpc.trace (snd s') = Grpc.trace (snd s) ++ [Grpc.ChannelClose h]).
Proof.
  destruct s as [[b ost] g], s' as [c' g']. cbn [fst snd Service._stub]. intros -> Hclose.
  pose proof (service_close_returns _ _ Hclose) as [Hch Hst]. cbn [fst Service._stub] in Hst.
  split; [by apply stub_cached |]. split; [done |].
  unfold Service.close, Service.inherited, Base.close, mbind, eff_bind, Eff.bind in Hclose.
  cbn in Hclose. destruct b as [e t [h |]]; cbn in Hclose.
  - destruct (Grpc.close_error g h); [discriminate Hclose |].
    cbn in Hclose. injection Hclose as <- <-. split.
    + unfold Grpc.created. cbn. rewrite List.filter_app. cbn. by rewrite app_nil_r.
    + intros h' [= <-]. reflexivity.
  - injection Hclose as <- <-. split; [done |]. intros h [=].
Qed.

Lemma X13_stub_survives_close_witness :
  Service.stub true (snd (Service.close Service.after_first_use)) =
    (Py.Return {| Service.stub_channel := Some 0%nat |},
     snd (Service.close Service.after_first_use)) /\
  Base._channel (Service.base (fst (snd (Service.close Service.after_first_use)))) = None /\
  Grpc.created (snd (snd (Service.close Service.after_first_use))) =
    Grpc.created (snd Service.after_first_use) /\
  (forall h, Base._channel (Service.base (fst Service.after_first_use)) = Some h ->
     Grpc.trace (snd (snd (Service.close Service.after_first_use))) =
     Grpc.trace (snd Service.after_first_use) ++ [Grpc.ChannelClose h]).
Proof.
  refine (X13_stub_survives_close true Service.after_first_use _
            {| Service.stub_channel := Some 0%nat |} _ _); reflexivity.
Defined.

End StubFacts.
Section ContextManagerFacts.
Import Eff ContextManager.

Lemma base_close_without_error (c : Base.BaseClient) (g : Grpc.runtime) :
  (forall h, Grpc.close_error g h = None) ->
  exists g', Base.close (c, g) = (Py.Return tt, (Base.set_channel None c, g')) /\
             (forall h, Grpc.close_error g' h = None).
Proof.
  intros Hg. destruct c as [e t [h |]].
  - exists (Grpc.log (Grpc.ChannelClose h) g).
    unfold Base.close, mbind, eff_bind, Eff.bind. cbn. rewrite Hg. cbn. by split.
  - exists g. by split.
Qed.

Lemma service_close_without_error (c : Service.ServiceClient) (g : Grpc.runtime) :
  (forall h, Grpc.close_error g h = None) ->
  exists c' g', Service.close (c, g) = (Py.Return tt, (c', g')) /\
                (forall h, Grpc.close_error g' h = None).
Proof.
  intros Hg. destruct (base_close_without_error (Service.base c) g Hg) as (g' & Hc & Hg').
  unfold Service.close, Service.inherited. rewrite Hc. by eexists _, g'.
Qed.

Lemma close_slot_without_error slot set_slot (f : Client.DelosClient) (g : Grpc.runtime) :
  (forall h, Grpc.close_error g h = None) ->
  exists f' g', Client.close_slot slot set_slot (f, g) = (Py.Return tt, (f', g')) /\
                (forall h, Grpc.close_error g' h = None).
Proof.
  intros Hg. unfold Client.close_slot, mbind, eff_bind, Eff.bind. cbn [Client.read_self].
  destruct (slot f) as [c |]; [| by exists f, g].
  destruct (service_close_without_error c g Hg) as (c' & g' & Hc & Hg').
  unfold Client.on_slot. rewrite Hc. cbn. by eexists _, g'.
Qed.

Lemma client_close_without_error (f : Client.DelosClient) (g : Grpc.runtime) :
  (forall h, Grpc.close_error g h = None) ->
  exists s', Client.close (f, g) = (Py.Return tt, s').
Proof.
  intros Hg. unfold Client.close, mbind, eff_bind, Eff.bind.
  destruct (close_slot_without_error Client._observe Client.set_observe f g Hg)
    as (f1 & g1 & -> & Hg1).
  destruct (close_slot_without_error Client._runtime Client.set_runtime f1 g1 Hg1)
    as (f2 & g2 & -> & Hg2).
  destruct (close_slot_without_error Client._prompts Client.set_prompts f2 g2 Hg2)
    as (f3 & g3 & -> & Hg3).
  destruct (close_slot_without_error Client._datasets Client.set_datasets f3 g3 Hg3)
    as (f4 & g4 & -> & Hg4).
  destruct (close_slot_without_error Client._eval Client.set_eval f4 g4 Hg4)
    as (f5 & g5 & -> & Hg5).
  destruct (close_slot_without_error Client._deploy Client.set_deploy f5 g5 Hg5)
    as (f6 & g6 & -> & Hg6).
  by eexists.
Qed.

(** X14. A client used in a [with] block is closed when the block is
    left, whether the body returned or raised, and the outcome of the
    block is the outcome of the body: provided closing a channel does not
    itself fail, afterwards the channel of a service client is [None] and
    all sub-clients of the facade are [None]. *)
Theorem X14_with_block_closes :
  (forall A (body : eff Base.state A) (s : Base.state),
     (forall h, Grpc.close_error (snd (snd (body s))) h = None) ->
     fst (with_base body s) = fst (body s) /\
     Base._channel (fst (snd (with_base body s))) = None) /\
  (forall A (body : eff Service.state A) (s : Service.state),
     (forall h, Grpc.close_error (snd (snd (body s))) h = None) ->
     fst (with_service body s) = fst (body s) /\
     Base._channel (Service.base (fst (snd (with_service body s)))) = None) /\
  (forall A (body : eff Client.state A) (s : Client.state),
     (forall h, Grpc.close_error (snd (snd (body s))) h = None) ->
     fst (with_client body s) = fst (body s) /\
     Client.all_closed (fst (snd (with_client body s))) = true).
Proof.
  split; [| split]; intros A body s Hg;
    unfold with_base, with_service, with_client, with_, try_finally;
    destruct (body s) as [r [c g]]; cbn [fst snd] in *.
  - destruct (base_close_without_error c g Hg) as (g' & -> & _). by split.
  - destruct (service_close_without_error c g Hg) as (c' & g' & Hc & _).
    rewrite Hc. split; [done |].
    by apply service_close_returns in Hc as [Hc _].
  - destruct (client_close_without_error c g Hg) as ([f' g'] & Hc).
    rewrite Hc. split; [done |].
    by apply client_close_returns in Hc.
Qed.

End ContextManagerFacts.

Section ContextManagerExamples.
Import Eff ContextManager.

(** A block whose body builds the stub of the prompt client and then
    fails: the failure comes out of the block and the facade is closed. *)
Lemma X14_with_block_closes_witness :
  fst (with_client
         (c ← Client.prompts;
          _ ← Client.on_slot Client.set_prompts c (Service.stub true);
          raise (Py.RuntimeError "body"))
         (Client.init None, Grpc.initial)) =
  fst ((c ← Client.prompts;
        _ ← Client.on_slot Client.set_prompts c (Service.stub true);
        raise (Py.RuntimeError "body") : eff Client.state unit)
         (Client.init None, Grpc.initial)) /\
  Client.all_closed (fst (snd (with_client
         (c ← Client.prompts;
          _ ← Client.on_slot Client.set_prompts c (Service.stub true);
          raise (Py.RuntimeError "body") : eff Client.state unit)
         (Client.init None, Grpc.initial)))) = true.
Proof.
  refine (proj2 (proj2 X14_with_block_closes) unit _ (Client.init None, Grpc.initial) _).
  intros h. reflexivity.
Defined.

End ContextManagerExamples.

Section ClientAccessFacts.
Import Eff.

(** X15. Each of the six properties of the facade builds its client
    lazily and once.  A client that its slot holds is returned as it is,
    with its channel and stub if it has them, and the facade does not
    change.  With an empty slot, the client is built from the endpoint of
    the configuration for that service and from the configured timeout,
    with no channel and no stub, and is stored in the slot, so that the
    next access returns it; the configuration and the five other slots are
    left alone.  The gRPC runtime is the same before and after: reading a
    property opens no connection. *)
Theorem X15_sub_clients_are_lazy :
  ClientAccess.lazily_built ClientAccess.observe Client._observe Config.observe
    [Client._runtime; Client._prompts; Client._datasets; Client._eval; Client._deploy] /\
  ClientAccess.lazily_built ClientAccess.runtime Client._runtime Config.runtime
    [Client._observe; Client._prompts; Client._datasets; Client._eval; Client._deploy] /\
  ClientAccess.lazily_built Client.prompts Client._prompts Config.prompt
    [Client._observe; Client._runtime; Client._datasets; Client._eval; Client._deploy] /\
  ClientAccess.lazily_built ClientAccess.datasets Client._datasets Config.datasets
    [Client._observe; Client._runtime; Client._prompts; Client._eval; Client._deploy] /\
  ClientAccess.lazily_built ClientAccess.eval Client._eval Config.eval
    [Client._observe; Client._runtime; Client._prompts; Client._datasets; Client._deploy] /\
  ClientAccess.lazily_built Client.deploy Client._deploy Config.deploy
    [Client._observe; Client._runtime; Client._prompts; Client._datasets; Client._eval].
Proof.
  repeat apply conj; intros [cfg o r p d e y] g;
    unfold ClientAccess.observe, ClientAccess.runtime, ClientAccess.datasets,
      ClientAccess.eval, Client.prompts, Client.deploy, Client.sub_client;
    cbn.
  - destruct o; [done |]. eexists. repeat apply conj; try done.
    by repeat (apply Forall_cons; split).
  - destruct r; [done |]. eexists. repeat apply conj; try done.
    by repeat (apply Forall_cons; split).
  - destruct p; [done |]. eexists. repeat apply conj; try done.
    by repeat (apply Forall_cons; split).
  - destruct d; [done |]. eexists. repeat apply conj; try done.
    by repeat (apply Forall_cons; split).
  - destruct e; [done |]. eexists. repeat apply conj; try done.
    by repeat (apply Forall_cons; split).
  - destruct y; [done |]. eexists. repeat apply conj; try done.
    by repeat (apply Forall_cons; split).
Qed.

End ClientAccessFacts.
Section FromEnvFacts.
Import ConfigEnv.
Local Open Scope string_scope.

Lemma getenv_unset env key default :
  env !! key = None -> getenv env key default = default.
Proof. intros H. unfold getenv, Py.dict_get. by rewrite H. Qed.


(** X16. With none of its variables set, [from_env] returns the
    configuration that [DelosConfig()] builds: localhost, the ports 9000 to
    9005, no TLS, no API key, and the timeouts 30.0 and 10.0.  (The
    builtins [int] and [float] are taken to read back the default ports
    and the two default timeouts.) *)
Theorem X16_from_env_defaults
    (int_of_str : string -> Py.result Z) (float_of_str : string -> Py.result spec_float)
    (env : gmap string string) :
  Forall (fun p => int_of_str (Py.str_of_int p) = Py.Return p) default_ports ->
  float_of_str "30.0" = Py.Return (PyFloat.of_int 30) ->
  float_of_str "10.0" = Py.Return (PyFloat.of_int 10) ->
  Forall (fun key => env !! key = None) variables ->
  from_env int_of_str float_of_str env = Py.Return Config.default_config.
Proof.
  intros Hint H30 H10 Henv. unfold default_ports in Hint. unfold variables in Henv.
  repeat (apply Forall_cons in Hint as [? Hint]).
  repeat (apply Forall_cons in Henv as [? Henv]).
  unfold from_env, get_endpoint.
  change (upper "observe") with "OBSERVE". change (upper "runtime") with "RUNTIME".
  change (upper "prompt") with "PROMPT". change (upper "datasets") with "DATASETS".
  change (upper "eval") with "EVAL". change (upper "deploy") with "DEPLOY".
  change ("DELOS_" ++ "OBSERVE" ++ "_HOST") with "DELOS_OBSERVE_HOST".
  change ("DELOS_" ++ "OBSERVE" ++ "_PORT") with "DELOS_OBSERVE_PORT".
  change ("DELOS_" ++ "RUNTIME" ++ "_HOST") with "DELOS_RUNTIME_HOST".
  change ("DELOS_" ++ "RUNTIME" ++ "_PORT") with "DELOS_RUNTIME_PORT".
  change ("DELOS_" ++ "PROMPT" ++ "_HOST") with "DELOS_PROMPT_HOST".
  change ("DELOS_" ++ "PROMPT" ++ "_PORT") with "DELOS_PROMPT_PORT".
  change ("DELOS_" ++ "DATASETS" ++ "_HOST") with "DELOS_DATASETS_HOST".
  change ("DELOS_" ++ "DATASETS" ++ "_PORT") with "DELOS_DATASETS_PORT".
  change ("DELOS_" ++ "EVAL" ++ "_HOST") with "DELOS_EVAL_HOST".
  change ("DELOS_" ++ "EVAL" ++ "_PORT") with "DELOS_EVAL_PORT".
  change ("DELOS_" ++ "DEPLOY" ++ "_HOST") with "DELOS_DEPLOY_HOST".
  change ("DELOS_" ++ "DEPLOY" ++ "_PORT") with "DELOS_DEPLOY_PORT".
  rewrite !getenv_unset by assumption.
  unfold mbind, result_bind.
  repeat match goal with
  | H : int_of_str _ = Py.Return _ |- _ => rewrite H; clear H; cbn [Py.bind]
  end.
  rewrite H30, H10. cbn [Py.bind]. unfold getenv_opt, Config.default_config.
  by repeat match goal with H : env !! _ = None |- _ => rewrite H; clear H end.
Qed.


End FromEnvFacts.

Section FromEnvExamples.
Import ConfigEnv.
Local Open Scope string_scope.

Lemma X16_from_env_defaults_witness :
  from_env sample_int sample_float (Py.dict_display [("PATH", "/usr/bin")]) =
  Py.Return Config.default_config.
Proof.
  apply X16_from_env_defaults.
  - unfold default_ports. by repeat constructor.
  - reflexivity.
  - reflexivity.
  - unfold variables, Py.dict_display. cbn [foldl fst snd].
    repeat constructor; by rewrite lookup_insert_ne.
Defined.


End FromEnvExamples.

Section LookupStateFacts.
Import Eff.

Lemma lookup_state {Request Response Model}
    (method : Service.rpc Request Response) (convert : Response -> Py.result Model)
    (request : Request) (s : Service.state) :
  snd (Service.lookup true method convert (Py.Return request) s) =
  snd (Service.stub true s).
Proof.
  unfold Service.lookup, Service.message, Service.invoke, Service.remote,
    Service.outcome, mbind, eff_bind, Eff.bind, Eff.try_except, Eff.ret.
  destruct (stub_returns s) as (st & s' & ->).
  destruct (method request) as [response |]; [| done].
  by destruct (convert response).
Qed.

Lemma stub_state_fixed (s : Service.state) :
  snd (Service.stub true (snd (Service.stub true s))) = snd (Service.stub true s).
Proof.
  destruct (stub_returns s) as (st & s1 & Hs). rewrite Hs. cbn [snd].
  destruct s as [[b [st0 |]] g].
  - rewrite (stub_cached _ _ _ st0) in Hs by done. injection Hs as <- <-.
    by rewrite (stub_cached _ _ _ st0).
  - unfold Service.stub, mbind, eff_bind, Eff.bind in Hs. cbn -[Base.channel] in Hs.
    unfold Service.inherited in Hs. cbn -[Base.channel] in Hs.
    destruct (Base.channel (b, g)) as [[ch | e] [b' g']]; [| discriminate Hs].
    cbn in Hs. injection Hs as <- <-.
    by rewrite (stub_cached _ _ _ {| Service.stub_channel := ch |}).
Qed.

(** X18. A lookup whose request was built, found or not, failed or not,
    converted or not, leaves the client as building its stub leaves it: the
    first one opens the channel, at most one, and every lookup after it,
    for whatever resource, changes neither the client nor the gRPC
    runtime. *)
Theorem X18_lookups_open_one_channel {Request Response Model}
    (method : Service.rpc Request Response) (convert : Response -> Py.result Model)
    (request : Request) (s : Service.state) :
  snd (Service.lookup true method convert (Py.Return request) s) =
    snd (Service.stub true s) /\
  (length (Grpc.created
             (snd (snd (Service.lookup true method convert (Py.Return request) s)))) <=
   S (length (Grpc.created (snd s))))%nat /\
  (forall (Request' Response' Model' : Type)
          (method' : Service.rpc Request' Response')
          (convert' : Response' -> Py.result Model') (request' : Request'),
     snd (Service.lookup true method' convert' (Py.Return request')
            (snd (Service.lookup true method convert (Py.Return request) s))) =
     snd (Service.lookup true method convert (Py.Return request) s)).
Proof.
  split; [apply lookup_state |]. split.
  - rewrite lookup_state. destruct (stub_returns s) as (st & s1 & Hs). rewrite Hs.
    destruct s as [[b [st0 |]] g].
    + rewrite (stub_cached _ _ _ st0) in Hs by done. injection Hs as <- <-. cbn [snd]. lia.
    + unfold Service.stub, mbind, eff_bind, Eff.bind in Hs. cbn -[Base.channel] in Hs.
      unfold Service.inherited in Hs. cbn -[Base.channel] in Hs.
      pose proof (base_channel_created (b, g)) as Hc.
      destruct (Base.channel (b, g)) as [[ch | e] [b' g']]; [| discriminate Hs].
      cbn in Hs. injection Hs as <- <-. exact Hc.
  - intros. rewrite !lookup_state. apply stub_state_fixed.
Qed.

End LookupStateFacts.

Section CloseFailureFacts.
Import Eff.

Lemma close_slot_raises slot set_slot (f f' : Client.DelosClient) (g g' : Grpc.runtime) e :
  Client.close_slot slot set_slot (f, g) = (Py.Raise e, (f', g')) ->
  exists c', f' = set_slot (Some c') f.
Proof.
  unfold Client.close_slot, mbind, eff_bind, Eff.bind. cbn [Client.read_self].
  destruct (slot f) as [c |]; [| discriminate].
  unfold Client.on_slot.
  destruct (Service.close (c, g)) as [[[] | e'] [c' g1]]; cbn; [discriminate |].
  intros [= _ <- _]. by exists c'.
Qed.

Lemma bind_raise_inv {S A B} (m : eff S A) (k : A -> eff S B) s e s' :
  Eff.bind m k s = (Py.Raise e, s') ->
  m s = (Py.Raise e, s') \/ exists a s1, m s = (Py.Return a, s1) /\ k a s1 = (Py.Raise e, s').
Proof.
  unfold Eff.bind. destruct (m s) as [[a | e'] s1]; intros H.
  - right. by exists a, s1.
  - left. by injection H as <- <-.
Qed.

(** X19. A [close] that fails is the failure of closing a channel, and it
    is not silent about what is left: a failed [close] of a service client
    changes nothing, so that its channel is still set; and after a failed
    [close] of the facade some sub-client is still set.  With the
    idempotence of [close] this gives: the facade is all closed exactly
    when [close] returned. *)
Theorem X19_failed_close_leaves_clients_set :
  (forall (s s' : Base.state) e,
     Base.close s = (Py.Raise e, s') ->
     s' = s /\ exists h, Base._channel (fst s) = Some h /\
                         Grpc.close_error (snd s) h = Some e) /\
  (forall (s s' : Client.state) e,
     Client.close s = (Py.Raise e, s') -> Client.all_closed (fst s') = false).
Proof.
  split.
  - intros [c g] s' e. unfold Base.close, mbind, eff_bind, Eff.bind. cbn.
    destruct (Base._channel c) as [h |] eqn:Hc; cbn; [| discriminate].
    destruct (Grpc.close_error g h) as [e' |] eqn:He; cbn; [| discriminate].
    intros [= <- <-]. split; [done |]. by exists h.
  - intros [f g] [f' g'] e. unfold Client.close, mbind, eff_bind. intros H.
    apply bind_raise_inv in H as [H | ([] & [f1 g1] & _ & H)];
      [apply close_slot_raises in H as [c' ->]; by destruct f |].
    apply bind_raise_inv in H as [H | ([] & [f2 g2] & _ & H)];
      [apply close_slot_raises in H as [c' ->]; by destruct f1 as [? [] ? ? ? ? ?] |].
    apply bind_raise_inv in H as [H | ([] & [f3 g3] & _ & H)];
      [apply close_slot_raises in H as [c' ->]; by destruct f2 as [? [] [] ? ? ? ?] |].
    apply bind_raise_inv in H as [H | ([] & [f4 g4] & _ & H)];
      [apply close_slot_raises in H as [c' ->]; by destruct f3 as [? [] [] [] ? ? ?] |].
    apply bind_raise_inv in H as [H | ([] & [f5 g5] & _ & H)];
      [apply close_slot_raises in H as [c' ->]; by destruct f4 as [? [] [] [] [] ? ?] |].
    apply close_slot_raises in H as [c' ->]. by destruct f5 as [? [] [] [] [] [] ?].
Qed.

End CloseFailureFacts.

Section CloseFailureExamples.
Import CloseFailure.

Lemma X19_failed_close_leaves_clients_set_witness :
  (snd (Base.close stuck_client) = stuck_client /\
   exists h, Base._channel (fst stuck_client) = Some h /\
             Grpc.close_error (snd stuck_client) h = Some (Py.RuntimeError "close failed")) /\
  Client.all_closed (fst (snd (Client.close stuck_facade))) = false.
Proof.
  split.
  - refine (proj1 X19_failed_close_leaves_clients_set stuck_client _
              (Py.RuntimeError "close failed") _).
    reflexivity.
  - refine (proj2 X19_failed_close_leaves_clients_set stuck_facade _
              (Py.RuntimeError "close failed") _).
    reflexivity.
Defined.

End CloseFailureExamples.
